(** * Session lifecycle manager of the WhatsApp multi-session gateway

    A shallow embedding of the session lifecycle code of the three server
    variants of the repository,

      - [src/server.js]                      (module [Server]),
      - [src/server-2.js]                    (module [Server2]),
      - [server-optimized.js], third document of [src/unnamed/part_000]
                                             (module [ServerOptimized]),

    and the verification of the lifecycle properties of the specification
    against them.

    Modelling conventions.

    - The registry [const sessions = {}] is a [gmap string Session] of its
      own entries.  A lookup [sessions[id]] also reads through the
      prototype: for an id without an entry that names a property of
      [Object.prototype] (see [inherited_key]) the code gets an inherited,
      truthy value that is no record.  The handlers of the three modules
      do not follow the code there: every statement about them for an id
      without a record carries [inherited_key id = false], as does every
      statement that relies on the timer table of server-optimized for an
      id, and no handler is taken to have run for the id [__proto__].
      Module [ServerInherited] and [send_message_route] evaluate the
      lookup as JavaScript does ([looked_up]), on the paths that read
      nothing of the inherited value but its [sock] and [authRedis], which
      no handler ever stores.  A record object is created in
      exactly one place, [startSession], together with one fresh transport
      object, so the transport handle doubles as the identity of the
      record object.
    - Objects handed out by the libraries (sockets, redis clients, timers)
      are numbered handles drawn from counters kept in the state.
    - Every handler (HTTP request, transport event, timer callback, sweep
      tick) is run to completion as one step: the [await]s inside a handler
      are sequenced in program order, and no other handler runs in between.
      What is stated of runs of events is stated of such runs.  Where a
      claim depends on what happens while a handler waits, the two halves
      of the handler are given separately: [startSession_admit] and
      [startSession_register], [killSession_begin] and
      [killSession_finish] of server-optimized, and the events that arrive
      while the restore at boot waits ([key_during]).
    - Which socket an event comes from is kept in the [listeners] table of
      the state: a socket reports to the listener attached to it for as
      long as the code has not removed it, also after [sock.end()].
    - Calls into the collaborators may throw; whether they do is answered
      by an environment [Env].
    - A [string] is the sequence of the UTF-16 code units of a JavaScript
      string all of whose code units are below 256, so that
      [String.length] is [.length].  The strings of the cross-origin
      policy, which come from the environment and from a request header,
      are lists of code units of any value ([CodeUnits]).
    - A field of a request that the code uses as a string is a string or
      absent; [send_message_route] also takes a [number] that is no
      string.
    - Side effects on the collaborators are appended to a log of
      [Effect]s; [console.log] lines are not recorded, [console.warn] lines
      are. *)

From stdpp Require Import gmap strings list fin_maps pretty.
From Stdlib Require Import ZArith Ascii.

Local Open Scope string_scope.
Local Open Scope list_scope.
Local Open Scope Z_scope.

(** ** Data model *)

(** The object literal stored by [startSession] (server.js 202-212,
    server-2.js 237-248, server-optimized 358-370).  [isReconnecting] is
    absent (undefined, hence falsy) in server.js until a handler sets it;
    [false] stands for both.  The [listeners] field of server-optimized only
    mirrors what is attached to the socket and is kept in [listeners] of the
    state. *)
Record Session := mkSession {
  sock : nat;
  status : string;
  qr : option string;
  pairingCode : option string;
  createdAt : Z;
  connectedAt : option Z;
  phoneNumber : option string;
  authRedis : nat;
  reconnectAttempts : Z;
  isReconnecting : bool
}.

Definition set_status (v : string) (s : Session) : Session :=
  mkSession (sock s) v (qr s) (pairingCode s) (createdAt s) (connectedAt s)
    (phoneNumber s) (authRedis s) (reconnectAttempts s) (isReconnecting s).

Definition set_qr (v : option string) (s : Session) : Session :=
  mkSession (sock s) (status s) v (pairingCode s) (createdAt s) (connectedAt s)
    (phoneNumber s) (authRedis s) (reconnectAttempts s) (isReconnecting s).

Definition set_pairingCode (v : option string) (s : Session) : Session :=
  mkSession (sock s) (status s) (qr s) v (createdAt s) (connectedAt s)
    (phoneNumber s) (authRedis s) (reconnectAttempts s) (isReconnecting s).

Definition set_createdAt (v : Z) (s : Session) : Session :=
  mkSession (sock s) (status s) (qr s) (pairingCode s) v (connectedAt s)
    (phoneNumber s) (authRedis s) (reconnectAttempts s) (isReconnecting s).

Definition set_connectedAt (v : option Z) (s : Session) : Session :=
  mkSession (sock s) (status s) (qr s) (pairingCode s) (createdAt s) v
    (phoneNumber s) (authRedis s) (reconnectAttempts s) (isReconnecting s).

Definition set_reconnectAttempts (v : Z) (s : Session) : Session :=
  mkSession (sock s) (status s) (qr s) (pairingCode s) (createdAt s)
    (connectedAt s) (phoneNumber s) (authRedis s) v (isReconnecting s).

Definition set_isReconnecting (v : bool) (s : Session) : Session :=
  mkSession (sock s) (status s) (qr s) (pairingCode s) (createdAt s)
    (connectedAt s) (phoneNumber s) (authRedis s) (reconnectAttempts s) v.


(** One ['connection.update'] event: [{ connection, qr, lastDisconnect }].
    [statusCode] is [lastDisconnect?.error?.output?.statusCode]; [None] is
    [undefined]. *)
Inductive Connection := conn_open | conn_close | conn_connecting.

Record Update := mkUpdate {
  connection : option Connection;
  u_qr : option string;
  statusCode : option Z
}.

(** The closures handed to [setTimeout].  What each one does when it fires
    is given by the [fire] function of the file that schedules it. *)
Inductive Callback :=
| PairingCb (sessionId : string) (sockh : nat) (phone : string)
| PairingCbChecked (sessionId : string) (sockh : nat) (phone : string)
| RestartIfPresent (sessionId : string) (phone : option string)
| RestartUnlessKilling (sessionId : string) (phone : option string)
| RestartClearFlag (sessionId : string) (s_sock : nat) (phone : option string)
| RestartIfNotReconnecting (sessionId : string) (s_sock : nat)
    (phone : option string).

Record Timer := mkTimer {
  timerId : nat;
  delay : Z;
  callback : Callback
}.

(** What the code does to its collaborators. *)
Inductive Effect :=
| EmitToSession (sessionId event detail : string)
| BroadcastSessionStatus
| SockEnd (sockh : nat)
| SockLogout (sockh : nat)
| SockRemoveAllListeners (sockh : nat)
| RequestPairingCode (sockh : nat) (digits : string)
| DeleteKeysWithPattern (redis : nat) (pattern : string)
| ConsoleWarn (msg : string).

Global Instance Effect_eq_dec : EqDecision Effect.
Proof. solve_decision. Defined.

(** The process state: the registry, the [sessionTimers] table of
    server-optimized (unused by the other two files), the
    ['connection.update'] listener attached to each socket (its captured
    [sessionId] and [phoneNumber]), the timers that are scheduled and have
    neither fired nor been cleared, the two handle counters and the effect
    log (oldest first). *)
Record State := mkState {
  sessions : gmap string Session;
  sessionTimers : gmap string (list nat);
  listeners : gmap nat (string * option string);
  timers : list Timer;
  next_handle : nat;
  next_timer : nat;
  effects : list Effect
}.

Definition initial : State := mkState ∅ ∅ ∅ [] 0 0 [].

(** Answers of the collaborators: whether [sock.end()], [sock.logout()] and
    [deleteKeysWithPattern] throw, [sock.authState.creds.registered] of the
    credentials loaded for an id, the result of [sock.requestPairingCode]
    and of [QRCode.toDataURL] ([None]: the call throws); whether the call of
    [useRedisAuthState] or of [makeWASocket] that would hand out a given
    handle throws, and whether [sock.ev.removeAllListeners()] and
    [sock.removeAllListeners()] throw. *)
Record Env := mkEnv {
  end_throws : nat → bool;
  logout_throws : nat → bool;
  deleteKeys_throws : string → bool;
  creds_registered : string → bool;
  pairing_code_of : nat → string → option string;
  data_url_of : string → option string;
  authState_throws : nat → bool;
  makeSocket_throws : nat → bool;
  ev_removeAllListeners_throws : nat → bool;
  removeAllListeners_throws : nat → bool
}.

(** ** A state and exception monad for the handlers *)

Inductive Outcome (A : Type) :=
| Returned (a : A)
| Thrown.
Arguments Returned {A} a.
Arguments Thrown {A}.

Definition M (A : Type) : Type := State → Outcome A * State.

Global Instance M_ret : MRet M := λ A a st, (Returned a, st).

Global Instance M_bind : MBind M := λ A B f m st,
  match m st with
  | (Returned a, st') => f a st'
  | (Thrown, st') => (Thrown, st')
  end.

Definition throw {A} : M A := λ st, (Thrown, st).

(** [try { body } catch (e) { handler }] *)
Definition try_catch {A} (body handler : M A) : M A := λ st,
  match body st with
  | (Returned a, st') => (Returned a, st')
  | (Thrown, st') => handler st'
  end.

Definition gets {A} (f : State → A) : M A := λ st, (Returned (f st), st).

Definition modify (f : State → State) : M unit := λ st, (Returned tt, f st).

Definition when (b : bool) (m : M unit) : M unit := if b then m else mret tt.

Definition completed {A} (r : Outcome A * State) : bool :=
  match r.1 with Returned _ => true | Thrown => false end.

(** *** State primitives *)

Definition set_sessions (f : gmap string Session → gmap string Session)
    (st : State) : State :=
  mkState (f (sessions st)) (sessionTimers st) (listeners st) (timers st)
    (next_handle st) (next_timer st) (effects st).

Definition set_sessionTimers
    (f : gmap string (list nat) → gmap string (list nat)) (st : State) : State :=
  mkState (sessions st) (f (sessionTimers st)) (listeners st) (timers st)
    (next_handle st) (next_timer st) (effects st).

Definition set_listeners
    (f : gmap nat (string * option string) → gmap nat (string * option string))
    (st : State) : State :=
  mkState (sessions st) (sessionTimers st) (f (listeners st)) (timers st)
    (next_handle st) (next_timer st) (effects st).

Definition set_timers (f : list Timer → list Timer) (st : State) : State :=
  mkState (sessions st) (sessionTimers st) (listeners st) (f (timers st))
    (next_handle st) (next_timer st) (effects st).

Definition log (e : Effect) (st : State) : State :=
  mkState (sessions st) (sessionTimers st) (listeners st) (timers st)
    (next_handle st) (next_timer st) (effects st ++ [e]).

(** [sessions[sessionId]] for an id that has an entry, or has none and
    does not name a property of [Object.prototype] (see [inherited_key]). *)
Definition getSession (sessionId : string) : M (option Session) :=
  gets (λ st, sessions st !! sessionId).

(** [sessions[sessionId] = s] *)
Definition putSession (sessionId : string) (s : Session) : M unit :=
  modify (set_sessions (insert sessionId s)).

(** [s.field = v] on the record object registered under [sessionId] *)
Definition updateSession (sessionId : string) (f : Session → Session) : M unit :=
  modify (set_sessions (alter f sessionId)).

(** [delete sessions[sessionId]] *)
Definition deleteSession (sessionId : string) : M unit :=
  modify (set_sessions (delete sessionId)).

(** A fresh object handle. *)
Definition bump_handle (st : State) : State :=
  mkState (sessions st) (sessionTimers st) (listeners st) (timers st)
    (S (next_handle st)) (next_timer st) (effects st).

Definition fresh_handle : M nat := λ st, (Returned (next_handle st), bump_handle st).

(** [setTimeout(cb, ms)], returning the timer. *)
Definition push_timer (cb : Callback) (ms : Z) (st : State) : State :=
  mkState (sessions st) (sessionTimers st) (listeners st)
    (timers st ++ [mkTimer (next_timer st) ms cb])
    (next_handle st) (S (next_timer st)) (effects st).

Definition setTimeout (cb : Callback) (ms : Z) : M nat := λ st,
  (Returned (next_timer st), push_timer cb ms st).

(** [clearTimeout(timer)] *)
Definition clearTimeout (t : nat) : M unit :=
  modify (set_timers (filter (λ x, timerId x ≠ t))).

Definition perform (e : Effect) : M unit := modify (log e).

(** *** Collaborators *)

Definition emitToSession (sessionId event detail : string) : M unit :=
  perform (EmitToSession sessionId event detail).

Definition broadcastSessionStatus : M unit := perform BroadcastSessionStatus.

Definition consoleWarn (msg : string) : M unit := perform (ConsoleWarn msg).

Section Collaborators.
Variable env : Env.

(** [sock.end()] *)
Definition sock_end (sockh : nat) : M unit :=
  perform (SockEnd sockh);;
  if end_throws env sockh then throw else mret tt.

(** [sock.logout()] *)
Definition sock_logout (sockh : nat) : M unit :=
  perform (SockLogout sockh);;
  if logout_throws env sockh then throw else mret tt.

(** [deleteKeysWithPattern({ redis, pattern })] *)
Definition deleteKeysWithPattern (redis : nat) (pattern : string) : M unit :=
  perform (DeleteKeysWithPattern redis pattern);;
  if deleteKeys_throws env pattern then throw else mret tt.

(** [sock.requestPairingCode(digits)] *)
Definition sock_requestPairingCode (sockh : nat) (digits : string) : M string :=
  perform (RequestPairingCode sockh digits);;
  match pairing_code_of env sockh digits with
  | Some code => mret code
  | None => throw
  end.

(** [QRCode.toDataURL(qr)] *)
Definition QRCode_toDataURL (q : string) : M string :=
  match data_url_of env q with
  | Some url => mret url
  | None => throw
  end.

(** [sock.ev.removeAllListeners()]: the ['connection.update'] listener is
    gone unless the call throws. *)
Definition sock_ev_removeAllListeners (sockh : nat) : M unit :=
  perform (SockRemoveAllListeners sockh);;
  if ev_removeAllListeners_throws env sockh then throw
  else modify (set_listeners (delete sockh)).

(** [sock.removeAllListeners()], on the socket object itself, which holds
    no listener of the code: only whether the call throws matters. *)
Definition sock_removeAllListeners (sockh : nat) : M unit :=
  if removeAllListeners_throws env sockh then throw else mret tt.

(** [useRedisAuthState(redisOptions, sessionId)]: the redis client of the
    returned triple.  A call that throws uses up its handle, so that a later
    call may succeed. *)
Definition useRedisAuthState (sessionId : string) : M nat :=
  h ← fresh_handle;
  if authState_throws env h then throw else mret h.

(** [makeWASocket({...})] *)
Definition makeWASocket : M nat :=
  h ← fresh_handle;
  if makeSocket_throws env h then throw else mret h.

End Collaborators.

(** [sock.ev.on('connection.update', listener)] with the listener's
    captured [sessionId] and [phoneNumber]. *)
Definition on_connection_update (sockh : nat) (sessionId : string)
    (phone : option string) : M unit :=
  modify (set_listeners (insert sockh (sessionId, phone))).

(** *** JavaScript helpers *)

(** The property names of [Object.prototype]: for each of them
    [sessions[id]] is truthy although [sessions] has no such entry. *)
Definition Object_prototype_names : list string :=
  ["constructor"; "__defineGetter__"; "__defineSetter__"; "hasOwnProperty";
   "__lookupGetter__"; "__lookupSetter__"; "isPrototypeOf";
   "propertyIsEnumerable"; "toString"; "valueOf"; "__proto__";
   "toLocaleString"].

Definition inherited_key (id : string) : bool :=
  bool_decide (id ∈ Object_prototype_names).

(** Truthiness of a string-or-null. *)
Definition truthy (o : option string) : bool :=
  match o with
  | Some s => negb (String.eqb s "")
  | None => false
  end.

Definition isDigit (c : ascii) : bool :=
  ((48 <=? nat_of_ascii c) && (nat_of_ascii c <=? 57))%nat.

(** [str.replace(/\D/g, '')] *)
Fixpoint digitsOnly (s : string) : string :=
  match s with
  | EmptyString => EmptyString
  | String c r => if isDigit c then String c (digitsOnly r) else digitsOnly r
  end.

(** [code === r] for a possibly undefined [code]. *)
Definition code_is (code : option Z) (r : Z) : bool :=
  match code with
  | Some z => z =? r
  | None => false
  end.

(** The [DisconnectReason] enumeration of the transport library, with the
    numbers of the table in [getDisconnectReasonName]. *)
Module DisconnectReason.
Definition connectionClosed : Z := 428.
Definition connectionLost : Z := 408.
Definition connectionReplaced : Z := 440.
Definition timedOut : Z := 408.
Definition loggedOut : Z := 401.
Definition badSession : Z := 500.
Definition restartRequired : Z := 515.
Definition multideviceMismatch : Z := 411.
Definition forbidden : Z := 403.
Definition unavailableService : Z := 503.
End DisconnectReason.

Definition PENDING_EXPIRE_MS : Z := 2 * 60 * 1000.

(** [existing && !force && existing.status === 'connected'] *)
Definition alreadyConnected (existing : option Session) (force : bool) : bool :=
  match existing with
  | Some ex => negb force && String.eqb (status ex) "connected"
  | None => false
  end.

(** An HTTP reply: status and the [code] field of its JSON body. *)
Definition Response : Type := Z * string.

(** What can happen to the process: a request on the HTTP surface, a
    ['connection.update'] event emitted by a socket, a timer coming due and
    a tick of the expiry interval.  [now] is [Date.now()] at that moment. *)
Inductive Event :=
| GetStart (id : string) (phone : option string)
| PostRefresh (id : string)
| DeleteSession (id : string)
| GetLogout (id : string)
| ConnectionUpdate (sockh : nat) (u : Update)
| TimerFires (timer : nat)
| SweepTick.

(** ** server.js *)

Module Server.
Section WithEnv.
Variable env : Env.

(** [killSession], server.js 129-163.  The test [if (s.authRedis)] is on an
    object and always passes. *)
Definition killSession (sessionId reason : string) : M bool :=
  o ← getSession sessionId;
  match o with
  | None => mret false
  | Some s =>
      try_catch
        (emitToSession sessionId "session:killed" reason;;
         sock_end env (sock s);;
         sock_logout env (sock s))
        (consoleWarn "killSession error");;
      try_catch
        (deleteKeysWithPattern env (authRedis s) (sessionId +:+ ":*"))
        (consoleWarn "Redis cleanup error");;
      deleteSession sessionId;;
      broadcastSessionStatus;;
      mret true
  end.

(** [startSession], server.js 169-234 and the two [sock.ev.on] calls. The
    ['creds.update'] listener only forwards to the persistence layer and is
    left out. *)
Definition startSession (now : Z) (sessionId : string)
    (phone : option string) (force : bool) : M unit :=
  existing ← getSession sessionId;
  if alreadyConnected existing force then mret tt else
  match existing with
  | Some ex =>
      when force
        (try_catch (sock_end env (sock ex)) (consoleWarn "Error ending socket");;
         deleteSession sessionId)
  | None => mret tt
  end;;
  redis ← useRedisAuthState env sessionId;
  sockh ← makeWASocket env;
  putSession sessionId
    (mkSession sockh (if truthy phone then "pending_pair" else "pending_qr")
       None None now None phone redis 0 false);;
  broadcastSessionStatus;;
  match phone with
  | Some p =>
      when (truthy phone && negb (creds_registered env sessionId))
        (setTimeout (PairingCb sessionId sockh p) 1200;; mret tt)
  | None => mret tt
  end;;
  on_connection_update sockh sessionId phone.

(** The [connection === 'close'] block of the listener, server.js 270-415,
    for the record [s] the listener looked up on entry.  The second [if]
    (on [unavailableService]) is not chained to the first: its [else] runs
    for every code but 503.  [false] is the [return] inside the 503 block. *)
Definition onClose (sessionId : string) (phone : option string) (s : Session)
    (code : option Z) : M unit :=
  let purge := deleteKeysWithPattern env (authRedis s) (sessionId +:+ ":*") in
  (if code_is code DisconnectReason.loggedOut then
     purge;; deleteSession sessionId;; broadcastSessionStatus
   else if code_is code DisconnectReason.badSession then
     purge;; deleteSession sessionId;; broadcastSessionStatus
   else if code_is code DisconnectReason.forbidden then
     purge;; deleteSession sessionId;;
     emitToSession sessionId "session:forbidden" "";;
     broadcastSessionStatus
   else if code_is code DisconnectReason.multideviceMismatch then
     purge;; deleteSession sessionId;;
     emitToSession sessionId "session:multidevice_error" "";;
     broadcastSessionStatus
   else if code_is code DisconnectReason.connectionLost
           || code_is code DisconnectReason.timedOut
           || code_is code DisconnectReason.connectionClosed then
     let attempts := reconnectAttempts s + 1 in
     updateSession sessionId (set_reconnectAttempts attempts);;
     if attempts <=? 5 then
       setTimeout (RestartIfPresent sessionId phone)
         (Z.min (attempts * 2000) 10000);; mret tt
     else
       killSession sessionId "max_reconnect_attempts";; mret tt
   else if code_is code DisconnectReason.connectionReplaced then
     purge;; deleteSession sessionId;;
     emitToSession sessionId "session:replaced" "";;
     broadcastSessionStatus
   else if code_is code DisconnectReason.restartRequired then
     updateSession sessionId (set_isReconnecting true);;
     setTimeout (RestartUnlessKilling sessionId phone) 2000;; mret tt
   else mret tt);;
  if code_is code DisconnectReason.unavailableService then
    if isReconnecting s then mret tt else
    let attempts := reconnectAttempts s + 1 in
    updateSession sessionId (set_isReconnecting true);;
    updateSession sessionId (set_reconnectAttempts attempts);;
    if attempts <=? 5 then
      setTimeout (RestartUnlessKilling sessionId phone)
        (Z.min (attempts * 5000) 30000);; mret tt
    else
      killSession sessionId "service_unavailable";; mret tt
  else
    setTimeout (RestartIfPresent sessionId phone) 3000;; mret tt.

(** The ['connection.update'] listener, server.js 237-416, with its captured
    [sessionId] and [phoneNumber]. *)
Definition onConnectionUpdate (now : Z) (sessionId : string)
    (phone : option string) (u : Update) : M unit :=
  o ← getSession sessionId;
  match o with
  | None => mret tt
  | Some s =>
      match u_qr u with
      | Some q =>
          when (truthy (u_qr u) && String.eqb (status s) "pending_qr")
            (updateSession sessionId (set_qr (Some q));;
             url ← QRCode_toDataURL env q;
             emitToSession sessionId "qr:update" url;;
             broadcastSessionStatus)
      | None => mret tt
      end;;
      match connection u with
      | Some conn_open =>
          updateSession sessionId
            (λ r, set_reconnectAttempts 0 (set_pairingCode None (set_qr None
                    (set_createdAt now (set_connectedAt (Some now)
                       (set_status "connected" r))))));;
          emitToSession sessionId "session:connected" "";;
          broadcastSessionStatus
      | Some conn_close => onClose sessionId phone s (statusCode u)
      | _ => mret tt
      end
  end.

(** The timer callbacks of server.js: the pairing request (219-233) and the
    delayed restarts (339-343, 372-377, 396-400, 409-413).  [isKilling] is
    assigned nowhere, so [!sessions[sessionId].isKilling] holds whenever the
    record exists. *)
Definition fire (now : Z) (cb : Callback) : M unit :=
  match cb with
  | PairingCb sessionId sockh phone =>
      try_catch
        (code ← sock_requestPairingCode env sockh (digitsOnly phone);
         o ← getSession sessionId;
         match o with
         | None => throw
         | Some _ => updateSession sessionId (set_pairingCode (Some code))
         end;;
         emitToSession sessionId "pairing:code" code;;
         broadcastSessionStatus)
        (emitToSession sessionId "pairing:error" "")
  | RestartIfPresent sessionId phone
  | RestartUnlessKilling sessionId phone =>
      o ← getSession sessionId;
      match o with
      | Some _ => startSession now sessionId phone true
      | None => mret tt
      end
  | _ => mret tt
  end.

(** One pass of the expiry loop over [Object.entries(sessions)], server.js
    427-439; the result is [changed]. *)
Fixpoint expireEntries (now : Z) (entries : list (string * Session)) : M bool :=
  match entries with
  | [] => mret false
  | (id, s) :: rest =>
      if String.prefix "pending" (status s)
         && (now - createdAt s >? PENDING_EXPIRE_MS) then
        sock_end env (sock s);;
        deleteSession id;;
        expireEntries now rest;;
        mret true
      else expireEntries now rest
  end.

(** The expiry interval callback, server.js 423-442. *)
Definition expirePending (now : Z) : M unit :=
  entries ← gets (λ st, map_to_list (sessions st));
  changed ← expireEntries now entries;
  when changed broadcastSessionStatus.

(** [GET /start/:id], server.js 507-518 (the state-changing part). *)
Definition get_start (now : Z) (id : string) (phone : option string) : M unit :=
  o ← getSession id;
  match o with
  | None => startSession now id phone false
  | Some _ => mret tt
  end.

(** [POST /session/:id/refresh], server.js 637-656, up to the return of
    [startSession]: [Some r] is the reply sent without starting anything;
    with [None] the handler goes on to [waitForSessionData] and replies
    from what that finds. *)
Definition post_refresh (now : Z) (id : string) : M (option Response) :=
  o ← getSession id;
  match o with
  | None => mret (Some (404, "SESSION_NOT_FOUND"))
  | Some s => startSession now id (phoneNumber s) true;; mret None
  end.

(** [DELETE /session/:id], server.js 658-675. *)
Definition delete_session (id : string) : M Response :=
  ok ← killSession id "api_delete";
  if ok : bool then mret (200, "") else mret (404, "SESSION_NOT_FOUND").

(** [GET /logout/:id], server.js 677-701. *)
Definition get_logout (id : string) : M unit :=
  o ← getSession id;
  match o with
  | Some s =>
      sock_logout env (sock s);;
      deleteKeysWithPattern env (authRedis s) (id +:+ ":*");;
      deleteSession id;;
      broadcastSessionStatus
  | None => mret tt
  end.

(** A timer coming due: it leaves the pending list and its callback runs. *)
Definition timer_fires (now : Z) (t : nat) : M unit :=
  pending ← gets timers;
  match find (λ x, Nat.eqb (timerId x) t) pending with
  | Some tm =>
      modify (set_timers (filter (λ x, timerId x ≠ t)));;
      fire now (callback tm)
  | None => mret tt
  end.

(** Delivery of one event to the process, run to completion.  A socket
    event goes to the listener that [startSession] attached to the socket
    ([listeners] of the state); server.js never detaches one. *)
Definition handle (now : Z) (e : Event) : M unit :=
  match e with
  | GetStart id phone => get_start now id phone
  | PostRefresh id => post_refresh now id;; mret tt
  | DeleteSession id => delete_session id;; mret tt
  | GetLogout id => get_logout id
  | ConnectionUpdate sockh u =>
      l ← gets (λ st, listeners st !! sockh);
      match l with
      | Some (sessionId, phone) => onConnectionUpdate now sessionId phone u
      | None => mret tt
      end
  | TimerFires t => timer_fires now t
  | SweepTick => expirePending now
  end.

(** The state after an event; a handler that throws keeps the changes it
    made before throwing. *)
Definition step (st : State) (ev : Z * Event) : State :=
  (handle ev.1 ev.2 st).2.

Definition run (st : State) (evs : list (Z * Event)) : State :=
  foldl step st evs.

End WithEnv.
End Server.

(** ** server-2.js *)

Module Server2.
Section WithEnv.
Variable env : Env.

(** [killSession] (server-2.js 164-198) and [startSession] up to the
    listeners (204-270) are, line for line, those of server.js; the record
    literal only adds [isReconnecting: false]. *)
Definition killSession : string → string → M bool := Server.killSession env.

Definition startSession : Z → string → option string → bool → M unit :=
  Server.startSession env.

(** The [connection === 'close'] block of the listener, server-2.js
    307-405, for the record [s] looked up on entry. *)
Definition onClose (sessionId : string) (phone : option string) (s : Session)
    (code : option Z) : M unit :=
  if isReconnecting s then mret tt else
  let isLoggedOut := code_is code DisconnectReason.loggedOut in
  let isConnectionLost := code_is code DisconnectReason.connectionLost in
  let isTimedOut := code_is code DisconnectReason.timedOut in
  let isConnectionClosed := code_is code DisconnectReason.connectionClosed in
  let isBadSession := code_is code DisconnectReason.badSession in
  let isForbidden := code_is code DisconnectReason.forbidden in
  let isMultideviceMismatch :=
    code_is code DisconnectReason.multideviceMismatch in
  let isConnectionReplaced := code_is code DisconnectReason.connectionReplaced in
  let isRestartRequired := code_is code DisconnectReason.restartRequired in
  let isUnavailableService := code_is code DisconnectReason.unavailableService in
  if isLoggedOut || isBadSession || isForbidden || isMultideviceMismatch
     || isConnectionReplaced then
    deleteKeysWithPattern env (authRedis s) (sessionId +:+ ":*");;
    deleteSession sessionId;;
    (if isForbidden then emitToSession sessionId "session:forbidden" ""
     else if isMultideviceMismatch then
       emitToSession sessionId "session:multidevice_error" ""
     else if isConnectionReplaced then
       emitToSession sessionId "session:replaced" ""
     else mret tt);;
    broadcastSessionStatus
  else if isConnectionLost || isTimedOut || isConnectionClosed
          || isUnavailableService then
    let attempts := reconnectAttempts s + 1 in
    let maxAttempts := 5 in
    updateSession sessionId (set_reconnectAttempts attempts);;
    if attempts <=? maxAttempts then
      let baseBackoff := if isUnavailableService then 5000 else 2000 in
      let backoff := Z.min (attempts * baseBackoff) 30000 in
      updateSession sessionId (set_isReconnecting true);;
      setTimeout (RestartClearFlag sessionId (sock s) phone) backoff;;
      mret tt
    else
      killSession sessionId "max_reconnect_attempts";; mret tt
  else if isRestartRequired then
    updateSession sessionId (set_isReconnecting true);;
    setTimeout (RestartClearFlag sessionId (sock s) phone) 2000;;
    mret tt
  else mret tt.

(** The ['connection.update'] listener, server-2.js 273-406. *)
Definition onConnectionUpdate (now : Z) (sessionId : string)
    (phone : option string) (u : Update) : M unit :=
  o ← getSession sessionId;
  match o with
  | None => mret tt
  | Some s =>
      match u_qr u with
      | Some q =>
          when (truthy (u_qr u) && String.eqb (status s) "pending_qr")
            (updateSession sessionId (set_qr (Some q));;
             url ← QRCode_toDataURL env q;
             emitToSession sessionId "qr:update" url;;
             broadcastSessionStatus)
      | None => mret tt
      end;;
      match connection u with
      | Some conn_open =>
          updateSession sessionId
            (λ r, set_isReconnecting false (set_reconnectAttempts 0
                    (set_pairingCode None (set_qr None (set_createdAt now
                       (set_connectedAt (Some now)
                          (set_status "connected" r)))))));;
          emitToSession sessionId "session:connected" "";;
          broadcastSessionStatus
      | Some conn_close => onClose sessionId phone s (statusCode u)
      | _ => mret tt
      end
  end.

(** The timer callbacks of server-2.js: the pairing request (255-269) and
    the delayed restart (374-379, 393-399).  In the latter [s] is the record
    object the listener held when it scheduled the timer; the write to it
    reaches the registry only if that object is still the registered one. *)
Definition fire (now : Z) (cb : Callback) : M unit :=
  match cb with
  | PairingCb _ _ _ => Server.fire env now cb
  | RestartClearFlag sessionId s_sock phone =>
      o ← getSession sessionId;
      match o with
      | Some cur =>
          when (Nat.eqb (sock cur) s_sock)
            (updateSession sessionId (set_isReconnecting false));;
          startSession now sessionId phone true
      | None => mret tt
      end
  | _ => mret tt
  end.

Definition timer_fires (now : Z) (t : nat) : M unit :=
  pending ← gets timers;
  match find (λ x, Nat.eqb (timerId x) t) pending with
  | Some tm =>
      modify (set_timers (filter (λ x, timerId x ≠ t)));;
      fire now (callback tm)
  | None => mret tt
  end.

(** Delivery of one event; the expiry interval (413-432) and the HTTP
    handlers are those of server.js. *)
Definition handle (now : Z) (e : Event) : M unit :=
  match e with
  | ConnectionUpdate sockh u =>
      l ← gets (λ st, listeners st !! sockh);
      match l with
      | Some (sessionId, phone) => onConnectionUpdate now sessionId phone u
      | None => mret tt
      end
  | TimerFires t => timer_fires now t
  | _ => Server.handle env now e
  end.

Definition step (st : State) (ev : Z * Event) : State :=
  (handle ev.1 ev.2 st).2.

Definition run (st : State) (evs : list (Z * Event)) : State :=
  foldl step st evs.

End WithEnv.
End Server2.

(** ** server-optimized.js *)

Module ServerOptimized.
Section WithEnv.
Variable env : Env.

(** [parseInt(process.env.MAX_SESSIONS || '50')]; [None] is [NaN]. *)
Variable MAX_SESSIONS : option Z.

Definition MAX_RECONNECT_ATTEMPTS : Z := 5.

(** [n >= MAX_SESSIONS]; a comparison with [NaN] is false. *)
Definition at_least_max (n : Z) : bool :=
  match MAX_SESSIONS with
  | Some m => m <=? n
  | None => false
  end.

(** [clearSessionTimers], server-optimized 209-214, for an id that does not
    name a property of [Object.prototype] (for one that does,
    [sessionTimers[sessionId]] is the inherited value and [forEach]
    throws). *)
Definition clearSessionTimers (sessionId : string) : M unit :=
  o ← gets (λ st, sessionTimers st !! sessionId);
  match o with
  | Some ts =>
      modify (set_timers (filter (λ x, timerId x ∉ ts)));;
      modify (set_sessionTimers (delete sessionId))
  | None => mret tt
  end.

(** [addSessionTimer], server-optimized 216-219, for an id that does not
    name a property of [Object.prototype]. *)
Definition addSessionTimer (sessionId : string) (timer : nat) : M unit :=
  modify (set_sessionTimers
            (λ m, <[sessionId := (default [] (m !! sessionId) ++ [timer])%list]> m)).

(** [getDisconnectReasonName], server-optimized 256-269 *)
Definition getDisconnectReasonName (code : option Z) : string :=
  match code with
  | Some 428 => "connectionClosed"
  | Some 408 => "connectionLost"
  | Some 440 => "connectionReplaced"
  | Some 500 => "badSession"
  | Some 401 => "loggedOut"
  | Some 515 => "restartRequired"
  | Some 411 => "multideviceMismatch"
  | Some 403 => "forbidden"
  | Some 503 => "unavailableService"
  | Some z => "unknown(" +:+ pretty z +:+ ")"
  | None => "unknown(undefined)"
  end.

(** [cleanupSessionRedis], server-optimized 271-280 *)
Definition cleanupSessionRedis (sessionId : string) (redis : nat) : M unit :=
  try_catch
    (deleteKeysWithPattern env redis (sessionId +:+ ":*"))
    (consoleWarn "Redis cleanup error").

(** [cleanupSessionSocket], server-optimized 282-292, for a record's socket
    (never null): the three calls are in one [try], so [end] is not reached
    when one of the [removeAllListeners] calls throws. *)
Definition cleanupSessionSocket (sockh : nat) : M unit :=
  try_catch
    (sock_ev_removeAllListeners env sockh;;
     sock_removeAllListeners env sockh;;
     sock_end env sockh)
    (consoleWarn "Socket cleanup error").

(** [killSession], server-optimized 294-312 *)
Definition killSession (sessionId reason : string) : M bool :=
  o ← getSession sessionId;
  match o with
  | None => mret false
  | Some s =>
      try_catch
        (emitToSession sessionId "session:killed" reason;;
         cleanupSessionSocket (sock s);;
         cleanupSessionRedis sessionId (authRedis s))
        (consoleWarn "killSession error");;
      clearSessionTimers sessionId;;
      deleteSession sessionId;;
      broadcastSessionStatus;;
      mret true
  end.

(** [startSession], server-optimized 318-400 and 514-515 *)
Definition startSession (now : Z) (sessionId : string)
    (phone : option string) (force : bool) : M unit :=
  existing ← getSession sessionId;
  if alreadyConnected existing force then mret tt else
  activeSessions ← gets (λ st, Z.of_nat (size (sessions st)));
  if negb (bool_decide (is_Some existing)) && at_least_max activeSessions then
    consoleWarn "Max sessions reached"
  else
  match existing with
  | Some ex =>
      when force
        (try_catch (cleanupSessionSocket (sock ex))
           (consoleWarn "Error ending socket");;
         clearSessionTimers sessionId;;
         deleteSession sessionId)
  | None => mret tt
  end;;
  redis ← useRedisAuthState env sessionId;
  sockh ← makeWASocket env;
  putSession sessionId
    (mkSession sockh (if truthy phone then "pending_pair" else "pending_qr")
       None None now None phone redis 0 false);;
  broadcastSessionStatus;;
  match phone with
  | Some p =>
      when (truthy phone && negb (creds_registered env sessionId))
        (pairingTimer ← setTimeout (PairingCbChecked sessionId sockh p) 1200;
         addSessionTimer sessionId pairingTimer)
  | None => mret tt
  end;;
  on_connection_update sockh sessionId phone.

(** [startSession] is an [async] function that waits at
    [await useRedisAuthState] (line 343), and other handlers run while it
    does.  [startSession_admit] is what has run when it gets there: the
    tests of 319-330 and the forced teardown of 332-341; its result tells
    whether the call goes on.  [startSession_register] is the rest
    (343-400 and 514-515), run when the credential store has answered. *)
Definition startSession_admit (sessionId : string) (force : bool) : M bool :=
  existing ← getSession sessionId;
  if alreadyConnected existing force then mret false else
  activeSessions ← gets (λ st, Z.of_nat (size (sessions st)));
  if negb (bool_decide (is_Some existing)) && at_least_max activeSessions then
    consoleWarn "Max sessions reached";; mret false
  else
  match existing with
  | Some ex =>
      when force
        (try_catch (cleanupSessionSocket (sock ex))
           (consoleWarn "Error ending socket");;
         clearSessionTimers sessionId;;
         deleteSession sessionId)
  | None => mret tt
  end;;
  mret true.

Definition startSession_register (now : Z) (sessionId : string)
    (phone : option string) : M unit :=
  redis ← useRedisAuthState env sessionId;
  sockh ← makeWASocket env;
  putSession sessionId
    (mkSession sockh (if truthy phone then "pending_pair" else "pending_qr")
       None None now None phone redis 0 false);;
  broadcastSessionStatus;;
  match phone with
  | Some p =>
      when (truthy phone && negb (creds_registered env sessionId))
        (pairingTimer ← setTimeout (PairingCbChecked sessionId sockh p) 1200;
         addSessionTimer sessionId pairingTimer)
  | None => mret tt
  end;;
  on_connection_update sockh sessionId phone.

(** The [connection === 'close'] block of [connectionListener],
    server-optimized 443-511 *)
Definition onClose (sessionId : string) (phone : option string) (s : Session)
    (code : option Z) : M unit :=
  let reasonName := getDisconnectReasonName code in
  if isReconnecting s then mret tt else
  let isLoggedOut := code_is code DisconnectReason.loggedOut in
  let isConnectionLost := code_is code DisconnectReason.connectionLost in
  let isTimedOut := code_is code DisconnectReason.timedOut in
  let isConnectionClosed := code_is code DisconnectReason.connectionClosed in
  let isBadSession := code_is code DisconnectReason.badSession in
  let isForbidden := code_is code DisconnectReason.forbidden in
  let isMultideviceMismatch :=
    code_is code DisconnectReason.multideviceMismatch in
  let isConnectionReplaced := code_is code DisconnectReason.connectionReplaced in
  let isRestartRequired := code_is code DisconnectReason.restartRequired in
  let isUnavailableService := code_is code DisconnectReason.unavailableService in
  if isLoggedOut || isBadSession || isForbidden || isMultideviceMismatch
     || isConnectionReplaced then
    killSession sessionId ("terminal_" +:+ reasonName);; mret tt
  else if isConnectionLost || isTimedOut || isConnectionClosed
          || isUnavailableService then
    let attempts := reconnectAttempts s + 1 in
    updateSession sessionId (set_reconnectAttempts attempts);;
    if attempts <=? MAX_RECONNECT_ATTEMPTS then
      let baseBackoff := if isUnavailableService then 5000 else 2000 in
      let backoff := Z.min (attempts * baseBackoff) 30000 in
      updateSession sessionId (set_isReconnecting true);;
      timer ← setTimeout
                (RestartIfNotReconnecting sessionId (sock s) phone) backoff;
      addSessionTimer sessionId timer
    else
      killSession sessionId "max_reconnect_attempts";; mret tt
  else if isRestartRequired then
    updateSession sessionId (set_isReconnecting true);;
    timer ← setTimeout (RestartClearFlag sessionId (sock s) phone) 2000;
    addSessionTimer sessionId timer
  else mret tt.

(** [connectionListener], server-optimized 403-512 *)
Definition connectionListener (now : Z) (sessionId : string)
    (phone : option string) (u : Update) : M unit :=
  o ← getSession sessionId;
  match o with
  | None => mret tt
  | Some s =>
      match u_qr u with
      | Some q =>
          when (truthy (u_qr u) && String.eqb (status s) "pending_qr")
            (updateSession sessionId (set_qr (Some q));;
             try_catch
               (qrDataUrl ← QRCode_toDataURL env q;
                emitToSession sessionId "qr:update" qrDataUrl;;
                broadcastSessionStatus)
               (consoleWarn "QR generation error"))
      | None => mret tt
      end;;
      match connection u with
      | Some conn_open =>
          updateSession sessionId
            (λ r, set_isReconnecting false (set_reconnectAttempts 0
                    (set_pairingCode None (set_qr None (set_createdAt now
                       (set_connectedAt (Some now)
                          (set_status "connected" r)))))));;
          emitToSession sessionId "session:connected" "";;
          broadcastSessionStatus
      | Some conn_close => onClose sessionId phone s (statusCode u)
      | _ => mret tt
      end
  end.

(** The timer callbacks of server-optimized: the pairing request (381-398),
    the backoff restart (481-486) and the required restart (499-504), each
    run to completion; in the pairing callback the lookup of the record
    follows [await sock.requestPairingCode] with nothing handled in
    between. *)
Definition fire (now : Z) (cb : Callback) : M unit :=
  match cb with
  | PairingCbChecked sessionId sockh phone =>
      try_catch
        (code ← sock_requestPairingCode env sockh (digitsOnly phone);
         o ← getSession sessionId;
         match o with
         | Some _ =>
             updateSession sessionId (set_pairingCode (Some code));;
             emitToSession sessionId "pairing:code" code;;
             broadcastSessionStatus
         | None => mret tt
         end)
        (emitToSession sessionId "pairing:error" "")
  | RestartIfNotReconnecting sessionId s_sock phone =>
      o ← getSession sessionId;
      match o with
      | Some cur =>
          when (negb (isReconnecting cur))
            (when (Nat.eqb (sock cur) s_sock)
               (updateSession sessionId (set_isReconnecting false));;
             startSession now sessionId phone true)
      | None => mret tt
      end
  | RestartClearFlag sessionId s_sock phone =>
      o ← getSession sessionId;
      match o with
      | Some cur =>
          when (Nat.eqb (sock cur) s_sock)
            (updateSession sessionId (set_isReconnecting false));;
          startSession now sessionId phone true
      | None => mret tt
      end
  | _ => mret tt
  end.

(** [killSession] is an [async] function: a caller that does not [await]
    it gets control back when the call first waits, which is at
    [await sock.end?.()] inside [cleanupSessionSocket].  [killSession_begin]
    is what has run by then (server-optimized 300-302, 284-288; the answer
    of [sock.end] is taken to be known when it is called); its result tells
    whether the [try] block is still running.  [killSession_finish] is the
    rest (303-311), run when the awaited calls have answered. *)
Definition killSession_begin (sessionId reason : string) (s : Session)
    : M bool :=
  try_catch
    (emitToSession sessionId "session:killed" reason;;
     cleanupSessionSocket (sock s);;
     mret true)
    (consoleWarn "killSession error";; mret false).

Definition killSession_finish (sessionId : string) (s : Session)
    (alive : bool) : M bool :=
  when alive
    (try_catch (cleanupSessionRedis sessionId (authRedis s))
       (consoleWarn "killSession error"));;
  clearSessionTimers sessionId;;
  deleteSession sessionId;;
  broadcastSessionStatus;;
  mret true.

(** A call of [killSession] that is not awaited: the kill it started, if
    the id has a record. *)
Definition killSession_start (sessionId reason : string)
    : M (option (string * Session * bool)) :=
  o ← getSession sessionId;
  match o with
  | None => mret None
  | Some s =>
      alive ← killSession_begin sessionId reason s;
      mret (Some (sessionId, s, alive))
  end.

(** One pass of the expiry loop, server-optimized 526-536: [killSession] is
    called without [await], so each call runs up to its first wait and the
    loop goes on.  The result is [changed] and the kills that were
    started. *)
Fixpoint expireEntries (now : Z) (entries : list (string * Session))
    : M (bool * list (string * Session * bool)) :=
  match entries with
  | [] => mret (false, [])
  | (id, s) :: rest =>
      if String.prefix "pending" (status s)
         && (now - createdAt s >? PENDING_EXPIRE_MS) then
        k ← killSession_start id "pending_expired";
        r ← expireEntries now rest;
        mret (true, option_list k ++ r.2)
      else expireEntries now rest
  end.

(** The expiry interval callback, server-optimized 522-539.  When it
    returns, the kills it started are still waiting. *)
Definition expireSweep (now : Z) : M (list (string * Session * bool)) :=
  entries ← gets (λ st, map_to_list (sessions st));
  r ← expireEntries now entries;
  when r.1 broadcastSessionStatus;;
  mret r.2.

(** The kills a sweep started, run to their end in the order they were
    started. *)
Fixpoint finishKills (started : list (string * Session * bool)) : M unit :=
  match started with
  | [] => mret tt
  | (id, s, alive) :: rest => killSession_finish id s alive;; finishKills rest
  end.

(** The sweep followed by the completion of its kills, nothing else being
    handled in between: the step of the process for a tick of the expiry
    interval. *)
Definition expirePending (now : Z) : M unit :=
  started ← expireSweep now;
  finishKills started.

(** [GET /start/:id], server-optimized 625-631 (the state-changing part).
    [waitForSessionData], which follows, polls the registry; the timer by
    which it stops polling acts on no session and is left out, although
    the code enters it in the timer table of the id (240-241). *)
Definition get_start (now : Z) (id : string) (phone : option string) : M unit :=
  o ← getSession id;
  match o with
  | None => startSession now id phone false
  | Some _ => mret tt
  end.

(** [POST /session/:id/refresh], server-optimized 743-761, up to the
    return of [startSession]: [Some r] is the reply sent without starting
    anything; with [None] the handler goes on to [waitForSessionData] and
    replies from what that finds. *)
Definition post_refresh (now : Z) (id : string) : M (option Response) :=
  o ← getSession id;
  match o with
  | None => mret (Some (404, "SESSION_NOT_FOUND"))
  | Some s => startSession now id (phoneNumber s) true;; mret None
  end.

(** [DELETE /session/:id], server-optimized 763-779 *)
Definition delete_session (id : string) : M Response :=
  ok ← killSession id "api_delete";
  if ok : bool then mret (200, "") else mret (404, "SESSION_NOT_FOUND").

(** [GET /logout/:id], server-optimized 781-797 *)
Definition get_logout (id : string) : M unit :=
  o ← getSession id;
  match o with
  | Some s =>
      sock_logout env (sock s);;
      cleanupSessionRedis id (authRedis s);;
      clearSessionTimers id;;
      deleteSession id;;
      broadcastSessionStatus
  | None => mret tt
  end.

Definition timer_fires (now : Z) (t : nat) : M unit :=
  pending ← gets timers;
  match find (λ x, Nat.eqb (timerId x) t) pending with
  | Some tm =>
      modify (set_timers (filter (λ x, timerId x ≠ t)));;
      fire now (callback tm)
  | None => mret tt
  end.

(** Delivery of one event, run to completion: the step of the process
    when no two handlers overlap.  A socket event goes to the listener
    attached to the socket, if [cleanupSessionSocket] has not removed
    it. *)
Definition handle (now : Z) (e : Event) : M unit :=
  match e with
  | GetStart id phone => get_start now id phone
  | PostRefresh id => post_refresh now id;; mret tt
  | DeleteSession id => delete_session id;; mret tt
  | GetLogout id => get_logout id
  | ConnectionUpdate sockh u =>
      l ← gets (λ st, listeners st !! sockh);
      match l with
      | Some (sessionId, phone) => connectionListener now sessionId phone u
      | None => mret tt
      end
  | TimerFires t => timer_fires now t
  | SweepTick => expirePending now
  end.

Definition step (st : State) (ev : Z * Event) : State :=
  (handle ev.1 ev.2 st).2.

Definition run (st : State) (evs : list (Z * Event)) : State :=
  foldl step st evs.

End WithEnv.
End ServerOptimized.

(** ** server.js on ids that name a property of [Object.prototype] *)

(** What [sessions[id]] evaluates to: the record registered under the id;
    for an id without a record that names a property of
    [Object.prototype], the inherited value (a function, or
    [Object.prototype] itself), which is truthy and has no [sock] and no
    [authRedis], since no handler stores these on the value it looked up;
    [undefined] otherwise. *)
Inductive Looked :=
| Own (s : Session)
| Inherited
| Undefined.

Definition looked_up (st : State) (id : string) : Looked :=
  match sessions st !! id with
  | Some s => Own s
  | None => if inherited_key id then Inherited else Undefined
  end.

Module ServerInherited.
Section WithEnv.
Variable env : Env.

(** [killSession], server.js 129-163, with [s] as [sessions[sessionId]]
    evaluates.  On an inherited value [s.sock?.end?.()] and
    [s.sock?.logout?.()] call nothing, [if (s.authRedis)] fails, and
    [delete sessions[sessionId]] finds no entry of the registry to
    remove. *)
Definition killSession (sessionId reason : string) : M bool :=
  v ← gets (λ st, looked_up st sessionId);
  match v with
  | Undefined => mret false
  | Own _ => Server.killSession env sessionId reason
  | Inherited =>
      try_catch
        (emitToSession sessionId "session:killed" reason)
        (consoleWarn "killSession error");;
      broadcastSessionStatus;;
      mret true
  end.

(** [DELETE /session/:id], server.js 658-675. *)
Definition delete_session (id : string) : M Response :=
  ok ← killSession id "api_delete";
  if ok : bool then mret (200, "") else mret (404, "SESSION_NOT_FOUND").



End WithEnv.
End ServerInherited.

(** ** Vocabulary of the properties *)

(** A ['connection.update'] event that only reports a close with the given
    failure code. *)
Definition closeEvent (code : option Z) : Update :=
  mkUpdate (Some conn_close) None code.

(** The taxonomy of failure codes: the conditions of the close branches of
    server-2.js (333, 363, 389) and server-optimized (464, 471, 496). *)
Inductive Classification := terminal | transient | restart_required | unknown.

Definition classify (code : option Z) : Classification :=
  if code_is code DisconnectReason.loggedOut
     || code_is code DisconnectReason.badSession
     || code_is code DisconnectReason.forbidden
     || code_is code DisconnectReason.multideviceMismatch
     || code_is code DisconnectReason.connectionReplaced then terminal
  else if code_is code DisconnectReason.connectionLost
          || code_is code DisconnectReason.timedOut
          || code_is code DisconnectReason.connectionClosed
          || code_is code DisconnectReason.unavailableService then transient
  else if code_is code DisconnectReason.restartRequired then restart_required
  else unknown.

(** The effects a handler appended when it took [st] to [st']. *)
Definition new_effects (st st' : State) : list Effect :=
  drop (length (effects st)) (effects st').

(** A purge of the credential material of [sessionId]: a
    [deleteKeysWithPattern] with pattern [<sessionId>:*]. *)
Definition is_purge_of (sessionId : string) (e : Effect) : bool :=
  match e with
  | DeleteKeysWithPattern _ pattern => String.eqb pattern (sessionId +:+ ":*")
  | _ => false
  end.

Definition purges (sessionId : string) (es : list Effect) : nat :=
  length (filter (λ e, is_purge_of sessionId e = true) es).

(** The effects of [killSession] of server.js on the record [s]: the
    notification, the teardown of the transport ([logout] is skipped when
    [end] throws), the purge, and a warning for each failure swallowed. *)
Definition kill_effects (env : Env) (sessionId reason : string) (s : Session)
    : list Effect :=
  EmitToSession sessionId "session:killed" reason
  :: SockEnd (sock s)
  :: (if end_throws env (sock s) then [ConsoleWarn "killSession error"]
      else SockLogout (sock s)
           :: (if logout_throws env (sock s)
               then [ConsoleWarn "killSession error"] else []))
  ++ DeleteKeysWithPattern (authRedis s) (sessionId +:+ ":*")
  :: (if deleteKeys_throws env (sessionId +:+ ":*")
      then [ConsoleWarn "Redis cleanup error"] else [])
  ++ [BroadcastSessionStatus].

(** Collaborators that never fail: unregistered credentials, a pairing code
    and a data URL for every request. *)
Definition quiet_env : Env :=
  mkEnv (λ _, false) (λ _, false) (λ _, false) (λ _, false)
    (λ _ _, Some "ABCD-1234") (λ q, Some ("data:" +:+ q))
    (λ _, false) (λ _, false) (λ _, false) (λ _, false).

(** Collaborators whose credential store stops answering once the first
    session has been started: [useRedisAuthState] throws from its second
    call on. *)
Definition store_down_env : Env :=
  mkEnv (λ _, false) (λ _, false) (λ _, false) (λ _, false)
    (λ _ _, Some "ABCD-1234") (λ q, Some ("data:" +:+ q))
    (λ h, Nat.leb 2 h) (λ _, false) (λ _, false) (λ _, false).

(** Collaborators whose transport calls all throw. *)
Definition dead_transport_env : Env :=
  mkEnv (λ _, true) (λ _, true) (λ _, false) (λ _, false)
    (λ _ _, None) (λ q, Some ("data:" +:+ q))
    (λ _, false) (λ _, false) (λ _, false) (λ _, false).

(** The record of ["bot1"] once [boot_connected] has run. *)
Definition connected_record : Session :=
  mkSession 1 "connected" None None 10 (Some 10) None 0 0 false.

(** The reason-specific notification of a terminal close (server.js
    311-314, 325-328, 357-360; server-2.js 341-356). *)
Definition terminal_notification (sessionId : string) (code : option Z)
    : list Effect :=
  if code_is code DisconnectReason.forbidden then
    [EmitToSession sessionId "session:forbidden" ""]
  else if code_is code DisconnectReason.multideviceMismatch then
    [EmitToSession sessionId "session:multidevice_error" ""]
  else if code_is code DisconnectReason.connectionReplaced then
    [EmitToSession sessionId "session:replaced" ""]
  else [].

(** [isUnavailableService ? 5000 : 2000] (server-2.js 368,
    server-optimized 475). *)
Definition baseBackoff (code : option Z) : Z :=
  if code_is code DisconnectReason.unavailableService then 5000 else 2000.

(** The timer [startSession] schedules for the pairing request, if any. *)
Definition pairing_timer (env : Env) (cb : string → nat → string → Callback)
    (sessionId : string) (phone : option string) (sockh timer : nat)
    : list Timer :=
  match phone with
  | Some p =>
      if truthy phone && negb (creds_registered env sessionId)
      then [mkTimer timer 1200 (cb sessionId sockh p)] else []
  | None => []
  end.

(** The record [startSession] registers. *)
Definition fresh_record (now : Z) (phone : option string) (redis sockh : nat)
    : Session :=
  mkSession sockh (if truthy phone then "pending_pair" else "pending_qr")
    None None now None phone redis 0 false.

(** A session is started without a phone number and its connection opens;
    then the transport reports a lost connection. *)
Definition boot_connected : list (Z * Event) :=
  [(0, GetStart "bot1" None);
   (10, ConnectionUpdate 1 (mkUpdate (Some conn_open) None None))].

Definition connection_lost : list (Z * Event) :=
  boot_connected ++ [(20, ConnectionUpdate 1 (closeEvent (Some 408)))].

Definition reconnecting_record : Session :=
  mkSession 1 "connected" None None 10 (Some 10) None 0 1 true.

(** What a forced [startSession] of server.js does to the transport of
    the record it replaces (server.js 177-185). *)
Definition teardown_effects (env : Env) (existing : option Session)
    (force : bool) : list Effect :=
  match existing with
  | Some old =>
      if force then
        SockEnd (sock old)
        :: (if end_throws env (sock old)
            then [ConsoleWarn "Error ending socket"] else [])
      else []
  | None => []
  end.

(** What [cleanupSessionSocket] of server-optimized does to the socket
    [sockh] (282-292): [end] is reached only when neither
    [removeAllListeners] call throws, and one warning is logged for the
    first call that throws. *)
Definition cleanup_effects (env : Env) (sockh : nat) : list Effect :=
  SockRemoveAllListeners sockh
  :: (if ev_removeAllListeners_throws env sockh
         || removeAllListeners_throws env sockh
      then [ConsoleWarn "Socket cleanup error"]
      else SockEnd sockh
           :: (if end_throws env sockh
               then [ConsoleWarn "Socket cleanup error"] else [])).

(** The listeners it leaves attached. *)
Definition cleanup_listeners (env : Env) (sockh : nat)
    (l : gmap nat (string * option string)) : gmap nat (string * option string) :=
  if ev_removeAllListeners_throws env sockh then l else delete sockh l.

(** The state a forced [startSession] of server.js reaches before it loads
    the credentials: the old socket is ended and the record removed
    (server.js 177-185). *)
Definition Server_torn_down (env : Env) (sessionId : string) (force : bool)
    (st : State) : State :=
  match sessions st !! sessionId with
  | Some old =>
      if force then
        mkState (delete sessionId (sessions st)) (sessionTimers st)
          (listeners st) (timers st) (next_handle st) (next_timer st)
          (effects st ++ teardown_effects env (Some old) true)
      else st
  | None => st
  end.

(** [useRedisAuthState] and [makeWASocket] both succeed in [st]. *)
Definition start_succeeds (env : Env) (st : State) : bool :=
  negb (authState_throws env (next_handle st))
  && negb (makeSocket_throws env (S (next_handle st))).

(** The state in which [startSession] is left when one of them throws: the
    calls made have used up their handles, nothing is registered. *)
Definition start_failed (env : Env) (st : State) : State :=
  if authState_throws env (next_handle st) then bump_handle st
  else bump_handle (bump_handle st).

(** The pending timers once [clearSessionTimers] has run. *)
Definition cleared_timers (st : State) (sessionId : string) : list Timer :=
  match sessionTimers st !! sessionId with
  | Some ts => filter (λ x, timerId x ∉ ts) (timers st)
  | None => timers st
  end.

(** The state a forced [startSession] of server-optimized reaches before it
    loads the credentials: the old socket has been through
    [cleanupSessionSocket], the timers of the id are cancelled and the
    record is removed (server-optimized 332-341). *)
Definition torn_down (env : Env) (sessionId : string) (force : bool)
    (st : State) : State :=
  match sessions st !! sessionId with
  | Some old =>
      if force then
        mkState (delete sessionId (sessions st))
          (delete sessionId (sessionTimers st))
          (cleanup_listeners env (sock old) (listeners st))
          (cleared_timers st sessionId)
          (next_handle st) (next_timer st)
          (effects st ++ cleanup_effects env (sock old))
      else st
  | None => st
  end.

(** The state [startSession] of server-optimized reaches from there: a
    fresh record on a fresh socket, its pairing timer and its listener
    (server-optimized 343-400, 514-515). *)
Definition started (env : Env) (now : Z) (sessionId : string)
    (phone : option string) (st : State) : State :=
  let sockh := S (next_handle st) in
  let pairing :=
    pairing_timer env PairingCbChecked sessionId phone sockh (next_timer st) in
  mkState
    (<[sessionId := fresh_record now phone (next_handle st) sockh]>
       (sessions st))
    (foldr (λ t m, <[sessionId := default [] (m !! sessionId) ++ [timerId t]]> m)
       (sessionTimers st) pairing)
    (<[sockh := (sessionId, phone)]> (listeners st))
    (timers st ++ pairing)
    (S sockh)
    (length pairing + next_timer st)
    (effects st ++ [BroadcastSessionStatus]).

(** Every registered record holds a socket that was handed out earlier:
    the next [makeWASocket] returns an object none of them holds. *)
Definition handles_fresh (st : State) : Prop :=
  ∀ id s, sessions st !! id = Some s → (sock s < next_handle st)%nat.

(** A handler keeps a property of the state, also when it throws. *)
Definition preserves {A} (I : State → Prop) (m : M A) : Prop :=
  ∀ st, I st → I (m st).2.

(** Collaborators for which ending socket 1 fails (it stays open and keeps
    answering); nothing else fails. *)
Definition stuck_socket_env : Env :=
  mkEnv (λ h, Nat.eqb h 1) (λ _, false) (λ _, false) (λ _, false)
    (λ _ _, Some "ABCD-1234") (λ q, Some ("data:" +:+ q))
    (λ _, false) (λ _, false) (λ _, false) (λ _, false).

(** A session is started for pairing by phone number, deleted before its
    pairing request is due, and started again for a scan; the new socket
    reports its QR payload, then the timer of the first start comes due. *)
Definition restart_within_grace_delay : list (Z * Event) :=
  [(0, GetStart "bot2" (Some "+1 555-0100"));
   (100, DeleteSession "bot2");
   (200, GetStart "bot2" None);
   (300, ConnectionUpdate 3 (mkUpdate None (Some "2@qr") None));
   (1200, TimerFires 0)].

(** A property of the registry that no handle counter going up can
    break: it survives every step that leaves the registry alone. *)
Definition framed (I : State → Prop) : Prop :=
  ∀ st st', sessions st' = sessions st →
            (next_handle st ≤ next_handle st')%nat → I st → I st'.

(** The record [s] is registered under [id]. *)
Definition keeps_record (id : string) (s : Session) (st : State) : Prop :=
  sessions st !! id = Some s.

(** [s.status.startsWith('pending')] and [now - s.createdAt >
    PENDING_EXPIRE_MS]: the test of the expiry loop. *)
Definition expired (now : Z) (s : Session) : bool :=
  String.prefix "pending" (status s) && (now - createdAt s >? PENDING_EXPIRE_MS).

(** The effects of [killSession] of server-optimized on the record [s]. *)
Definition opt_kill_effects (env : Env) (sessionId reason : string)
    (s : Session) : list Effect :=
  EmitToSession sessionId "session:killed" reason
  :: cleanup_effects env (sock s)
  ++ DeleteKeysWithPattern (authRedis s) (sessionId +:+ ":*")
  :: (if deleteKeys_throws env (sessionId +:+ ":*")
      then [ConsoleWarn "Redis cleanup error"] else [])
  ++ [BroadcastSessionStatus].

(** The entries a sweep at [now] takes, the kills it starts for them, and
    what those have done when the sweep returns (server-optimized 526-536,
    300-302). *)
Definition expired_entries (now : Z) (entries : list (string * Session))
    : list (string * Session) :=
  filter (λ e, expired now e.2 = true) entries.

Definition sweep_started (now : Z) (entries : list (string * Session))
    : list (string * Session * bool) :=
  (λ e, (e.1, e.2, true)) <$> expired_entries now entries.

Definition sweep_effects (env : Env) (now : Z)
    (entries : list (string * Session)) : list Effect :=
  expired_entries now entries
  ≫= λ e, EmitToSession e.1 "session:killed" "pending_expired"
          :: cleanup_effects env (sock e.2).

(** What the second half of [killSession] of server-optimized does to the
    outside (303-311). *)
Definition purge_effects (env : Env) (sessionId : string) (s : Session)
    : list Effect :=
  DeleteKeysWithPattern (authRedis s) (sessionId +:+ ":*")
  :: (if deleteKeys_throws env (sessionId +:+ ":*")
      then [ConsoleWarn "Redis cleanup error"] else [])
  ++ [BroadcastSessionStatus].

(** What the sweep of server.js does to the outside: it ends sockets and
    broadcasts the session list. *)
Definition ends_socket (e : Effect) : Prop := ∃ h, e = SockEnd h.

Definition sweep_effect (e : Effect) : Prop :=
  ends_socket e ∨ e = BroadcastSessionStatus.

(** ** Helpers, read-only endpoints, boot and shutdown *)

(** *** Expiry information *)

(** The object returned by [getExpireInfo]; [None] is [null]. *)
Record ExpireInfo := mkExpireInfo {
  expiresAt : option Z;
  expiresInMs : option Z
}.

(** [getExpireInfo], server.js 99-112 (server-2.js 134-147,
    server-optimized 245-254, same text), at [Date.now() = now]. *)
Definition getExpireInfo (now : Z) (session : option Session) : ExpireInfo :=
  match session with
  | Some s =>
      if String.prefix "pending" (status s) then
        let expiresAt := createdAt s + PENDING_EXPIRE_MS in
        mkExpireInfo (Some expiresAt) (Some (Z.max 0 (expiresAt - now)))
      else mkExpireInfo None None
  | None => mkExpireInfo None None
  end.

(** *** [GET /status] and [GET /health] *)

(** Answers of the transport that the lifecycle code does not consult:
    the [id] of [sock.user] ([None]: the socket has no user), whether
    [sock.sendPresenceUpdate] throws, and the [key.id] of the result of
    [sock.sendMessage] ([None]: the call throws). *)
Record Transport := mkTransport {
  user_id : nat → option string;
  presence_throws : nat → string → string → bool;
  message_id_of : nat → string → string → option string
}.

(** [str.split(':')[0]] *)
Fixpoint before_colon (s : string) : string :=
  match s with
  | EmptyString => EmptyString
  | String c r => if Ascii.eqb c ":" then EmptyString else String c (before_colon r)
  end.

(** [s.sock?.user?.id?.split(':')[0] || null] *)
Definition userPhone (tr : Transport) (sockh : nat) : option string :=
  match user_id tr sockh with
  | Some id => if truthy (Some (before_colon id)) then Some (before_colon id) else None
  | None => None
  end.

(** [x || null] for a number-or-null. *)
Definition orNull (o : option Z) : option Z :=
  match o with
  | Some 0 => None
  | _ => o
  end.

(** One element of the [sessions] array of [GET /status]. *)
Record StatusRow := mkStatusRow {
  row_sessionId : string;
  row_status : string;
  row_connected : bool;
  row_hasQR : bool;
  row_hasPairingCode : bool;
  row_phoneNumber : option string;
  row_createdAt : Z;
  row_connectedAt : option Z;
  row_reconnectAttempts : Z;
  row_expiresInMs : option Z
}.

(** The mapping of [Object.entries(sessions)] in [GET /status], server.js
    535-548 (server-2.js 525-538, server-optimized 649-662). *)
Definition statusRow (tr : Transport) (now : Z) (e : string * Session)
    : StatusRow :=
  let '(id, s) := e in
  mkStatusRow id (status s) (String.eqb (status s) "connected")
    (truthy (qr s)) (truthy (pairingCode s)) (userPhone tr (sock s))
    (createdAt s) (orNull (connectedAt s)) (reconnectAttempts s)
    (if String.prefix "pending" (status s)
     then Some (Z.max 0 (PENDING_EXPIRE_MS - (now - createdAt s)))
     else None).

Record StatusReply := mkStatusReply {
  status_total : Z;
  status_connected : Z;
  status_pending : Z;
  status_sessions : list StatusRow
}.

(** [GET /status], server.js 534-556.  The rows come in the order of
    [map_to_list]; server-optimized adds [process.memoryUsage()]. *)
Definition get_status (tr : Transport) (now : Z) (st : State) : StatusReply :=
  let data := statusRow tr now <$> map_to_list (sessions st) in
  mkStatusReply
    (Z.of_nat (length data))
    (Z.of_nat (length (filter (λ r, row_connected r = true) data)))
    (Z.of_nat (length (filter (λ r, String.prefix "pending" (row_status r) = true)
                         data)))
    data.

Record HealthReply := mkHealthReply {
  health_total : Z;
  health_connected : Z;
  health_pending : Z
}.

(** The [sessions] object of [GET /health], server.js 703-717
    (server-2.js 693-707, server-optimized 799-818). *)
Definition get_health (st : State) : HealthReply :=
  let totalSessions := Z.of_nat (length (map_to_list (sessions st)).*1) in
  let connectedSessions :=
    Z.of_nat (length (filter (λ s, String.eqb (status s) "connected" = true)
                        (map_to_list (sessions st)).*2)) in
  mkHealthReply totalSessions connectedSessions
    (totalSessions - connectedSessions).

(** *** Well-formed records *)

(** A property of every registered record. *)
Definition every_record (P : Session → Prop) (st : State) : Prop :=
  ∀ id s, sessions st !! id = Some s → P s.

(** What the three files keep true of a record: its status is one of the
    three the code ever writes, it holds a QR payload only while
    [pending_qr], and it carries a connection time exactly when it is
    connected. *)
Definition record_wf (s : Session) : Prop :=
  (status s = "pending_qr" ∨ status s = "pending_pair" ∨ status s = "connected")
  ∧ (qr s ≠ None → status s = "pending_qr")
  ∧ (status s = "connected" ↔ connectedAt s ≠ None).

(** The two summary endpoints report the same counts. *)
Definition summaries_agree (tr : Transport) (now : Z) (st : State) : Prop :=
  status_total (get_status tr now st) = health_total (get_health st)
  ∧ status_connected (get_status tr now st) = health_connected (get_health st)
  ∧ status_pending (get_status tr now st) = health_pending (get_health st)
  ∧ status_total (get_status tr now st) = Z.of_nat (size (sessions st)).

(** *** [POST /send-message] *)

(** A JSON body all of whose fields are strings: [None] is an absent
    field. *)
Record SendBody := mkSendBody {
  body_sessionId : option string;
  body_session_id : option string;
  body_number : option string;
  body_message : option string
}.

(** What the handler does to the transport and to the subscribers. *)
Inductive SendAction :=
| SendPresenceUpdate (sockh : nat) (presence jid : string)
| Delay (ms : Z)
| SendMessage (sockh : nat) (jid text : string)
| Emit (sessionId event detail : string).

(** The reply: HTTP status, the [code] field, and the [messageId] of a
    success. *)
Record SendReply := mkSendReply {
  reply_status : Z;
  reply_code : string;
  reply_messageId : option string
}.

(** The handler only reads the registry; what it does is a log of
    [SendAction]s, with exceptions. *)
Definition Req (A : Type) : Type := list SendAction → Outcome A * list SendAction.

Definition Req_ret {A} (a : A) : Req A := λ l, (Returned a, l).

Definition Req_bind {A B} (m : Req A) (f : A → Req B) : Req B := λ l,
  match m l with
  | (Returned a, l') => f a l'
  | (Thrown, l') => (Thrown, l')
  end.

Definition Req_throw {A} : Req A := λ l, (Thrown, l).

Definition Req_try {A} (body handler : Req A) : Req A := λ l,
  match body l with
  | (Returned a, l') => (Returned a, l')
  | (Thrown, l') => handler l'
  end.

Definition act (a : SendAction) : Req unit := λ l, (Returned tt, l ++ [a]).

Section SendMessage.
Variable tr : Transport.

(** [sock.sendPresenceUpdate(presence, jid)] *)
Definition sendPresenceUpdate (sockh : nat) (presence jid : string) : Req unit :=
  Req_bind (act (SendPresenceUpdate sockh presence jid)) (λ _,
  if presence_throws tr sockh presence jid then Req_throw else Req_ret tt).

(** [(await sock.sendMessage(jid, { text })).key.id] *)
Definition sendMessage (sockh : nat) (jid text : string) : Req string :=
  Req_bind (act (SendMessage sockh jid text)) (λ _,
  match message_id_of tr sockh jid text with
  | Some id => Req_ret id
  | None => Req_throw
  end).

(** [a || b] on strings-or-undefined *)
Definition or_else (a b : option string) : option string :=
  if truthy a then a else b.

(** [Math.min(Math.max(message.length * 60, 1500), 4000)], for a message
    of code units below 256, of which [String.length] is the number. *)
Definition typingDelay (message : string) : Z :=
  Z.min (Z.max (Z.of_nat (String.length message) * 60) 1500) 4000.

(** [POST /send-message], server.js 558-635 (server-2.js 548-625,
    server-optimized 673-741), for a body all of whose fields are strings
    and a session id that does not name a property of [Object.prototype];
    [send_message_route] below is the handler without these conditions on
    [number] and on the id. *)
Definition post_send_message (st : State) (body : SendBody) : Req SendReply :=
  let sessionId := or_else (body_sessionId body) (body_session_id body) in
  if negb (truthy sessionId) || negb (truthy (body_number body))
     || negb (truthy (body_message body)) then
    Req_ret (mkSendReply 400 "" None)
  else
  let id := default "" sessionId in
  let number := default "" (body_number body) in
  let message := default "" (body_message body) in
  match sessions st !! id with
  | None => Req_ret (mkSendReply 404 "SESSION_NOT_FOUND" None)
  | Some session =>
      if negb (String.eqb (status session) "connected")
         || negb (bool_decide (is_Some (user_id tr (sock session)))) then
        Req_ret (mkSendReply 400 "SESSION_NOT_CONNECTED" None)
      else
        Req_try
          (let jid := digitsOnly number +:+ "@s.whatsapp.net" in
           Req_bind (sendPresenceUpdate (sock session) "composing" jid) (λ _,
           Req_bind (act (Delay (typingDelay message))) (λ _,
           Req_bind (sendMessage (sock session) jid message) (λ messageId,
           Req_bind (sendPresenceUpdate (sock session) "paused" jid) (λ _,
           Req_bind (act (Emit id "message:sent" messageId)) (λ _,
           Req_ret (mkSendReply 200 "" (Some messageId))))))))
          (Req_bind (act (Emit id "message:error" "")) (λ _,
           Req_ret (mkSendReply 500 "" None)))
  end.

(** The [number] field of the JSON body, as far as the handler tells
    values apart: a string; another truthy value (a number but 0, [true],
    an array, an object), which has no [replace] method; or a falsy value
    that is no string (an absent field, [null], [false], 0). *)
Inductive Field :=
| FString (s : string)
| FTruthy
| FFalsy.

Definition field_truthy (f : Field) : bool :=
  match f with
  | FString s => truthy (Some s)
  | FTruthy => true
  | FFalsy => false
  end.

(** [POST /send-message], server.js 558-635, for a body whose [sessionId],
    [session_id] and [message] are strings or absent and whose [number] is
    any JSON value, with [sessions[sessionId]] as JavaScript evaluates it.
    On an inherited value [session.sock] is undefined, so the test
    [!session.sock?.user] passes and the request is answered as for a
    session that is not connected; on a [number] that is no string,
    [number.replace] throws inside the [try]. *)
Definition send_message_route (st : State)
    (sessionId session_id : option string) (number : Field)
    (message : option string) : Req SendReply :=
  let target := or_else sessionId session_id in
  if negb (truthy target) || negb (field_truthy number)
     || negb (truthy message) then
    Req_ret (mkSendReply 400 "" None)
  else
  let id := default "" target in
  let text := default "" message in
  match looked_up st id with
  | Undefined => Req_ret (mkSendReply 404 "SESSION_NOT_FOUND" None)
  | Inherited => Req_ret (mkSendReply 400 "SESSION_NOT_CONNECTED" None)
  | Own session =>
      if negb (String.eqb (status session) "connected")
         || negb (bool_decide (is_Some (user_id tr (sock session)))) then
        Req_ret (mkSendReply 400 "SESSION_NOT_CONNECTED" None)
      else
        Req_try
          (match number with
           | FString n =>
               let jid := digitsOnly n +:+ "@s.whatsapp.net" in
               Req_bind (sendPresenceUpdate (sock session) "composing" jid)
                 (λ _,
               Req_bind (act (Delay (typingDelay text))) (λ _,
               Req_bind (sendMessage (sock session) jid text) (λ messageId,
               Req_bind (sendPresenceUpdate (sock session) "paused" jid) (λ _,
               Req_bind (act (Emit id "message:sent" messageId)) (λ _,
               Req_ret (mkSendReply 200 "" (Some messageId)))))))
           | _ => Req_throw
           end)
          (Req_bind (act (Emit id "message:error" "")) (λ _,
           Req_ret (mkSendReply 500 "" None)))
  end.

End SendMessage.

(** Every character of the string is a decimal digit. *)
Fixpoint onlyDigits (s : string) : bool :=
  match s with
  | EmptyString => true
  | String c r => isDigit c && onlyDigits r
  end.

(** *** Cross-origin policy of server-optimized.js *)

(** [CORS_ORIGIN] and the [Origin] header are arbitrary strings: here a
    string is the list of its UTF-16 code units. *)
Definition CodeUnits : Type := list N.

Definition comma : N := 44.

(** What [trim] strips: the WhiteSpace and LineTerminator code points of
    ECMAScript (tab, line feed, vertical tab, form feed, carriage return,
    space, U+00A0, U+1680, U+2000 to U+200A, U+2028, U+2029, U+202F,
    U+205F, U+3000, U+FEFF), all of one code unit. *)
Definition isWhiteSpace (c : N) : bool :=
  ((9 <=? c) && (c <=? 13) || (c =? 32) || (c =? 160) || (c =? 5760)
   || (8192 <=? c) && (c <=? 8202) || (c =? 8232) || (c =? 8233)
   || (c =? 8239) || (c =? 8287) || (c =? 12288) || (c =? 65279))%N.

(** Truthiness of a string-or-undefined. *)
Definition nonempty (o : option CodeUnits) : bool :=
  match o with
  | Some (_ :: _) => true
  | _ => false
  end.

(** [str.split(',')] *)
Fixpoint split_comma_go (cur : CodeUnits) (s : CodeUnits) : list CodeUnits :=
  match s with
  | [] => [rev cur]
  | c :: r =>
      if (c =? comma)%N
      then rev cur :: split_comma_go [] r
      else split_comma_go (c :: cur) r
  end.

Definition split_comma (s : CodeUnits) : list CodeUnits :=
  split_comma_go [] s.

(** [str.trim()] *)
Fixpoint trimStart (s : CodeUnits) : CodeUnits :=
  match s with
  | [] => []
  | c :: r => if isWhiteSpace c then trimStart r else s
  end.

Definition trim (s : CodeUnits) : CodeUnits :=
  rev (trimStart (rev (trimStart s))).

(** [(process.env.CORS_ORIGIN || '').split(',').map(o => o.trim())],
    server-optimized 123-125 in production. *)
Definition allowedOrigins (CORS_ORIGIN : option CodeUnits) : list CodeUnits :=
  trim <$> split_comma (if nonempty CORS_ORIGIN then default [] CORS_ORIGIN
                        else []).

(** The [origin] callback handed to [cors], server-optimized 156-161:
    [true] is [callback(null, true)], [false] is the error. *)
Definition cors_origin (isProduction : bool) (CORS_ORIGIN : option CodeUnits)
    (origin : option CodeUnits) : bool :=
  if negb isProduction then true
  else if negb (nonempty origin) then true
  else if bool_decide (default [] origin ∈ allowedOrigins CORS_ORIGIN) then true
  else false.

(** The string has no comma and no white space at either end. *)
Definition no_comma (s : CodeUnits) : bool :=
  forallb (λ c, negb (c =? comma)%N) s.

Definition starts_with_space (s : CodeUnits) : bool :=
  match s with
  | [] => false
  | c :: _ => isWhiteSpace c
  end.

Definition ends_with_space (s : CodeUnits) : bool :=
  starts_with_space (rev s).

(** *** Boot and shutdown *)

(** The rest of a string after its first [n] characters. *)
Fixpoint string_drop (n : nat) (s : string) : string :=
  match n, s with
  | O, _ => s
  | S n', String _ r => string_drop n' r
  | S _, EmptyString => EmptyString
  end.

(** [str.replace(pat, '')] for a string pattern: the first occurrence of
    [pat] is removed. *)
Fixpoint remove_first (pat s : string) : string :=
  if String.prefix pat s then string_drop (String.length pat) s
  else match s with
       | EmptyString => EmptyString
       | String c r => String c (remove_first pat r)
       end.

(** [pat] occurs in [s]. *)
Fixpoint occurs (pat s : string) : bool :=
  String.prefix pat s
  || match s with
     | EmptyString => false
     | String _ r => occurs pat r
     end.

(** The key under which the credentials of a session are stored. *)
Definition creds_key (sessionId : string) : string := sessionId +:+ ":creds".

(** One key of the answer of [mainRedis.keys('*:creds')]: its name, the
    reading of the clock when its turn comes, and the events the process
    handles during the [delay(1500)] that follows the start of its session
    (transport events, timers and sweep ticks: the HTTP server listens only
    once [restoreSessions] is over).  What is handled while [startSession]
    itself waits finds the id without a record, as it would before the
    call, and is counted with the events of the key before. *)
Record StoredKey := mkStoredKey {
  key_name : string;
  key_now : Z;
  key_during : list (Z * Event)
}.

Module ServerBoot.
Section WithEnv.
Variable env : Env.

(** The loop of [restoreSessions], server.js 454-461 (server-2.js 444-451):
    after the start of a key the loop waits ([delay(1500)]) and the events
    of the key are handled. *)
Fixpoint restoreKeys (keys : list StoredKey) : M unit :=
  match keys with
  | [] => mret tt
  | k :: rest =>
      let id := remove_first ":creds" (key_name k) in
      o ← getSession id;
      match o with
      | None =>
          Server.startSession env (key_now k) id None false;;
          modify (λ st, Server.run env st (key_during k))
      | Some _ => mret tt
      end;;
      restoreKeys rest
  end.

(** [restoreSessions], server.js 448-465, for the answer of
    [mainRedis.keys('*:creds')] ([None]: the call throws). *)
Definition restoreSessions (keys : option (list StoredKey)) : M unit :=
  match keys with
  | Some ks => restoreKeys ks;; broadcastSessionStatus
  | None => throw
  end.

(** The loop of the [SIGINT] handler, server.js 736-742 (server-2.js
    726-732). *)
Fixpoint endAll (entries : list (string * Session)) : M unit :=
  match entries with
  | [] => mret tt
  | (id, s) :: rest =>
      try_catch (sock_end env (sock s)) (consoleWarn "Error closing session");;
      endAll rest
  end.

(** The [SIGINT] handler, server.js 732-746, up to [mainRedis.quit()]. *)
Definition on_SIGINT : M unit :=
  entries ← gets (λ st, map_to_list (sessions st));
  endAll entries.

End WithEnv.
End ServerBoot.

Module ServerOptimizedBoot.
Section WithEnv.
Variable env : Env.
Variable MAX_SESSIONS : option Z.

(** [n < MAX_SESSIONS]; a comparison with [NaN] is false. *)
Definition below_max (n : Z) : bool :=
  match MAX_SESSIONS with
  | Some m => n <? m
  | None => false
  end.

(** The loop of [restoreSessions], server-optimized 569-576: after the
    start of a key the loop waits ([delay(1500)]) and the events of the key
    are handled. *)
Fixpoint restoreKeys (keys : list StoredKey) : M unit :=
  match keys with
  | [] => mret tt
  | k :: rest =>
      let id := remove_first ":creds" (key_name k) in
      o ← getSession id;
      n ← gets (λ st, Z.of_nat (size (sessions st)));
      when (negb (bool_decide (is_Some o)) && below_max n)
        (ServerOptimized.startSession env MAX_SESSIONS (key_now k) id None
           false;;
         modify (λ st, ServerOptimized.run env MAX_SESSIONS st (key_during k)));;
      restoreKeys rest
  end.

(** [restoreSessions], server-optimized 563-583; the [catch] only logs with
    [console.error]. *)
Definition restoreSessions (keys : option (list StoredKey)) : M unit :=
  try_catch
    (match keys with
     | Some ks => restoreKeys ks
     | None => throw
     end)
    (mret tt);;
  broadcastSessionStatus.

(** The loop of the [SIGINT] handler, server-optimized 836-843. *)
Fixpoint endAll (entries : list (string * Session)) : M unit :=
  match entries with
  | [] => mret tt
  | (id, s) :: rest =>
      try_catch
        (ServerOptimized.clearSessionTimers id;;
         ServerOptimized.cleanupSessionSocket env (sock s))
        (consoleWarn "Error closing session");;
      endAll rest
  end.

(** The [SIGINT] handler, server-optimized 833-847, up to
    [mainRedis.quit()]; [SIGTERM] (849-852) re-emits [SIGINT]. *)
Definition on_SIGINT : M unit :=
  entries ← gets (λ st, map_to_list (sessions st));
  endAll entries.

End WithEnv.
End ServerOptimizedBoot.

(** *** Waiting for a session to show something *)



(** *** Bounds the lifecycle keeps *)

(** A record that is not reconnecting has its attempt counter at zero, and
    no counter is above one. *)
Definition backoff_fresh (s : Session) : Prop :=
  (isReconnecting s = false → reconnectAttempts s = 0)
  ∧ (reconnectAttempts s = 0 ∨ reconnectAttempts s = 1).

(** A delayed restart of server-2.js or server-optimized.js is due after
    one base interval. *)
Definition restart_delay_ok (t : Timer) : Prop :=
  match callback t with
  | RestartClearFlag _ _ _ | RestartIfNotReconnecting _ _ _ =>
      delay t = 2000 ∨ delay t = 5000
  | _ => True
  end.

Definition backoff_inv (st : State) : Prop :=
  every_record backoff_fresh st ∧ Forall restart_delay_ok (timers st).

(** The session ids [restoreSessions] derives from the keys it is given. *)
Definition restored_ids (keys : list StoredKey) : list string :=
  (λ k, remove_first ":creds" (key_name k)) <$> keys.

(** A record as [restoreSessions] registers it: waiting for a scan, with no
    phone number. *)
Definition restored_record (keys : list StoredKey) (id : string)
    (s : Session) : Prop :=
  status s = "pending_qr" ∧ phoneNumber s = None ∧ qr s = None
  ∧ pairingCode s = None ∧ reconnectAttempts s = 0
  ∧ ∃ k, k ∈ keys ∧ key_now k = createdAt s
         ∧ remove_first ":creds" (key_name k) = id.

(** The store answers with the keys of three sessions; nothing happens
    between their turns. *)
Definition three_stored_keys : list StoredKey :=
  [mkStoredKey "bot1:creds" 0 []; mkStoredKey "bot2:creds" 1500 [];
   mkStoredKey "bot3:creds" 3000 []].

(** [useRedisAuthState] and [makeWASocket] never throw. *)
Definition starts_succeed (env : Env) : Prop :=
  ∀ h, authState_throws env h = false ∧ makeSocket_throws env h = false.

(** Nothing happens between the turns of the keys, and none of them
    derives an id that names a property of [Object.prototype]. *)
Definition undisturbed (keys : list StoredKey) : Prop :=
  Forall (λ k, key_during k = []
               ∧ inherited_key (remove_first ":creds" (key_name k)) = false)
    keys.

(** What a shutdown does to the outside: it ends sockets, strips their
    listeners and warns. *)
Definition shutdown_effect (e : Effect) : Prop :=
  (∃ h, e = SockEnd h) ∨ (∃ h, e = SockRemoveAllListeners h)
  ∨ (∃ m, e = ConsoleWarn m).

(** The session a body addresses: [sessionId || session_id]. *)
Definition body_target (body : SendBody) : option string :=
  or_else (body_sessionId body) (body_session_id body).

(** The jid a number is sent to. *)
Definition jid_of (number : string) : string :=
  digitsOnly number +:+ "@s.whatsapp.net".

(** A transport on which sending works but the closing presence update
    fails. *)
Definition flaky_presence : Transport :=
  mkTransport (λ _, Some "15550100:1@s.whatsapp.net")
    (λ _ presence _, String.eqb presence "paused")
    (λ _ _ _, Some "MSG1").

#[global] Instance Classification_eq_dec : EqDecision Classification.
Proof. solve_decision. Defined.


(** *** Timers *)

(** The timer [t] is pending. *)
Definition pending_timer (t : Timer) (st : State) : Prop := t ∈ timers st.

(** The session a callback was scheduled for. *)
Definition callback_session (cb : Callback) : string :=
  match cb with
  | PairingCb sessionId _ _ | PairingCbChecked sessionId _ _
  | RestartIfPresent sessionId _ | RestartUnlessKilling sessionId _
  | RestartClearFlag sessionId _ _ | RestartIfNotReconnecting sessionId _ _ =>
      sessionId
  end.

(** Every pending pairing or restart timer is listed in the timer table
    under the session it was scheduled for, and that session has a record.
    [timers] holds the callbacks that act on a session; the timer by which
    [waitForSessionData] of server-optimized.js stops its own polling
    (lines 240-241), which that function also enters in the table, acts on
    no session and is not among them. *)
Definition timers_tracked (st : State) : Prop :=
  ∀ t, t ∈ timers st →
       (∃ ts, sessionTimers st !! callback_session (callback t) = Some ts
              ∧ timerId t ∈ ts)
       ∧ is_Some (sessions st !! callback_session (callback t)).

(** *** Episodes of transient closes *)

(** The ids of the pending timers are distinct and were all handed out. *)
Definition fresh_ids (l : list Timer) (n : nat) : Prop :=
  NoDup (timerId <$> l) ∧ Forall (λ t, (timerId t < n)%nat) l.

(** The session is as a start or an open connection leaves it: the id has
    a record whose attempt counter is zero and whose reconnecting flag is
    not set, and the socket of that record carries the listener of the
    id. *)
Definition awaiting_close (id : string) (phone : option string) (st : State)
    : Prop :=
  (∃ s, sessions st !! id = Some s
        ∧ reconnectAttempts s = 0
        ∧ isReconnecting s = false
        ∧ listeners st !! sock s = Some (id, phone))
  ∧ fresh_ids (timers st) (next_timer st).

(** One episode of a lost connection, seen by the event loop [handle] of
    one of the files: the socket of the record registered under [id]
    reports a close with a failure code, and then the timers that the
    close handler scheduled come due, in the order they were scheduled.
    [ep] holds the time of the close, the failure code and the time at
    which the timers come due. *)
Definition episode (handle : Z → Event → M unit) (id : string) (st : State)
    (ep : Z * option Z * Z) : State :=
  match sessions st !! id with
  | Some s =>
      let st1 :=
        (handle ep.1.1 (ConnectionUpdate (sock s) (closeEvent ep.1.2)) st).2 in
      foldl (λ a t, (handle ep.2 (TimerFires (timerId t)) a).2) st1
        (filter (λ t, (next_timer st ≤ timerId t)%nat) (timers st1))
  | None => st
  end.

Definition episodes (handle : Z → Event → M unit) (id : string) (st : State)
    (eps : list (Z * option Z * Z)) : State :=
  foldl (episode handle id) st eps.

(** What a forced restart does to the collaborators: it ends the old
    socket, warns when that fails, and broadcasts the status. *)
Definition is_restart_effect (e : Effect) : bool :=
  match e with
  | SockEnd _ | ConsoleWarn _ | BroadcastSessionStatus => true
  | _ => false
  end.

(** Six closes with code 408 (connection lost), one every minute, each
    followed five seconds later by the timers it scheduled. *)
Definition six_lost_connections : list (Z * option Z * Z) :=
  [(60000, Some 408, 65000); (120000, Some 408, 125000);
   (180000, Some 408, 185000); (240000, Some 408, 245000);
   (300000, Some 408, 305000); (360000, Some 408, 365000)].

(** * Verification *)

(** ** Running the monad *)

Ltac munfold :=
  unfold emitToSession, broadcastSessionStatus, consoleWarn, sock_end,
    sock_logout, deleteKeysWithPattern, sock_requestPairingCode,
    QRCode_toDataURL, useRedisAuthState, makeWASocket, on_connection_update,
    sock_ev_removeAllListeners, sock_removeAllListeners,
    getSession, putSession, updateSession, deleteSession, fresh_handle,
    setTimeout, clearTimeout, perform, when, try_catch, gets, modify, throw,
    mbind, M_bind, mret, M_ret in *.

Ltac mred :=
  cbn beta iota;
  unfold log, set_sessions, set_timers, set_listeners, set_sessionTimers,
    bump_handle, push_timer;
  cbn [fst snd sessions sessionTimers listeners timers next_handle next_timer
       effects];
  rewrite <- ?app_assoc; cbn [app].

(** Two states are equal when their components are; the components of a
    state built by the primitives are read off one at a time. *)
Lemma State_eq (a b : State) :
  sessions a = sessions b → sessionTimers a = sessionTimers b →
  listeners a = listeners b → timers a = timers b →
  next_handle a = next_handle b → next_timer a = next_timer b →
  effects a = effects b → a = b.
Proof. destruct a, b; cbn; intros; by subst. Qed.

Ltac proj_red :=
  cbn [fst snd sessions sessionTimers listeners timers next_handle next_timer
       effects log set_sessions set_timers set_listeners set_sessionTimers
       bump_handle push_timer].

Lemma result_eq {A} (o o' : Outcome A) (a b : State) :
  o = o' → a = b → (o, a) = (o', b).
Proof. by intros -> ->. Qed.

Ltac state_eq :=
  cbn beta iota;
  apply result_eq; [try reflexivity|];
  apply State_eq; proj_red; rewrite <- ?app_assoc; cbn [app];
  rewrite ?app_nil_r.

Lemma new_effects_app st st' es :
  effects st' = (effects st ++ es)%list → new_effects st st' = es.
Proof. intros H. unfold new_effects. rewrite H. apply drop_app_length. Qed.

Lemma new_effects_same st st' :
  effects st' = effects st → new_effects st st' = [].
Proof.
  intros H. apply new_effects_app. by rewrite app_nil_r.
Qed.

Lemma purges_app sessionId es1 es2 :
  purges sessionId (es1 ++ es2) = (purges sessionId es1 + purges sessionId es2)%nat.
Proof. unfold purges. by rewrite filter_app, length_app. Qed.

Lemma purges_cons_purge sessionId redis es :
  purges sessionId (DeleteKeysWithPattern redis (sessionId +:+ ":*") :: es)
  = S (purges sessionId es).
Proof.
  unfold purges. rewrite filter_cons_True; [done|]. cbn. apply String.eqb_refl.
Qed.

Lemma purges_cons_other sessionId e es :
  is_purge_of sessionId e = false →
  purges sessionId (e :: es) = purges sessionId es.
Proof.
  intros H. unfold purges. rewrite filter_cons_False; [done|]. by rewrite H.
Qed.

(** ** [killSession] of server.js *)

Lemma Server_killSession_present env sessionId reason st s :
  sessions st !! sessionId = Some s →
  Server.killSession env sessionId reason st =
    (Returned true,
     mkState (delete sessionId (sessions st)) (sessionTimers st) (listeners st)
       (timers st) (next_handle st) (next_timer st)
       (effects st ++ kill_effects env sessionId reason s)).
Proof.
  intros H. unfold Server.killSession, kill_effects. munfold.
  cbn beta iota. rewrite H. cbn beta iota.
  destruct (end_throws env (sock s)); [|destruct (logout_throws env (sock s))];
    mred; destruct (deleteKeys_throws env (sessionId +:+ ":*")); mred;
    reflexivity.
Qed.









(** ** The taxonomy of failure codes *)

Ltac not_in_list :=
  let H := fresh in
  cbn [app]; intros H;
  repeat (apply elem_of_cons in H as [H|H]; [discriminate|]);
  by apply elem_of_nil in H.

Ltac eval_codes :=
  repeat match goal with
  | |- context [code_is (Some ?k) ?r] =>
      let b := eval vm_compute in (code_is (Some k) r) in
      change (code_is (Some k) r) with b
  end;
  cbn [orb andb negb].

Ltac unfold_reasons :=
  unfold DisconnectReason.loggedOut, DisconnectReason.badSession,
    DisconnectReason.forbidden, DisconnectReason.multideviceMismatch,
    DisconnectReason.connectionReplaced, DisconnectReason.connectionLost,
    DisconnectReason.timedOut, DisconnectReason.connectionClosed,
    DisconnectReason.unavailableService, DisconnectReason.restartRequired in *.

Tactic Notation "split_codes" tactic3(tac) :=
  repeat match goal with
  | |- context [?a =? ?b] => destruct (Z.eqb_spec a b); [subst; cbn; tac|]
  end.

Lemma classify_terminal code :
  classify code = terminal →
  code = Some 401 ∨ code = Some 500 ∨ code = Some 403 ∨ code = Some 411
  ∨ code = Some 440.
Proof.
  destruct code as [z|]; [|discriminate].
  unfold classify, code_is. unfold_reasons.
  split_codes naive_solver. cbn. discriminate.
Qed.

Lemma classify_transient code :
  classify code = transient →
  code = Some 408 ∨ code = Some 428 ∨ code = Some 503.
Proof.
  destruct code as [z|]; [|discriminate].
  unfold classify, code_is. unfold_reasons.
  split_codes naive_solver. cbn. discriminate.
Qed.

Lemma classify_restart_required code :
  classify code = restart_required → code = Some 515.
Proof.
  destruct code as [z|]; [|discriminate].
  unfold classify, code_is. unfold_reasons.
  split_codes naive_solver. cbn. discriminate.
Qed.



(** ** The close handlers *)

(** A close event reaches the close block with the record registered on
    entry. *)
Lemma Server_close_event env now sessionId phone code st s :
  sessions st !! sessionId = Some s →
  Server.onConnectionUpdate env now sessionId phone (closeEvent code) st
  = Server.onClose env sessionId phone s code st.
Proof.
  intros H. unfold Server.onConnectionUpdate, closeEvent. munfold.
  cbn beta iota. rewrite H. cbn [u_qr connection statusCode]. reflexivity.
Qed.

Lemma Server2_close_event env now sessionId phone code st s :
  sessions st !! sessionId = Some s →
  Server2.onConnectionUpdate env now sessionId phone (closeEvent code) st
  = Server2.onClose env sessionId phone s code st.
Proof.
  intros H. unfold Server2.onConnectionUpdate, closeEvent. munfold.
  cbn beta iota. rewrite H. cbn [u_qr connection statusCode]. reflexivity.
Qed.

Lemma ServerOptimized_close_event env now sessionId phone code st s :
  sessions st !! sessionId = Some s →
  ServerOptimized.connectionListener env now sessionId phone (closeEvent code) st
  = ServerOptimized.onClose env sessionId phone s code st.
Proof.
  intros H. unfold ServerOptimized.connectionListener, closeEvent. munfold.
  cbn beta iota. rewrite H. cbn [u_qr connection statusCode]. reflexivity.
Qed.

(** *** server.js *)

Lemma Server_onClose_terminal env sessionId phone code st s :
  classify code = terminal →
  Server.onClose env sessionId phone s code st =
    if deleteKeys_throws env (sessionId +:+ ":*") then
      (Thrown,
       log (DeleteKeysWithPattern (authRedis s) (sessionId +:+ ":*")) st)
    else
      (Returned tt,
       mkState (delete sessionId (sessions st)) (sessionTimers st)
         (listeners st)
         (timers st
          ++ [mkTimer (next_timer st) 3000 (RestartIfPresent sessionId phone)])
         (next_handle st) (S (next_timer st))
         (effects st
          ++ DeleteKeysWithPattern (authRedis s) (sessionId +:+ ":*")
             :: terminal_notification sessionId code
             ++ [BroadcastSessionStatus])).
Proof.
  intros Hc. unfold Server.onClose, terminal_notification.
  destruct (classify_terminal code Hc) as [->|[->|[->|[->| ->]]]];
    cbv zeta; eval_codes; munfold; cbn beta iota;
    destruct (deleteKeys_throws env (sessionId +:+ ":*")); mred; reflexivity.
Qed.


Lemma Server_onClose_restartRequired env sessionId phone st s :
  Server.onClose env sessionId phone s (Some 515) st =
    (Returned tt,
     mkState (alter (set_isReconnecting true) sessionId (sessions st))
       (sessionTimers st) (listeners st)
       (timers st
        ++ [mkTimer (next_timer st) 2000
              (RestartUnlessKilling sessionId phone);
            mkTimer (S (next_timer st)) 3000
              (RestartIfPresent sessionId phone)])
       (next_handle st) (S (S (next_timer st))) (effects st)).
Proof.
  unfold Server.onClose. cbv zeta. eval_codes. munfold. mred. reflexivity.
Qed.

(** *** server-2.js *)

Lemma Server2_onClose_guard env sessionId phone code st s :
  isReconnecting s = true →
  Server2.onClose env sessionId phone s code st = (Returned tt, st).
Proof. intros H. unfold Server2.onClose. by rewrite H. Qed.

Lemma Server2_onClose_terminal env sessionId phone code st s :
  isReconnecting s = false → classify code = terminal →
  Server2.onClose env sessionId phone s code st =
    if deleteKeys_throws env (sessionId +:+ ":*") then
      (Thrown,
       log (DeleteKeysWithPattern (authRedis s) (sessionId +:+ ":*")) st)
    else
      (Returned tt,
       mkState (delete sessionId (sessions st)) (sessionTimers st)
         (listeners st) (timers st) (next_handle st) (next_timer st)
         (effects st
          ++ DeleteKeysWithPattern (authRedis s) (sessionId +:+ ":*")
             :: terminal_notification sessionId code
             ++ [BroadcastSessionStatus])).
Proof.
  intros Hg Hc. unfold Server2.onClose, terminal_notification. rewrite Hg.
  destruct (classify_terminal code Hc) as [->|[->|[->|[->| ->]]]];
    cbv zeta; eval_codes; munfold; cbn beta iota;
    destruct (deleteKeys_throws env (sessionId +:+ ":*")); mred; reflexivity.
Qed.

Lemma Server2_onClose_transient env sessionId phone code st s :
  sessions st !! sessionId = Some s →
  isReconnecting s = false → classify code = transient →
  let attempts := reconnectAttempts s + 1 in
  Server2.onClose env sessionId phone s code st =
    if attempts <=? 5 then
      (Returned tt,
       mkState
         (alter (set_isReconnecting true) sessionId
            (alter (set_reconnectAttempts attempts) sessionId (sessions st)))
         (sessionTimers st) (listeners st)
         (timers st
          ++ [mkTimer (next_timer st)
                (Z.min (attempts * baseBackoff code) 30000)
                (RestartClearFlag sessionId (sock s) phone)])
         (next_handle st) (S (next_timer st)) (effects st))
    else
      (Returned tt,
       mkState (delete sessionId (sessions st)) (sessionTimers st)
         (listeners st) (timers st) (next_handle st) (next_timer st)
         (effects st
          ++ kill_effects env sessionId "max_reconnect_attempts"
               (set_reconnectAttempts attempts s))).
Proof.
  intros Hs Hg Hc. unfold Server2.onClose, baseBackoff. rewrite Hg.
  destruct (classify_transient code Hc) as [->|[->| ->]];
    cbv zeta; eval_codes; destruct (Z.leb_spec (reconnectAttempts s + 1) 5);
    munfold; mred; try reflexivity.
  all: unfold Server2.killSession;
    erewrite Server_killSession_present
      by (cbn [sessions]; rewrite lookup_alter_eq, Hs; reflexivity);
    cbn [sessions sessionTimers listeners timers next_handle next_timer effects];
    rewrite delete_alter_eq; reflexivity.
Qed.


(** *** server-optimized.js *)

Lemma ServerOptimized_onClose_guard env sessionId phone code st s :
  isReconnecting s = true →
  ServerOptimized.onClose env sessionId phone s code st = (Returned tt, st).
Proof. intros H. unfold ServerOptimized.onClose. by rewrite H. Qed.


(** ** [startSession] of server.js *)

Lemma bind_gets {A B} (f : State → A) (k : A → M B) st :
  (gets f ≫= k) st = k (f st) st.
Proof. reflexivity. Qed.

Lemma bind_returned {A B} (m : M A) (k : A → M B) st a st' :
  m st = (Returned a, st') → (m ≫= k) st = k a st'.
Proof. intros H. unfold mbind, M_bind. by rewrite H. Qed.

Lemma bind_inv {A B} (m : M A) (k : A → M B) st b st' :
  (m ≫= k) st = (Returned b, st') →
  ∃ a st0, m st = (Returned a, st0) ∧ k a st0 = (Returned b, st').
Proof.
  unfold mbind, M_bind. destruct (m st) as [[a|] st0]; [|done].
  intros H. by exists a, st0.
Qed.

(** Reads the answers [Hr] and [Hm] of [useRedisAuthState] and
    [makeWASocket] into an unfolded [startSession]. *)
Ltac start_red Hr Hm :=
  cbn [next_handle set_sessions set_sessionTimers set_listeners set_timers
       log bump_handle];
  rewrite Hr; cbn beta iota;
  cbn [next_handle set_sessions set_sessionTimers set_listeners set_timers
       log bump_handle];
  rewrite ?Hm; cbn beta iota.

(** Unless it returns early on a connected record, [startSession] registers
    a fresh record on a fresh socket, after ending the socket of the record
    it replaces when [force] is set. *)
Lemma Server_startSession_spec env now sessionId phone force st :
  alreadyConnected (sessions st !! sessionId) force = false →
  start_succeeds env st = true →
  Server.startSession env now sessionId phone force st =
    (Returned tt,
     mkState
       (<[sessionId :=
            fresh_record now phone (next_handle st) (S (next_handle st))]>
          (sessions st))
       (sessionTimers st)
       (<[S (next_handle st) := (sessionId, phone)]> (listeners st))
       (timers st
        ++ pairing_timer env PairingCb sessionId phone (S (next_handle st))
             (next_timer st))
       (S (S (next_handle st)))
       (length (pairing_timer env PairingCb sessionId phone
                  (S (next_handle st)) (next_timer st))
        + next_timer st)
       (effects st
        ++ teardown_effects env (sessions st !! sessionId) force
        ++ [BroadcastSessionStatus])).
Proof.
  intros Ha Hok. unfold start_succeeds in Hok.
  apply andb_true_iff in Hok as [Hr Hm].
  apply negb_true_iff in Hr, Hm.
  unfold Server.startSession, teardown_effects, pairing_timer, fresh_record.
  munfold. cbn beta iota. rewrite Ha.
  destruct (sessions st !! sessionId) as [old|] eqn:Hs; [destruct force|].
  - cbn beta iota. destruct (end_throws env (sock old)); cbn beta iota;
      start_red Hr Hm;
      (destruct phone as [p|];
       [destruct (truthy (Some p) && negb (creds_registered env sessionId))|]);
      state_eq; rewrite ?insert_delete_eq; reflexivity.
  - cbn beta iota. start_red Hr Hm.
    (destruct phone as [p|];
     [destruct (truthy (Some p) && negb (creds_registered env sessionId))|]);
      state_eq; reflexivity.
  - cbn beta iota. start_red Hr Hm.
    (destruct phone as [p|];
     [destruct (truthy (Some p) && negb (creds_registered env sessionId))|]);
      state_eq; reflexivity.
Qed.

(** When [useRedisAuthState] or [makeWASocket] throws, so does
    [startSession]: a forced start has removed the old record by then, and
    nothing is registered in its place. *)
Lemma Server_startSession_thrown env now sessionId phone force st :
  alreadyConnected (sessions st !! sessionId) force = false →
  start_succeeds env st = false →
  Server.startSession env now sessionId phone force st =
    (Thrown, start_failed env (Server_torn_down env sessionId force st)).
Proof.
  intros Ha Hok. unfold start_succeeds in Hok.
  unfold Server.startSession, Server_torn_down, start_failed, teardown_effects.
  munfold. cbn beta iota. rewrite Ha.
  assert (Hcase : authState_throws env (next_handle st) = true
                  ∨ (authState_throws env (next_handle st) = false
                     ∧ makeSocket_throws env (S (next_handle st)) = true)).
  { destruct (authState_throws env (next_handle st)); [by left|right].
    by destruct (makeSocket_throws env (S (next_handle st))). }
  destruct (sessions st !! sessionId) as [old|] eqn:Hs; [destruct force|];
    cbn beta iota; try destruct (end_throws env (sock old)); cbn beta iota;
    destruct Hcase as [Hr|[Hr Hm]]; start_red Hr Hm;
    state_eq; reflexivity.
Qed.

(** ** The claims about the close handlers *)



Lemma purges_terminal_tail sessionId code :
  purges sessionId
    (terminal_notification sessionId code ++ [BroadcastSessionStatus]) = 0%nat.
Proof.
  unfold terminal_notification.
  repeat match goal with |- context [if ?b then _ else _] => destruct b end;
    reflexivity.
Qed.

(** C1, as the code has it.  For a record whose [isReconnecting] flag is
    not set, a close with a terminal failure code (401, 500, 403, 411, 440)
    makes the listener of server-2.js invoke the purge of [<id>:*] exactly
    once; the listener completes exactly when the purge does not throw, and
    then the record is gone from the registry and no other record changed.
    The listener of server.js does the same for every record, whatever its
    flag. *)
Theorem C1_terminal_close_purges_once_and_removes
    env now sessionId phone code st s :
  sessions st !! sessionId = Some s →
  classify code = terminal →
  let r2 :=
    Server2.onConnectionUpdate env now sessionId phone (closeEvent code) st in
  let r1 :=
    Server.onConnectionUpdate env now sessionId phone (closeEvent code) st in
  (isReconnecting s = false →
     purges sessionId (new_effects st r2.2) = 1%nat
     ∧ completed r2 = negb (deleteKeys_throws env (sessionId +:+ ":*"))
     ∧ (completed r2 = true →
          sessions r2.2 !! sessionId = None
          ∧ sessions r2.2 = delete sessionId (sessions st)))
  ∧ purges sessionId (new_effects st r1.2) = 1%nat
  ∧ completed r1 = negb (deleteKeys_throws env (sessionId +:+ ":*"))
  ∧ (completed r1 = true →
       sessions r1.2 !! sessionId = None
       ∧ sessions r1.2 = delete sessionId (sessions st)).
Proof.
  intros Hs Hc. cbv zeta.
  rewrite (Server2_close_event _ _ _ _ _ _ _ Hs).
  rewrite (Server_close_event _ _ _ _ _ _ _ Hs).
  rewrite (Server_onClose_terminal _ _ _ _ _ _ Hc).
  split.
  - intros Hg. rewrite (Server2_onClose_terminal _ _ _ _ _ _ Hg Hc).
    destruct (deleteKeys_throws env (sessionId +:+ ":*")); cbn [negb].
    + split_and!; [|done|done].
      erewrite new_effects_app by (cbn [snd effects log]; reflexivity).
      apply purges_cons_purge.
    + split_and!; [|done|intros _; split; [apply lookup_delete_eq|done]].
      erewrite new_effects_app by (cbn [snd effects]; reflexivity).
      by rewrite purges_cons_purge, purges_terminal_tail.
  - destruct (deleteKeys_throws env (sessionId +:+ ":*")); cbn [negb].
    + split_and!; [|done|done].
      erewrite new_effects_app by (cbn [snd effects log]; reflexivity).
      apply purges_cons_purge.
    + split_and!; [|done|intros _; split; [apply lookup_delete_eq|done]].
      erewrite new_effects_app by (cbn [snd effects]; reflexivity).
      by rewrite purges_cons_purge, purges_terminal_tail.
Qed.

Lemma C1_witness_logged_out :
  let st := Server2.run quiet_env initial boot_connected in
  let r :=
    Server2.onConnectionUpdate quiet_env 20 "bot1" None
      (closeEvent (Some 401)) st in
  sessions st !! "bot1" = Some connected_record
  ∧ classify (Some 401) = terminal
  ∧ isReconnecting connected_record = false
  ∧ purges "bot1" (new_effects st r.2) = 1%nat
  ∧ sessions r.2 !! "bot1" = None.
Proof.
  cbv zeta.
  assert (H1 : sessions (Server2.run quiet_env initial boot_connected) !! "bot1"
               = Some connected_record) by (vm_compute; reflexivity).
  assert (H2 : classify (Some 401) = terminal) by reflexivity.
  destruct (C1_terminal_close_purges_once_and_removes quiet_env 20 "bot1" None
              (Some 401) _ connected_record H1 H2) as [H _].
  destruct (H eq_refl) as (Hp & Hc & Hr).
  split_and!; [exact H1|exact H2|reflexivity|exact Hp|].
  apply Hr. rewrite Hc. reflexivity.
Defined.

(** C1 as stated fails in server-2.js: a record whose [isReconnecting] flag
    is set (here after a lost connection scheduled a restart) receives a
    close with code 401; the listener completes, the record is still
    registered and no purge was invoked. *)
Lemma C1_counterexample_close_while_reconnecting :
  let st := Server2.run quiet_env initial connection_lost in
  let r :=
    Server2.onConnectionUpdate quiet_env 30 "bot1" None
      (closeEvent (Some 401)) st in
  sessions st !! "bot1" = Some reconnecting_record
  ∧ classify (Some 401) = terminal
  ∧ completed r = true
  ∧ sessions r.2 !! "bot1" = Some reconnecting_record
  ∧ sessions r.2 !! "bot1" ≠ None
  ∧ purges "bot1" (new_effects st r.2) = 0%nat
  ∧ purges "bot1" (new_effects st r.2) ≠ 1%nat.
Proof. vm_compute. split_and!; done. Qed.

(** C5 holds in server-2.js and server-optimized.js: a close event for a
    record whose [isReconnecting] flag is set leaves the whole state
    unchanged, whatever the failure code. *)
Lemma Server2_close_while_reconnecting_is_ignored
    env now sessionId phone code st s :
  sessions st !! sessionId = Some s →
  isReconnecting s = true →
  Server2.onConnectionUpdate env now sessionId phone (closeEvent code) st
  = (Returned tt, st).
Proof.
  intros Hs Hg. rewrite (Server2_close_event _ _ _ _ _ _ _ Hs).
  by apply Server2_onClose_guard.
Qed.

Lemma ServerOptimized_close_while_reconnecting_is_ignored
    env now sessionId phone code st s :
  sessions st !! sessionId = Some s →
  isReconnecting s = true →
  ServerOptimized.connectionListener env now sessionId phone (closeEvent code) st
  = (Returned tt, st).
Proof.
  intros Hs Hg. rewrite (ServerOptimized_close_event _ _ _ _ _ _ _ Hs).
  by apply ServerOptimized_onClose_guard.
Qed.

(** C5 fails in server.js.  The restart-required branch (363-377) tests
    [s.isReconnecting] and logs that it skips, but does not return: for a
    record whose flag is already set, a close with code 515 schedules two
    more restarts (the one of the branch and the one of the trailing
    [else]). *)
Theorem C5_server_js_restart_required_reschedules
    env now sessionId phone st s :
  sessions st !! sessionId = Some s →
  isReconnecting s = true →
  let r :=
    Server.onConnectionUpdate env now sessionId phone
      (closeEvent (Some 515)) st in
  r.1 = Returned tt
  ∧ timers r.2 =
      timers st
      ++ [mkTimer (next_timer st) 2000 (RestartUnlessKilling sessionId phone);
          mkTimer (S (next_timer st)) 3000 (RestartIfPresent sessionId phone)]
  ∧ r.2 ≠ st.
Proof.
  intros Hs Hg. cbv zeta.
  rewrite (Server_close_event _ _ _ _ _ _ _ Hs).
  rewrite Server_onClose_restartRequired. cbn [fst snd timers].
  split_and!; [done|done|].
  intros Heq. apply (f_equal next_timer) in Heq. cbn in Heq. lia.
Qed.

Lemma C5_witness_second_restart_required :
  let st :=
    Server.run quiet_env initial
      (boot_connected ++ [(20, ConnectionUpdate 1 (closeEvent (Some 515)))]) in
  let r :=
    Server.onConnectionUpdate quiet_env 30 "bot1" None
      (closeEvent (Some 515)) st in
  (∃ s, sessions st !! "bot1" = Some s ∧ isReconnecting s = true)
  ∧ length (timers st) = 2%nat
  ∧ length (timers r.2) = 4%nat.
Proof.
  cbv zeta.
  assert (H1 : sessions
                 (Server.run quiet_env initial
                    (boot_connected
                     ++ [(20, ConnectionUpdate 1 (closeEvent (Some 515)))]))
               !! "bot1"
               = Some (set_isReconnecting true connected_record))
    by (vm_compute; reflexivity).
  destruct (C5_server_js_restart_required_reschedules quiet_env 30 "bot1" None
              _ _ H1 eq_refl) as (_ & Ht & _).
  split_and!; [by eexists|by vm_compute|].
  rewrite Ht, length_app. by vm_compute.
Defined.




(** The delayed restart of server-2.js, fired while the record that
    scheduled it is still the registered one: the flag is cleared and
    [startSession] is called with [force = true]. *)
Lemma Server2_fire_restart env now sessionId phone st cur :
  sessions st !! sessionId = Some cur →
  Server2.fire env now (RestartClearFlag sessionId (sock cur) phone) st
  = Server2.startSession env now sessionId phone true
      (set_sessions (alter (set_isReconnecting false) sessionId) st).
Proof.
  intros Hs. cbn [Server2.fire]. munfold. cbn beta iota. rewrite Hs.
  cbn beta iota. rewrite Nat.eqb_refl. reflexivity.
Qed.

(** ** Consecutive transient closes *)

Lemma NoDup_fmap_filter {A B} (f : A → B) (P : A → Prop)
    `{∀ x, Decision (P x)} (l : list A) :
  NoDup (f <$> l) → NoDup (f <$> filter P l).
Proof.
  induction l as [|x l IH]; [done|]. cbn [fmap list_fmap].
  intros Hnd. apply NoDup_cons in Hnd as [Hx Hnd].
  rewrite filter_cons. destruct (decide (P x)); [|by apply IH].
  cbn [fmap list_fmap]. apply NoDup_cons. split; [|by apply IH].
  intros Hin. apply Hx. apply list_elem_of_fmap in Hin as (y & -> & Hy).
  apply list_elem_of_filter in Hy as [_ Hy]. apply list_elem_of_fmap. by exists y.
Qed.

Lemma fresh_ids_filter (P : Timer → Prop) `{∀ x, Decision (P x)} l n :
  fresh_ids l n → fresh_ids (filter P l) n.
Proof.
  intros [Hnd Hlt]. split; [by apply NoDup_fmap_filter|].
  apply Forall_forall. intros t Ht. apply list_elem_of_filter in Ht as [_ Ht].
  by apply (proj1 (Forall_forall _ _) Hlt).
Qed.

Lemma fresh_ids_push l n ms cb :
  fresh_ids l n → fresh_ids (l ++ [mkTimer n ms cb]) (S n).
Proof.
  intros [Hnd Hlt]. split.
  - rewrite fmap_app. apply NoDup_app. split_and!; [done| |].
    + intros k Hk Hin. cbn in Hin. apply list_elem_of_singleton in Hin as ->.
      apply list_elem_of_fmap in Hk as (t & Ht & Hin).
      apply (proj1 (Forall_forall _ _) Hlt) in Hin. lia.
    + cbn. apply NoDup_singleton.
  - apply Forall_app. split.
    + eapply Forall_impl; [exact Hlt|]. cbn. intros. lia.
    + apply Forall_singleton. cbn. lia.
Qed.

Lemma fresh_ids_pairing env cb id phone h l n :
  fresh_ids l n →
  fresh_ids (l ++ pairing_timer env cb id phone h n)
    (length (pairing_timer env cb id phone h n) + n).
Proof.
  intros Hf. unfold pairing_timer. destruct phone as [p|].
  - destruct (truthy (Some p) && negb (creds_registered env id)).
    + by apply fresh_ids_push.
    + by rewrite app_nil_r.
  - by rewrite app_nil_r.
Qed.

Lemma find_timer l tm :
  NoDup (timerId <$> l) → tm ∈ l →
  find (λ x, Nat.eqb (timerId x) (timerId tm)) l = Some tm.
Proof.
  induction l as [|x l IH]; intros Hnd Hin; [by apply elem_of_nil in Hin|].
  cbn [fmap list_fmap] in Hnd. apply NoDup_cons in Hnd as [Hx Hnd].
  cbn [find]. apply elem_of_cons in Hin as [->|Hin].
  - by rewrite Nat.eqb_refl.
  - destruct (Nat.eqb_spec (timerId x) (timerId tm)) as [E|_]; [|by apply IH].
    exfalso. apply Hx. rewrite E. apply list_elem_of_fmap. by exists tm.
Qed.

Lemma filter_due l n ms :
  Forall (λ t, (timerId t < n)%nat) l →
  filter (λ t, (n ≤ timerId t)%nat) (l ++ ms)
  = filter (λ t, (n ≤ timerId t)%nat) ms.
Proof.
  intros Hlt. rewrite filter_app.
  replace (filter (λ t, (n ≤ timerId t)%nat) l) with (@nil Timer); [done|].
  symmetry. induction l as [|x l IH]; [done|].
  apply Forall_cons in Hlt as [Hx Hlt].
  rewrite filter_cons_False by lia. by apply IH.
Qed.

Lemma Server_timer_fires_found env now st tm :
  NoDup (timerId <$> timers st) → tm ∈ timers st →
  Server.timer_fires env now (timerId tm) st
  = Server.fire env now (callback tm)
      (set_timers (filter (λ x, timerId x ≠ timerId tm)) st).
Proof.
  intros Hnd Hin. unfold Server.timer_fires, gets, modify.
  unfold mbind at 1, M_bind at 1. cbn beta iota.
  rewrite (find_timer _ _ Hnd Hin). reflexivity.
Qed.

Lemma Server2_timer_fires_found env now st tm :
  NoDup (timerId <$> timers st) → tm ∈ timers st →
  Server2.timer_fires env now (timerId tm) st
  = Server2.fire env now (callback tm)
      (set_timers (filter (λ x, timerId x ≠ timerId tm)) st).
Proof.
  intros Hnd Hin. unfold Server2.timer_fires, gets, modify.
  unfold mbind at 1, M_bind at 1. cbn beta iota.
  rewrite (find_timer _ _ Hnd Hin). reflexivity.
Qed.

Lemma starts_succeed_in env st : starts_succeed env → start_succeeds env st = true.
Proof.
  intros H. unfold start_succeeds.
  by rewrite (proj1 (H _)), (proj2 (H _)).
Qed.

Lemma restart_effects_teardown env o force :
  Forall (λ e, is_restart_effect e = true)
    (teardown_effects env o force ++ [BroadcastSessionStatus]).
Proof.
  unfold teardown_effects. destruct o as [old|]; [destruct force|];
    try destruct (end_throws env (sock old)); repeat constructor.
Qed.

(** A forced restart of a registered session, when the credential store
    and the transport can be opened, leaves the session awaiting a close,
    keeps the timers that were pending, and does to the collaborators only
    what a restart does. *)
Lemma restart_awaits_close env now id phone cur st :
  starts_succeed env →
  sessions st !! id = Some cur →
  fresh_ids (timers st) (next_timer st) →
  let st' := (Server.startSession env now id phone true st).2 in
  awaiting_close id phone st'
  ∧ (∀ t, t ∈ timers st → t ∈ timers st')
  ∧ ∃ es, effects st' = effects st ++ es
          ∧ Forall (λ e, is_restart_effect e = true) es.
Proof.
  intros Hok Hs Hf. cbv zeta.
  rewrite Server_startSession_spec;
    [|by rewrite Hs|by apply starts_succeed_in].
  cbn [snd]. split_and!.
  - split.
    + eexists. cbn [sessions listeners]. rewrite lookup_insert_eq.
      split_and!; [done|done|done|].
      cbn [fresh_record sock]. apply lookup_insert_eq.
    + cbn [timers next_timer]. by apply fresh_ids_pairing.
  - intros t Ht. cbn [timers]. apply elem_of_app. by left.
  - eexists. split; [reflexivity|]. apply restart_effects_teardown.
Qed.

Lemma Server_fire_restart env now sessionId phone st cur :
  sessions st !! sessionId = Some cur →
  Server.fire env now (RestartIfPresent sessionId phone) st
  = Server.startSession env now sessionId phone true st
  ∧ Server.fire env now (RestartUnlessKilling sessionId phone) st
    = Server.startSession env now sessionId phone true st.
Proof.
  intros Hs. cbn [Server.fire]. munfold. cbn beta iota. by rewrite Hs.
Qed.

(** The first transient close of a record in server.js: the counter goes
    to one; for 503 the flag is set and one restart is scheduled, for the
    other codes the restart of the branch and the one of the trailing
    [else] are. *)
Lemma Server_onClose_transient env sessionId phone code st s :
  isReconnecting s = false →
  reconnectAttempts s + 1 ≤ 5 →
  classify code = transient →
  let attempts := reconnectAttempts s + 1 in
  Server.onClose env sessionId phone s code st =
    (Returned tt,
     if code_is code DisconnectReason.unavailableService then
       mkState
         (alter (set_reconnectAttempts attempts) sessionId
            (alter (set_isReconnecting true) sessionId (sessions st)))
         (sessionTimers st) (listeners st)
         (timers st
          ++ [mkTimer (next_timer st) (Z.min (attempts * 5000) 30000)
                (RestartUnlessKilling sessionId phone)])
         (next_handle st) (S (next_timer st)) (effects st)
     else
       mkState
         (alter (set_reconnectAttempts attempts) sessionId (sessions st))
         (sessionTimers st) (listeners st)
         (timers st
          ++ [mkTimer (next_timer st) (Z.min (attempts * 2000) 10000)
                (RestartIfPresent sessionId phone);
              mkTimer (S (next_timer st)) 3000
                (RestartIfPresent sessionId phone)])
         (next_handle st) (S (S (next_timer st))) (effects st)).
Proof.
  intros Hg Hle Hc. unfold Server.onClose. rewrite Hg.
  destruct (classify_transient code Hc) as [->|[->| ->]];
    cbv zeta; eval_codes; destruct (Z.leb_spec (reconnectAttempts s + 1) 5);
    try lia; munfold; mred; reflexivity.
Qed.

Lemma restart_effects_app es1 es2 :
  Forall (λ e, is_restart_effect e = true) es1 →
  Forall (λ e, is_restart_effect e = true) es2 →
  Forall (λ e, is_restart_effect e = true) (es1 ++ es2).
Proof. intros. by apply Forall_app. Qed.

(** One episode in server-2.js. *)
Lemma Server2_episode_awaits_close env id phone st now code now' :
  starts_succeed env →
  awaiting_close id phone st →
  classify code = transient →
  let st' := episode (Server2.handle env) id st (now, code, now') in
  awaiting_close id phone st'
  ∧ ∃ es, effects st' = effects st ++ es
          ∧ Forall (λ e, is_restart_effect e = true) es.
Proof.
  intros Hok [(s & Hs & Ha & Hg & Hl) Hf] Hc. cbv zeta.
  unfold episode. rewrite Hs. cbn [fst snd]. cbv zeta.
  assert (H1 : Server2.handle env now
                 (ConnectionUpdate (sock s) (closeEvent code)) st
               = Server2.onClose env id phone s code st).
  { cbn [Server2.handle]. unfold gets. unfold mbind at 1, M_bind at 1.
    cbn beta iota. rewrite Hl. by apply Server2_close_event. }
  rewrite H1, (Server2_onClose_transient _ _ _ _ _ _ Hs Hg Hc). cbv zeta.
  rewrite Ha. change (0 + 1 <=? 5) with true. cbn beta iota. cbn [snd timers].
  rewrite (filter_due _ _ _ (proj2 Hf)).
  rewrite filter_cons_True by (cbn; lia). rewrite filter_nil.
  cbn [foldl].
  set (tm := mkTimer (next_timer st) _ _).
  set (st1 := mkState _ _ _ _ _ _ _).
  assert (Hf1 : fresh_ids (timers st1) (next_timer st1))
    by (by apply fresh_ids_push).
  cbn [Server2.handle].
  rewrite (Server2_timer_fires_found env now' st1 tm (proj1 Hf1))
    by (apply elem_of_app; right; by left).
  cbn [callback tm].
  set (st2 := set_timers _ st1).
  assert (Hs2 : sessions st2 !! id
                = Some (set_isReconnecting true
                          (set_reconnectAttempts (0 + 1) s))).
  { cbn [sessions st2 st1 set_timers]. by rewrite !lookup_alter_eq, Hs. }
  pose proof (Server2_fire_restart env now' id phone st2 _ Hs2) as Hfire.
  cbn [sock set_isReconnecting set_reconnectAttempts] in Hfire.
  rewrite Hfire. unfold Server2.startSession.
  set (st3 := set_sessions _ st2).
  destruct (restart_awaits_close env now' id phone
              (set_isReconnecting false
                 (set_isReconnecting true (set_reconnectAttempts (0 + 1) s)))
              st3 Hok) as (Haw & _ & es & He & Hes).
  { cbn [sessions st3 set_sessions]. by rewrite lookup_alter_eq, Hs2. }
  { cbn [timers next_timer st3 st2 set_sessions set_timers].
    by apply fresh_ids_filter. }
  split; [exact Haw|]. exists es. split; [|done]. by rewrite He.
Qed.

(** One episode in server.js. *)
Lemma Server_episode_awaits_close env id phone st now code now' :
  starts_succeed env →
  awaiting_close id phone st →
  classify code = transient →
  let st' := episode (Server.handle env) id st (now, code, now') in
  awaiting_close id phone st'
  ∧ ∃ es, effects st' = effects st ++ es
          ∧ Forall (λ e, is_restart_effect e = true) es.
Proof.
  intros Hok [(s & Hs & Ha & Hg & Hl) Hf] Hc. cbv zeta.
  unfold episode. rewrite Hs. cbn [fst snd]. cbv zeta.
  assert (H1 : Server.handle env now
                 (ConnectionUpdate (sock s) (closeEvent code)) st
               = Server.onClose env id phone s code st).
  { cbn [Server.handle]. unfold gets. unfold mbind at 1, M_bind at 1.
    cbn beta iota. rewrite Hl. by apply Server_close_event. }
  rewrite H1, (Server_onClose_transient env id phone code st s Hg) by
    (done || (rewrite Ha; lia)).
  cbv zeta. cbn [snd].
  assert (Hstep : ∀ st0 tm,
            fresh_ids (timers st0) (next_timer st0) →
            tm ∈ timers st0 →
            (callback tm = RestartIfPresent id phone
             ∨ callback tm = RestartUnlessKilling id phone) →
            is_Some (sessions st0 !! id) →
            let st' := (Server.handle env now' (TimerFires (timerId tm)) st0).2 in
            awaiting_close id phone st'
            ∧ (∀ t, t ∈ timers st0 → timerId t ≠ timerId tm → t ∈ timers st')
            ∧ ∃ es, effects st' = effects st0 ++ es
                    ∧ Forall (λ e, is_restart_effect e = true) es).
  { intros st0 tm Hf0 Hin Hcb [cur Hcur]. cbv zeta. cbn [Server.handle].
    rewrite (Server_timer_fires_found env now' st0 tm (proj1 Hf0) Hin).
    set (st1 := set_timers _ st0).
    assert (Hfire : Server.fire env now' (callback tm) st1
                    = Server.startSession env now' id phone true st1).
    { destruct (Server_fire_restart env now' id phone st1 cur Hcur) as [E1 E2].
      by destruct Hcb as [-> | ->]. }
    rewrite Hfire.
    destruct (restart_awaits_close env now' id phone cur st1 Hok Hcur)
      as (Haw & Hkeep & es & He & Hes).
    { cbn [timers next_timer st1 set_timers]. by apply fresh_ids_filter. }
    split_and!; [done| |by exists es].
    intros t Ht Hne. apply Hkeep. cbn [timers st1 set_timers].
    by apply list_elem_of_filter. }
  destruct (code_is code DisconnectReason.unavailableService).
  - cbn [timers]. rewrite (filter_due _ _ _ (proj2 Hf)).
    rewrite filter_cons_True by (cbn; lia). rewrite filter_nil.
    cbn [foldl].
    set (tm := mkTimer (next_timer st) _ _).
    set (st1 := mkState _ _ _ _ _ _ _).
    destruct (Hstep st1 tm) as (Haw & _ & es & He & Hes).
    + by apply fresh_ids_push.
    + apply elem_of_app. right. by left.
    + by right.
    + cbn [sessions st1]. rewrite !lookup_alter_eq, Hs. by eexists.
    + split; [exact Haw|]. by exists es.
  - cbn [timers]. rewrite (filter_due _ _ _ (proj2 Hf)).
    rewrite filter_cons_True by (cbn; lia).
    rewrite filter_cons_True by (cbn; lia). rewrite filter_nil.
    cbn [foldl].
    set (tm1 := mkTimer (next_timer st) _ _).
    set (tm2 := mkTimer (S (next_timer st)) _ _).
    set (st1 := mkState _ _ _ _ _ _ _).
    destruct (Hstep st1 tm1) as (Haw & Hkeep & es & He & Hes).
    + change (timers st1) with (timers st ++ ([tm1] ++ [tm2])).
      change (next_timer st1) with (S (S (next_timer st))).
      rewrite app_assoc. by apply fresh_ids_push, fresh_ids_push.
    + apply elem_of_app. right. by left.
    + by left.
    + cbn [sessions st1]. rewrite !lookup_alter_eq, Hs. by eexists.
    + set (st2 := (Server.handle env now' (TimerFires (timerId tm1)) st1).2)
        in *.
      destruct Haw as [(s2 & Hs2 & _) Hf2].
      destruct (Hstep st2 tm2 Hf2) as (Haw' & _ & es' & He' & Hes').
      * apply Hkeep; [|cbn; lia]. apply elem_of_app. right. right. by left.
      * by left.
      * by eexists.
      * split; [exact Haw'|]. exists (es ++ es'). split.
        -- by rewrite He', He, <- app_assoc.
        -- by apply restart_effects_app.
Qed.

Lemma episodes_await_close handle id phone :
  (∀ st ep, awaiting_close id phone st → classify ep.1.2 = transient →
     awaiting_close id phone (episode handle id st ep)
     ∧ ∃ es, effects (episode handle id st ep) = effects st ++ es
             ∧ Forall (λ e, is_restart_effect e = true) es) →
  ∀ eps st,
    awaiting_close id phone st →
    Forall (λ ep, classify ep.1.2 = transient) eps →
    awaiting_close id phone (episodes handle id st eps)
    ∧ ∃ es, effects (episodes handle id st eps) = effects st ++ es
            ∧ Forall (λ e, is_restart_effect e = true) es.
Proof.
  intros Hone. unfold episodes.
  induction eps as [|ep eps IH]; intros st Haw Hall; cbn [foldl].
  { split; [done|]. exists []. by rewrite app_nil_r. }
  apply Forall_cons in Hall as [Hep Hall].
  destruct (Hone st ep Haw Hep) as (Haw1 & es1 & He1 & Hes1).
  destruct (IH _ Haw1 Hall) as (Haw2 & es2 & He2 & Hes2).
  split; [done|]. exists (es1 ++ es2). split.
  - by rewrite He2, He1, <- app_assoc.
  - by apply restart_effects_app.
Qed.

(** C2 fails in server.js and in server-2.js: the limit of five attempts
    is never reached by consecutive transient closes.  For a session that
    awaits a close (its counter at zero, its flag clear, its socket
    listened to), a close with a transient failure code (408, 428, 503)
    takes the counter to one and schedules a restart after
    [min(1 * base, ceiling)] ms (server-2.js: base 5000 for 503 and 2000
    otherwise, ceiling 30000, and the flag is set; server.js: the same for
    503 and ceiling 10000 otherwise, where a second restart follows after
    3000 ms).  The restart registers a fresh record, whose counter is zero
    again.  So after any number of episodes of a transient close followed
    by the restarts it scheduled, with no open connection in between, the
    session awaits a close as it did at first: its record is registered
    with the counter at zero, and nothing was done to the collaborators
    but ending sockets and broadcasting the status, so that no
    [session:killed] notification with reason [max_reconnect_attempts] was
    sent and no credentials were purged. *)
Theorem C2_transient_closes_never_give_up env id phone eps st :
  starts_succeed env →
  awaiting_close id phone st →
  Forall (λ ep, classify ep.1.2 = transient) eps →
  let st1 := episodes (Server.handle env) id st eps in
  let st2 := episodes (Server2.handle env) id st eps in
  (∀ s now code,
     sessions st !! id = Some s → classify code = transient →
     let r :=
       Server2.onConnectionUpdate env now id phone (closeEvent code) st in
     r.1 = Returned tt
     ∧ sessions r.2 !! id
       = Some (set_isReconnecting true (set_reconnectAttempts 1 s))
     ∧ timers r.2
       = timers st
         ++ [mkTimer (next_timer st) (Z.min (1 * baseBackoff code) 30000)
               (RestartClearFlag id (sock s) phone)]
     ∧ baseBackoff code
       = (if bool_decide (code = Some 503) then 5000 else 2000))
  ∧ awaiting_close id phone st1
  ∧ awaiting_close id phone st2
  ∧ Forall (λ e, is_restart_effect e = true) (new_effects st st1)
  ∧ Forall (λ e, is_restart_effect e = true) (new_effects st st2)
  ∧ (∀ reason,
       (EmitToSession id "session:killed" reason ∉ new_effects st st1)
       ∧ (EmitToSession id "session:killed" reason ∉ new_effects st st2))
  ∧ purges id (new_effects st st1) = 0%nat
  ∧ purges id (new_effects st st2) = 0%nat.
Proof.
  intros Hok Haw Hall. cbv zeta.
  destruct (episodes_await_close (Server.handle env) id phone) with
    (eps := eps) (st := st) as (Haw1 & es1 & He1 & Hes1); [|done|done|].
  { intros st0 [[now code] now'] H0 Hc.
    by apply Server_episode_awaits_close. }
  destruct (episodes_await_close (Server2.handle env) id phone) with
    (eps := eps) (st := st) as (Haw2 & es2 & He2 & Hes2); [|done|done|].
  { intros st0 [[now code] now'] H0 Hc.
    by apply Server2_episode_awaits_close. }
  rewrite (new_effects_app st _ es1) by done.
  rewrite (new_effects_app st _ es2) by done.
  assert (Hno : ∀ es, Forall (λ e, is_restart_effect e = true) es →
            (∀ reason, EmitToSession id "session:killed" reason ∉ es)
            ∧ purges id es = 0%nat).
  { intros es Hes. split.
    - intros reason Hin. by apply (proj1 (Forall_forall _ _) Hes) in Hin.
    - induction es as [|e es IH]; [done|].
      apply Forall_cons in Hes as [He Hes].
      rewrite purges_cons_other; [by apply IH|]. by destruct e. }
  destruct (Hno es1 Hes1) as [Hk1 Hp1]. destruct (Hno es2 Hes2) as [Hk2 Hp2].
  split_and!; try done.
  intros s now code Hs Hc. cbv zeta.
  destruct Haw as [(s0 & Hs0 & Ha & Hg & _) _].
  rewrite Hs in Hs0. injection Hs0 as <-.
  rewrite (Server2_close_event _ _ _ _ _ _ _ Hs).
  rewrite (Server2_onClose_transient _ _ _ _ _ _ Hs Hg Hc). cbv zeta.
  rewrite Ha. change (0 + 1 <=? 5) with true. cbn beta iota.
  cbn [fst snd sessions timers]. split_and!; [done| |done|].
  - by rewrite !lookup_alter_eq, Hs.
  - unfold baseBackoff.
    destruct (classify_transient code Hc) as [->|[->| ->]]; reflexivity.
Qed.

(** A session connected at boot loses its connection six times in a row,
    each close followed by the restarts it scheduled: in both files the
    sixth episode ends like the first, with a fresh pending record under
    the id, and the clients were never told that the session was
    killed. *)
Lemma C2_witness_six_lost_connections :
  let st := Server.run quiet_env initial boot_connected in
  let st1 := episodes (Server.handle quiet_env) "bot1" st six_lost_connections in
  let st2 := episodes (Server2.handle quiet_env) "bot1" st six_lost_connections in
  starts_succeed quiet_env
  ∧ awaiting_close "bot1" None st
  ∧ Forall (λ ep, classify ep.1.2 = transient) six_lost_connections
  ∧ sessions st1 !! "bot1" = Some (fresh_record 365000 None 24 25)
  ∧ sessions st2 !! "bot1" = Some (fresh_record 365000 None 12 13)
  ∧ reconnectAttempts (fresh_record 365000 None 12 13) = 0
  ∧ (EmitToSession "bot1" "session:killed" "max_reconnect_attempts"
       ∉ new_effects st st1)
  ∧ (EmitToSession "bot1" "session:killed" "max_reconnect_attempts"
       ∉ new_effects st st2).
Proof.
  cbv zeta.
  assert (Hok : starts_succeed quiet_env) by (intros h; by split).
  assert (Haw : awaiting_close "bot1" None
                  (Server.run quiet_env initial boot_connected)).
  { split.
    - exists connected_record. split_and!; by vm_compute.
    - split; vm_compute; constructor. }
  assert (Hall : Forall (λ ep : Z * option Z * Z, classify ep.1.2 = transient)
                   six_lost_connections) by (repeat constructor).
  destruct (C2_transient_closes_never_give_up quiet_env "bot1" None
              six_lost_connections _ Hok Haw Hall)
    as (_ & _ & _ & _ & _ & Hk & _).
  split_and!; [exact Hok|exact Haw|exact Hall|vm_compute; reflexivity
              |vm_compute; reflexivity|reflexivity
              |exact (proj1 (Hk _))|exact (proj2 (Hk _))].
Defined.

(** ** [startSession] of server-optimized.js *)

Lemma ServerOptimized_startSession_rejected
    env MAX now sessionId phone force st :
  sessions st !! sessionId = None →
  ServerOptimized.at_least_max MAX (Z.of_nat (size (sessions st))) = true →
  ServerOptimized.startSession env MAX now sessionId phone force st
  = (Returned tt, log (ConsoleWarn "Max sessions reached") st).
Proof.
  intros Hs Hm. unfold ServerOptimized.startSession. munfold. cbn beta iota.
  rewrite Hs. cbn [alreadyConnected]. cbn beta iota. rewrite Hm.
  rewrite bool_decide_eq_false_2 by (by intros [? ?]). reflexivity.
Qed.

(** [cleanupSessionSocket] never throws. *)
Lemma ServerOptimized_cleanupSessionSocket_spec env sockh st :
  ServerOptimized.cleanupSessionSocket env sockh st
  = (Returned tt,
     mkState (sessions st) (sessionTimers st)
       (cleanup_listeners env sockh (listeners st)) (timers st)
       (next_handle st) (next_timer st)
       (effects st ++ cleanup_effects env sockh)).
Proof.
  unfold ServerOptimized.cleanupSessionSocket, sock_ev_removeAllListeners,
    sock_removeAllListeners, cleanup_effects, cleanup_listeners.
  munfold. cbn beta iota.
  destruct (ev_removeAllListeners_throws env sockh); cbn beta iota;
    [state_eq; reflexivity|].
  destruct (removeAllListeners_throws env sockh); cbn beta iota;
    [state_eq; reflexivity|].
  destruct (end_throws env sockh); cbn beta iota; state_eq; reflexivity.
Qed.

(** The teardown of a forced start, and the start of a new id that is
    admitted, up to the call of [useRedisAuthState]. *)
Lemma ServerOptimized_startSession_unfold
    env MAX now sessionId phone force st :
  alreadyConnected (sessions st !! sessionId) force = false →
  (sessions st !! sessionId = None →
   ServerOptimized.at_least_max MAX (Z.of_nat (size (sessions st))) = false) →
  ServerOptimized.startSession env MAX now sessionId phone force st
  = (redis ← useRedisAuthState env sessionId;
     sockh ← makeWASocket env;
     putSession sessionId (fresh_record now phone redis sockh);;
     broadcastSessionStatus;;
     match phone with
     | Some p =>
         when (truthy phone && negb (creds_registered env sessionId))
           (pairingTimer ← setTimeout (PairingCbChecked sessionId sockh p) 1200;
            ServerOptimized.addSessionTimer sessionId pairingTimer)
     | None => mret tt
     end;;
     on_connection_update sockh sessionId phone)
      (torn_down env sessionId force st).
Proof.
  intros Ha Hm.
  unfold ServerOptimized.startSession, torn_down, fresh_record, getSession.
  rewrite bind_gets, Ha. cbn beta iota. rewrite bind_gets.
  destruct (sessions st !! sessionId) as [old|] eqn:Hs.
  - rewrite bool_decide_eq_true_2 by eauto. cbn [negb andb]. cbn beta iota.
    destruct force; [|reflexivity].
    erewrite bind_returned; [reflexivity|]. unfold when, cleared_timers,
      ServerOptimized.clearSessionTimers.
    unfold try_catch, mbind at 1 2, M_bind at 1 2.
    rewrite ServerOptimized_cleanupSessionSocket_spec.
    munfold. cbn beta iota. proj_red.
    destruct (sessionTimers st !! sessionId) as [ts|] eqn:Ht; cbn beta iota;
      state_eq; rewrite ?(delete_id _ _ Ht); reflexivity.
  - rewrite Hm by done. rewrite andb_false_r. cbn beta iota. reflexivity.
Qed.

Lemma ServerOptimized_startSession_spec env MAX now sessionId phone force st :
  alreadyConnected (sessions st !! sessionId) force = false →
  (sessions st !! sessionId = None →
   ServerOptimized.at_least_max MAX (Z.of_nat (size (sessions st))) = false) →
  start_succeeds env st = true →
  ServerOptimized.startSession env MAX now sessionId phone force st
  = (Returned tt,
     started env now sessionId phone (torn_down env sessionId force st)).
Proof.
  intros Ha Hm Hok. rewrite ServerOptimized_startSession_unfold by done.
  assert (Hn : next_handle (torn_down env sessionId force st) = next_handle st).
  { unfold torn_down. destruct (sessions st !! sessionId); [|done].
    by destruct force. }
  unfold start_succeeds in Hok. apply andb_true_iff in Hok as [Hr Hk].
  apply negb_true_iff in Hr, Hk. rewrite <- Hn in Hr, Hk.
  remember (torn_down env sessionId force st) as td eqn:Etd. clear Etd.
  unfold started, pairing_timer, ServerOptimized.addSessionTimer, fresh_record.
  munfold. cbn beta iota. start_red Hr Hk.
  (destruct phone as [p|];
   [destruct (truthy (Some p) && negb (creds_registered env sessionId))|]);
    state_eq; cbn [foldr timerId]; reflexivity.
Qed.

Lemma ServerOptimized_startSession_thrown
    env MAX now sessionId phone force st :
  alreadyConnected (sessions st !! sessionId) force = false →
  (sessions st !! sessionId = None →
   ServerOptimized.at_least_max MAX (Z.of_nat (size (sessions st))) = false) →
  start_succeeds env st = false →
  ServerOptimized.startSession env MAX now sessionId phone force st
  = (Thrown, start_failed env (torn_down env sessionId force st)).
Proof.
  intros Ha Hm Hok. rewrite ServerOptimized_startSession_unfold by done.
  assert (Hn : next_handle (torn_down env sessionId force st) = next_handle st).
  { unfold torn_down. destruct (sessions st !! sessionId); [|done].
    by destruct force. }
  unfold start_succeeds in Hok. rewrite <- Hn in Hok.
  remember (torn_down env sessionId force st) as td eqn:Etd. clear Etd.
  unfold start_failed. munfold. cbn beta iota.
  destruct (authState_throws env (next_handle td)) eqn:Hr; cbn beta iota;
    [reflexivity|].
  cbn [next_handle bump_handle].
  destruct (makeSocket_throws env (S (next_handle td))) eqn:Hk;
    cbn beta iota; [reflexivity|done].
Qed.

(** The states [startSession] can leave. *)
Lemma Server_startSession_state env now sessionId phone force st :
  let st' := (Server.startSession env now sessionId phone force st).2 in
  st' = st
  ∨ (start_succeeds env st = true
     ∧ Server.startSession env now sessionId phone force st
       = (Returned tt, st')
     ∧ sessions st'
       = <[sessionId :=
             fresh_record now phone (next_handle st) (S (next_handle st))]>
           (sessions st))
  ∨ st' = start_failed env (Server_torn_down env sessionId force st).
Proof.
  cbv zeta.
  destruct (alreadyConnected (sessions st !! sessionId) force) eqn:Ha.
  { left. unfold Server.startSession. munfold. cbn beta iota. by rewrite Ha. }
  destruct (start_succeeds env st) eqn:Hok.
  - right. left. rewrite (Server_startSession_spec _ _ _ _ _ _ Ha Hok).
    by split_and!.
  - right. right. by rewrite (Server_startSession_thrown _ _ _ _ _ _ Ha Hok).
Qed.

Lemma ServerOptimized_startSession_state
    env MAX now sessionId phone force st :
  let st' :=
    (ServerOptimized.startSession env MAX now sessionId phone force st).2 in
  st' = st
  ∨ st' = log (ConsoleWarn "Max sessions reached") st
  ∨ st' = started env now sessionId phone (torn_down env sessionId force st)
  ∨ st' = start_failed env (torn_down env sessionId force st).
Proof.
  cbv zeta.
  destruct (alreadyConnected (sessions st !! sessionId) force) eqn:Ha.
  { left. unfold ServerOptimized.startSession. munfold. cbn beta iota.
    by rewrite Ha. }
  destruct (sessions st !! sessionId) as [old|] eqn:Hs.
  - destruct (start_succeeds env st) eqn:Hok.
    + right. right. left.
      by rewrite ServerOptimized_startSession_spec; rewrite ?Hs.
    + right. right. right.
      by rewrite ServerOptimized_startSession_thrown; rewrite ?Hs.
  - destruct (ServerOptimized.at_least_max MAX (Z.of_nat (size (sessions st))))
      eqn:Hm.
    + right. left. by rewrite ServerOptimized_startSession_rejected.
    + destruct (start_succeeds env st) eqn:Hok.
      * right. right. left.
        by rewrite ServerOptimized_startSession_spec; rewrite ?Hs.
      * right. right. right.
        by rewrite ServerOptimized_startSession_thrown; rewrite ?Hs.
Qed.

Lemma startSession_early_return env MAX now sessionId phone force st :
  alreadyConnected (sessions st !! sessionId) force = true →
  Server.startSession env now sessionId phone force st = (Returned tt, st)
  ∧ ServerOptimized.startSession env MAX now sessionId phone force st
    = (Returned tt, st).
Proof.
  intros Ha. unfold Server.startSession, ServerOptimized.startSession.
  munfold. cbn beta iota. by rewrite Ha.
Qed.

(** ** Properties every handler keeps *)

Section Preserves.
Context (I : State → Prop).

Lemma preserves_ret {A} (a : A) : preserves I (mret a).
Proof. by intros st H. Qed.

Lemma preserves_throw {A} : preserves I (@throw A).
Proof. by intros st H. Qed.

Lemma preserves_bind {A B} (m : M A) (f : A → M B) :
  preserves I m → (∀ a, preserves I (f a)) → preserves I (m ≫= f).
Proof.
  intros Hm Hf st H. unfold mbind, M_bind.
  specialize (Hm st H).
  destruct (m st) as [[a|] st']; cbn in *; [by apply Hf|done].
Qed.

Lemma preserves_try_catch {A} (m h : M A) :
  preserves I m → preserves I h → preserves I (try_catch m h).
Proof.
  intros Hm Hh st H. unfold try_catch.
  specialize (Hm st H).
  destruct (m st) as [[a|] st']; cbn in *; [done|by apply Hh].
Qed.

Lemma preserves_when b (m : M unit) : preserves I m → preserves I (when b m).
Proof. intros Hm. destruct b; [done|apply preserves_ret]. Qed.

Lemma preserves_gets {A} (f : State → A) : preserves I (gets f).
Proof. by intros st H. Qed.

End Preserves.

(** A property that the two halves of [killSession] keep is kept by the
    sweep of server-optimized.js and by the completion of its kills. *)
Section Sweep.
Context (env : Env) (I : State → Prop).
Context
  (Hbegin : ∀ id reason s,
              preserves I (ServerOptimized.killSession_begin env id reason s))
  (Hfinish : ∀ id s alive,
               preserves I (ServerOptimized.killSession_finish env id s alive))
  (Hperform : ∀ e, preserves I (perform e)).

Lemma sweep_killSession_start id reason :
  preserves I (ServerOptimized.killSession_start env id reason).
Proof.
  unfold ServerOptimized.killSession_start, getSession.
  apply preserves_bind; [apply preserves_gets|]. intros [s|].
  - apply preserves_bind; [apply Hbegin|]. intros ?. apply preserves_ret.
  - apply preserves_ret.
Qed.

Lemma sweep_expireEntries now entries :
  preserves I (ServerOptimized.expireEntries env now entries).
Proof.
  induction entries as [|[id s] rest IH]; cbn [ServerOptimized.expireEntries].
  - apply preserves_ret.
  - destruct (_ && _); [|done].
    apply preserves_bind; [apply sweep_killSession_start|]. intros ?.
    apply preserves_bind; [done|]. intros ?. apply preserves_ret.
Qed.

Lemma sweep_finishKills started :
  preserves I (ServerOptimized.finishKills env started).
Proof.
  induction started as [|[[id s] alive] rest IH];
    cbn [ServerOptimized.finishKills].
  - apply preserves_ret.
  - apply preserves_bind; [apply Hfinish|done].
Qed.

Lemma sweep_expireSweep now : preserves I (ServerOptimized.expireSweep env now).
Proof.
  unfold ServerOptimized.expireSweep.
  apply preserves_bind; [apply preserves_gets|]. intros ?.
  apply preserves_bind; [apply sweep_expireEntries|]. intros ?.
  apply preserves_bind; [|intros ?; apply preserves_ret].
  apply preserves_when, Hperform.
Qed.

Lemma sweep_expirePending now :
  preserves I (ServerOptimized.expirePending env now).
Proof.
  unfold ServerOptimized.expirePending.
  apply preserves_bind; [apply sweep_expireSweep|]. intros ?.
  apply sweep_finishKills.
Qed.

End Sweep.

(** *** The sockets of the registered records were all handed out *)

Lemma handles_fresh_framed : framed handles_fresh.
Proof.
  intros st st' Hs Hn H id s. rewrite Hs. intros Hl.
  specialize (H id s Hl). lia.
Qed.

Lemma keeps_record_framed id s : framed (keeps_record id s).
Proof. intros st st' Hs _. unfold keeps_record. by rewrite Hs. Qed.

Section Framed.
Context (I : State → Prop) (HI : framed I).

Lemma framed_perform e : preserves I (perform e).
Proof. intros st. by apply HI. Qed.

Lemma framed_set_timers f : preserves I (modify (set_timers f)).
Proof. intros st. by apply HI. Qed.

Lemma framed_set_sessionTimers f : preserves I (modify (set_sessionTimers f)).
Proof. intros st. by apply HI. Qed.

Lemma framed_set_listeners f : preserves I (modify (set_listeners f)).
Proof. intros st. by apply HI. Qed.

Lemma framed_setTimeout cb ms : preserves I (setTimeout cb ms).
Proof. intros st. by apply HI. Qed.

Lemma framed_fresh_handle : preserves I fresh_handle.
Proof. intros st. apply HI; cbn; [done|lia]. Qed.

Lemma framed_start_failed env st : I st → I (start_failed env st).
Proof.
  unfold start_failed.
  destruct (authState_throws env (next_handle st)); apply HI; cbn; (done || lia).
Qed.

End Framed.

(** The registry a forced start leaves before it loads the credentials. *)
Lemma Server_torn_down_sessions env id force st :
  sessions (Server_torn_down env id force st)
  = if force then delete id (sessions st) else sessions st.
Proof.
  unfold Server_torn_down. destruct (sessions st !! id) eqn:Hs.
  - by destruct force.
  - destruct force; [|done]. by rewrite delete_id.
Qed.

Lemma torn_down_sessions env id force st :
  sessions (torn_down env id force st)
  = if force then delete id (sessions st) else sessions st.
Proof.
  unfold torn_down. destruct (sessions st !! id) eqn:Hs.
  - by destruct force.
  - destruct force; [|done]. by rewrite delete_id.
Qed.

Lemma Server_torn_down_next_handle env id force st :
  next_handle (Server_torn_down env id force st) = next_handle st.
Proof.
  unfold Server_torn_down. destruct (sessions st !! id); [|done].
  by destruct force.
Qed.

Lemma torn_down_next_handle env id force st :
  next_handle (torn_down env id force st) = next_handle st.
Proof.
  unfold torn_down. destruct (sessions st !! id); [|done]. by destruct force.
Qed.

Lemma start_failed_sessions env st : sessions (start_failed env st) = sessions st.
Proof. unfold start_failed. by destruct (authState_throws _ _). Qed.

Lemma start_failed_timers env st : timers (start_failed env st) = timers st.
Proof. unfold start_failed. by destruct (authState_throws _ _). Qed.

Lemma start_failed_sessionTimers env st :
  sessionTimers (start_failed env st) = sessionTimers st.
Proof. unfold start_failed. by destruct (authState_throws _ _). Qed.

Lemma start_failed_listeners env st :
  listeners (start_failed env st) = listeners st.
Proof. unfold start_failed. by destruct (authState_throws _ _). Qed.

Lemma Server_torn_down_timers env id force st :
  timers (Server_torn_down env id force st) = timers st.
Proof.
  unfold Server_torn_down. destruct (sessions st !! id); [|done].
  by destruct force.
Qed.

Lemma Server_torn_down_listeners env id force st :
  listeners (Server_torn_down env id force st) = listeners st.
Proof.
  unfold Server_torn_down. destruct (sessions st !! id); [|done].
  by destruct force.
Qed.

Lemma hf_delete id st st' :
  handles_fresh st → sessions st' = delete id (sessions st) →
  (next_handle st ≤ next_handle st')%nat → handles_fresh st'.
Proof.
  intros H Hs Hn j s. rewrite Hs. intros Hl.
  apply lookup_delete_Some in Hl as [_ Hl]. specialize (H j s Hl). lia.
Qed.

Lemma hf_Server_torn_down env id force st :
  handles_fresh st → handles_fresh (Server_torn_down env id force st).
Proof.
  intros H. destruct force.
  - eapply hf_delete; [done|apply (Server_torn_down_sessions env id true)|].
    by rewrite Server_torn_down_next_handle.
  - eapply handles_fresh_framed;
      [apply (Server_torn_down_sessions env id false)| |done].
    by rewrite Server_torn_down_next_handle.
Qed.

Lemma hf_deleteSession id : preserves handles_fresh (deleteSession id).
Proof.
  intros st H j s. cbn. intros Hl.
  apply lookup_delete_Some in Hl as [_ Hl]. exact (H j s Hl).
Qed.

Lemma hf_updateSession id f :
  (∀ s, sock (f s) = sock s) → preserves handles_fresh (updateSession id f).
Proof.
  intros Hf st H j s. cbn. intros Hl.
  destruct (decide (id = j)) as [->|Hne].
  - rewrite lookup_alter_eq in Hl.
    destruct (sessions st !! j) as [s0|] eqn:E; [|done].
    cbn in Hl. injection Hl as <-. rewrite Hf. exact (H j s0 E).
  - rewrite lookup_alter_ne in Hl by done. exact (H j s Hl).
Qed.

Lemma hf_insert_fresh st id s f1 f2 f3 n f6 f7 :
  handles_fresh st → (sock s < n)%nat → (next_handle st ≤ n)%nat →
  handles_fresh (mkState (<[id := s]> (sessions st)) f1 f2 f3 n f6 f7).
Proof.
  intros H Hs Hn j s'. cbn. intros Hl.
  destruct (decide (id = j)) as [->|Hne].
  - rewrite lookup_insert_eq in Hl. by injection Hl as <-.
  - rewrite lookup_insert_ne in Hl by done. specialize (H j s' Hl). lia.
Qed.

Create HintDb preserves.

#[local] Hint Resolve preserves_ret preserves_throw preserves_gets
  handles_fresh_framed keeps_record_framed framed_perform framed_set_timers
  framed_set_sessionTimers framed_set_listeners framed_setTimeout
  framed_fresh_handle hf_deleteSession : preserves.

Ltac preserves_unfold :=
  unfold emitToSession, broadcastSessionStatus, consoleWarn, sock_end,
    sock_logout, deleteKeysWithPattern, sock_requestPairingCode,
    QRCode_toDataURL, useRedisAuthState, makeWASocket, on_connection_update,
    sock_ev_removeAllListeners, sock_removeAllListeners,
    getSession, clearTimeout.

Ltac preserves_step :=
  lazymatch goal with
  | |- preserves _ (mbind _ _) => apply preserves_bind; [|intros ?]
  | |- preserves _ (try_catch _ _) => apply preserves_try_catch
  | |- preserves _ (when _ _) => apply preserves_when
  | |- preserves _ (mret _) => apply preserves_ret
  | |- preserves _ throw => apply preserves_throw
  | |- preserves _ (gets _) => apply preserves_gets
  | |- preserves handles_fresh (updateSession _ _) =>
      apply hf_updateSession; intros ?; reflexivity
  | |- preserves _ (match ?x with _ => _ end) => destruct x
  | |- preserves _ (let _ := _ in _) => cbv zeta
  | |- preserves _ _ => solve [auto with preserves nocore]
  end.

Ltac preserves_tac := preserves_unfold; repeat preserves_step.

Lemma hf_Server_killSession env id reason :
  preserves handles_fresh (Server.killSession env id reason).
Proof. unfold Server.killSession. preserves_tac. Qed.

Lemma hf_Server_startSession env now id phone force :
  preserves handles_fresh (Server.startSession env now id phone force).
Proof.
  intros st H.
  destruct (alreadyConnected (sessions st !! id) force) eqn:Ha.
  - by rewrite (proj1 (startSession_early_return env None now id phone force
                         st Ha)).
  - destruct (start_succeeds env st) eqn:Hok.
    + rewrite (Server_startSession_spec _ _ _ _ _ _ Ha Hok). cbn [snd].
      apply hf_insert_fresh; [done|cbn; lia|lia].
    + rewrite (Server_startSession_thrown _ _ _ _ _ _ Ha Hok). cbn [snd].
      by apply framed_start_failed, hf_Server_torn_down;
        [apply handles_fresh_framed|].
Qed.

#[local] Hint Resolve hf_Server_killSession hf_Server_startSession : preserves.

Lemma hf_Server_onClose env id phone s code :
  preserves handles_fresh (Server.onClose env id phone s code).
Proof. unfold Server.onClose. preserves_tac. Qed.

#[local] Hint Resolve hf_Server_onClose : preserves.

Lemma hf_Server_onConnectionUpdate env now id phone u :
  preserves handles_fresh (Server.onConnectionUpdate env now id phone u).
Proof. unfold Server.onConnectionUpdate. preserves_tac. Qed.

Lemma hf_Server_fire env now cb :
  preserves handles_fresh (Server.fire env now cb).
Proof. unfold Server.fire. preserves_tac. Qed.

Lemma hf_Server_expireEntries env now entries :
  preserves handles_fresh (Server.expireEntries env now entries).
Proof.
  induction entries as [|[id s] rest IH]; cbn [Server.expireEntries];
    preserves_tac.
Qed.

#[local] Hint Resolve hf_Server_onConnectionUpdate hf_Server_fire
  hf_Server_expireEntries : preserves.

Lemma hf_Server_handle env now e :
  preserves handles_fresh (Server.handle env now e).
Proof.
  unfold Server.handle, Server.get_start, Server.post_refresh,
    Server.delete_session, Server.get_logout, Server.timer_fires,
    Server.expirePending.
  preserves_tac.
Qed.

Lemma handles_fresh_initial : handles_fresh initial.
Proof. intros id s H. cbn [initial sessions] in H. by rewrite lookup_empty in H. Qed.


Lemma hf_torn_down env id force st :
  handles_fresh st → handles_fresh (torn_down env id force st).
Proof.
  intros H. unfold torn_down.
  destruct (sessions st !! id) as [old|]; [destruct force|]; try done.
  intros j s. cbn [sessions next_handle]. intros Hl.
  apply lookup_delete_Some in Hl as [_ Hl]. exact (H j s Hl).
Qed.

Lemma hf_started env now id phone st :
  handles_fresh st → handles_fresh (started env now id phone st).
Proof.
  intros H. unfold started. cbv zeta.
  apply hf_insert_fresh; [done|cbn; lia|lia].
Qed.

Lemma hf_ServerOptimized_startSession env MAX now id phone force :
  preserves handles_fresh
    (ServerOptimized.startSession env MAX now id phone force).
Proof.
  intros st H.
  destruct (ServerOptimized_startSession_state env MAX now id phone force st)
    as [->|[->|[->| ->]]].
  - done.
  - by apply (framed_perform _ handles_fresh_framed).
  - by apply hf_started, hf_torn_down.
  - by apply framed_start_failed, hf_torn_down; [apply handles_fresh_framed|].
Qed.

Lemma hf_ServerOptimized_killSession env id reason :
  preserves handles_fresh (ServerOptimized.killSession env id reason).
Proof.
  unfold ServerOptimized.killSession, ServerOptimized.cleanupSessionSocket,
    ServerOptimized.cleanupSessionRedis, ServerOptimized.clearSessionTimers.
  preserves_tac.
Qed.

#[local] Hint Resolve hf_ServerOptimized_startSession
  hf_ServerOptimized_killSession : preserves.

Lemma hf_ServerOptimized_onClose env id phone s code :
  preserves handles_fresh (ServerOptimized.onClose env id phone s code).
Proof.
  unfold ServerOptimized.onClose, ServerOptimized.addSessionTimer.
  preserves_tac.
Qed.

#[local] Hint Resolve hf_ServerOptimized_onClose : preserves.

Lemma hf_ServerOptimized_connectionListener env now id phone u :
  preserves handles_fresh
    (ServerOptimized.connectionListener env now id phone u).
Proof. unfold ServerOptimized.connectionListener. preserves_tac. Qed.

Lemma hf_ServerOptimized_fire env MAX now cb :
  preserves handles_fresh (ServerOptimized.fire env MAX now cb).
Proof. unfold ServerOptimized.fire. preserves_tac. Qed.

Lemma hf_ServerOptimized_expirePending env now :
  preserves handles_fresh (ServerOptimized.expirePending env now).
Proof.
  apply sweep_expirePending; intros;
    unfold ServerOptimized.killSession_begin,
      ServerOptimized.killSession_finish,
      ServerOptimized.cleanupSessionSocket,
      ServerOptimized.cleanupSessionRedis, ServerOptimized.clearSessionTimers;
    preserves_tac.
Qed.

#[local] Hint Resolve hf_ServerOptimized_connectionListener
  hf_ServerOptimized_fire hf_ServerOptimized_expirePending : preserves.

Lemma hf_ServerOptimized_handle env MAX now e :
  preserves handles_fresh (ServerOptimized.handle env MAX now e).
Proof.
  unfold ServerOptimized.handle, ServerOptimized.get_start,
    ServerOptimized.post_refresh, ServerOptimized.delete_session,
    ServerOptimized.get_logout, ServerOptimized.timer_fires,
    ServerOptimized.cleanupSessionRedis,
    ServerOptimized.clearSessionTimers.
  preserves_tac.
Qed.

(** Every state server-optimized.js reaches from boot has the sockets of
    its records handed out. *)
Lemma ServerOptimized_run_handles_fresh env MAX evs :
  handles_fresh (ServerOptimized.run env MAX initial evs).
Proof.
  unfold ServerOptimized.run. induction evs as [|ev evs IH] using rev_ind.
  - apply handles_fresh_initial.
  - rewrite foldl_app. cbn [foldl]. unfold ServerOptimized.step at 1.
    by apply hf_ServerOptimized_handle.
Qed.

Lemma hf_Server2_onClose env id phone s code :
  preserves handles_fresh (Server2.onClose env id phone s code).
Proof. unfold Server2.onClose, Server2.killSession. preserves_tac. Qed.

#[local] Hint Resolve hf_Server2_onClose : preserves.

Lemma hf_Server2_handle env now e :
  preserves handles_fresh (Server2.handle env now e).
Proof.
  unfold Server2.handle, Server2.timer_fires, Server2.fire,
    Server2.onConnectionUpdate, Server2.startSession.
  destruct e; try apply hf_Server_handle; preserves_tac.
Qed.

(** Every state server-2.js reaches from boot has the sockets of its
    records handed out. *)
Lemma Server2_run_handles_fresh env evs :
  handles_fresh (Server2.run env initial evs).
Proof.
  unfold Server2.run. induction evs as [|ev evs IH] using rev_ind.
  - apply handles_fresh_initial.
  - rewrite foldl_app. cbn [foldl]. unfold Server2.step at 1.
    by apply hf_Server2_handle.
Qed.

(** ** Starts that overlap in server-optimized.js *)

Lemma ServerOptimized_startSession_admit_spec env MAX sessionId force st :
  alreadyConnected (sessions st !! sessionId) force = false →
  (sessions st !! sessionId = None →
   ServerOptimized.at_least_max MAX (Z.of_nat (size (sessions st))) = false) →
  ServerOptimized.startSession_admit env MAX sessionId force st
  = (Returned true, torn_down env sessionId force st).
Proof.
  intros Ha Hm.
  unfold ServerOptimized.startSession_admit, torn_down, getSession.
  rewrite bind_gets, Ha. cbn beta iota. rewrite bind_gets.
  destruct (sessions st !! sessionId) as [old|] eqn:Hs.
  - rewrite bool_decide_eq_true_2 by eauto. cbn [negb andb]. cbn beta iota.
    destruct force; [|reflexivity].
    erewrite bind_returned; [reflexivity|]. unfold when, cleared_timers,
      ServerOptimized.clearSessionTimers.
    unfold try_catch, mbind at 1 2, M_bind at 1 2.
    rewrite ServerOptimized_cleanupSessionSocket_spec.
    munfold. cbn beta iota. proj_red.
    destruct (sessionTimers st !! sessionId) as [ts|] eqn:Ht; cbn beta iota;
      state_eq; rewrite ?(delete_id _ _ Ht); reflexivity.
  - rewrite Hm by done. rewrite andb_false_r. cbn beta iota. reflexivity.
Qed.

(** Run without anything in between, the two halves are [startSession]. *)
Lemma ServerOptimized_startSession_phases env MAX now sessionId phone force st :
  ServerOptimized.startSession env MAX now sessionId phone force st
  = (go ← ServerOptimized.startSession_admit env MAX sessionId force;
     if go : bool
     then ServerOptimized.startSession_register env now sessionId phone
     else mret tt) st.
Proof.
  destruct (alreadyConnected (sessions st !! sessionId) force) eqn:Ha.
  { rewrite (proj2 (startSession_early_return env MAX now sessionId phone
                      force st Ha)).
    erewrite bind_returned; cycle 1.
    { unfold ServerOptimized.startSession_admit, getSession.
      by rewrite bind_gets, Ha. }
    reflexivity. }
  destruct (sessions st !! sessionId) as [old|] eqn:Hs.
  - rewrite ServerOptimized_startSession_unfold by (by rewrite ?Hs).
    symmetry. erewrite bind_returned; cycle 1.
    { apply ServerOptimized_startSession_admit_spec; by rewrite ?Hs. }
    reflexivity.
  - destruct (ServerOptimized.at_least_max MAX (Z.of_nat (size (sessions st))))
      eqn:Hm.
    + rewrite ServerOptimized_startSession_rejected by done.
      erewrite bind_returned; cycle 1.
      { unfold ServerOptimized.startSession_admit, getSession.
        rewrite bind_gets, Hs. cbn [alreadyConnected]. cbn beta iota.
        rewrite bind_gets, Hm.
        rewrite bool_decide_eq_false_2 by (by intros [? ?]). reflexivity. }
      reflexivity.
    + rewrite ServerOptimized_startSession_unfold by (by rewrite ?Hs).
      symmetry. erewrite bind_returned; cycle 1.
      { apply ServerOptimized_startSession_admit_spec; by rewrite ?Hs. }
      reflexivity.
Qed.

Lemma ServerOptimized_startSession_register_spec env now sessionId phone st :
  start_succeeds env st = true →
  ServerOptimized.startSession_register env now sessionId phone st
  = (Returned tt, started env now sessionId phone st).
Proof.
  intros Hok. unfold start_succeeds in Hok.
  apply andb_true_iff in Hok as [Hr Hk]. apply negb_true_iff in Hr, Hk.
  unfold ServerOptimized.startSession_register, started, pairing_timer,
    ServerOptimized.addSessionTimer.
  fold (fresh_record now phone). unfold fresh_record.
  munfold. cbn beta iota. start_red Hr Hk.
  (destruct phone as [p|];
   [destruct (truthy (Some p) && negb (creds_registered env sessionId))|]);
    state_eq; cbn [foldr timerId]; reflexivity.
Qed.

(** The limit on the number of sessions does not hold when starts
    overlap.  With one slot left in the registry, two starts of two new
    ids that both reach [await useRedisAuthState] before either registers
    its record both pass the test of line 327, and both records are
    registered: the registry ends one above [MAX_SESSIONS].  Handled one
    after the other, the second start is refused. *)
Theorem ServerOptimized_overlapping_starts_pass_MAX_SESSIONS
    env m now a b pa pb st :
  a ≠ b →
  sessions st !! a = None → inherited_key a = false →
  sessions st !! b = None → inherited_key b = false →
  Z.of_nat (size (sessions st)) + 1 = m →
  starts_succeed env →
  let ra := ServerOptimized.startSession_admit env (Some m) a false st in
  let rb := ServerOptimized.startSession_admit env (Some m) b false ra.2 in
  let st1 := (ServerOptimized.startSession_register env now a pa rb.2).2 in
  let st2 := (ServerOptimized.startSession_register env now b pb st1).2 in
  let sq :=
    ServerOptimized.startSession env (Some m) now b pb false
      (ServerOptimized.startSession env (Some m) now a pa false st).2 in
  ra = (Returned true, st)
  ∧ rb = (Returned true, st)
  ∧ is_Some (sessions st2 !! a)
  ∧ is_Some (sessions st2 !! b)
  ∧ m < Z.of_nat (size (sessions st2))
  ∧ sq = (Returned tt,
          log (ConsoleWarn "Max sessions reached") (started env now a pa st))
  ∧ Z.of_nat (size (sessions sq.2)) = m.
Proof.
  intros Hab Ha _ Hb _ Hm Hok. cbv zeta.
  assert (Hadm : ∀ id, sessions st !! id = None →
            ServerOptimized.startSession_admit env (Some m) id false st
            = (Returned true, st)).
  { intros id Hid. rewrite ServerOptimized_startSession_admit_spec.
    - unfold torn_down. by rewrite Hid.
    - by rewrite Hid.
    - intros _. cbn. apply Z.leb_gt. lia. }
  rewrite (Hadm a Ha). cbn [snd]. rewrite (Hadm b Hb). cbn [snd].
  rewrite !ServerOptimized_startSession_register_spec
    by (by apply starts_succeed_in).
  cbn [snd].
  assert (Hsa : sessions (started env now a pa st)
                = <[a := fresh_record now pa (next_handle st)
                           (S (next_handle st))]> (sessions st)) by done.
  rewrite (ServerOptimized_startSession_spec env (Some m) now a pa false st);
    [|by rewrite Ha|intros _; cbn; apply Z.leb_gt; lia
     |by apply starts_succeed_in].
  cbn [snd]. unfold torn_down. rewrite Ha.
  rewrite ServerOptimized_startSession_rejected.
  2:{ rewrite Hsa. by rewrite lookup_insert_ne. }
  2:{ rewrite Hsa, map_size_insert_None by done. cbn. apply Z.leb_le. lia. }
  cbn [snd log sessions].
  split_and!; try done.
  - unfold started at 1. cbn [sessions]. rewrite lookup_insert_ne by done.
    rewrite Hsa, lookup_insert_eq. by eexists.
  - unfold started at 1. cbn [sessions]. rewrite lookup_insert_eq.
    by eexists.
  - unfold started at 1. cbn [sessions].
    rewrite map_size_insert_None
      by (by rewrite Hsa, lookup_insert_ne).
    rewrite Hsa, map_size_insert_None by done. lia.
  - change (sessions (started env now a pa st))
      with (<[a := fresh_record now pa (next_handle st)
                     (S (next_handle st))]> (sessions st)).
    rewrite map_size_insert_None by done. lia.
Qed.

(** With [MAX_SESSIONS = 1] on a freshly booted server, two overlapping
    starts register two sessions. *)
Lemma overlap_witness_two_sessions_at_limit_one :
  let ra := ServerOptimized.startSession_admit quiet_env (Some 1) "bot1" false
              initial in
  let rb := ServerOptimized.startSession_admit quiet_env (Some 1) "bot2" false
              ra.2 in
  let st1 :=
    (ServerOptimized.startSession_register quiet_env 0 "bot1" None rb.2).2 in
  let st2 :=
    (ServerOptimized.startSession_register quiet_env 0 "bot2" None st1).2 in
  "bot1" ≠ "bot2"
  ∧ inherited_key "bot1" = false ∧ inherited_key "bot2" = false
  ∧ Z.of_nat (size (sessions initial)) + 1 = 1
  ∧ starts_succeed quiet_env
  ∧ sessions st2 !! "bot1" = Some (fresh_record 0 None 0 1)
  ∧ sessions st2 !! "bot2" = Some (fresh_record 0 None 2 3)
  ∧ 1 < Z.of_nat (size (sessions st2)).
Proof.
  cbv zeta.
  assert (Hok : starts_succeed quiet_env) by (intros h; by split).
  assert (Hne : "bot1" ≠ "bot2") by discriminate.
  destruct (ServerOptimized_overlapping_starts_pass_MAX_SESSIONS quiet_env 1 0
              "bot1" "bot2" None None initial Hne eq_refl eq_refl eq_refl
              eq_refl eq_refl Hok) as (_ & _ & _ & _ & Hsize & _).
  split_and!; [exact Hne|reflexivity|reflexivity|reflexivity|exact Hok
              |vm_compute; reflexivity|vm_compute; reflexivity|exact Hsize].
Defined.

(** ** The claims about [startSession] *)

Lemma start_failed_effects env st : effects (start_failed env st) = effects st.
Proof. unfold start_failed. by destruct (authState_throws _ _). Qed.

Lemma SockEnd_in_cleanup_effects env h h' :
  SockEnd h' ∈ cleanup_effects env h
  ↔ h' = h ∧ ev_removeAllListeners_throws env h = false
    ∧ removeAllListeners_throws env h = false.
Proof.
  unfold cleanup_effects.
  destruct (ev_removeAllListeners_throws env h);
    destruct (removeAllListeners_throws env h); cbn [orb];
    try destruct (end_throws env h);
    rewrite !elem_of_cons, elem_of_nil;
    (split; [intros [?|[?|?]]|intros (-> & ? & ?)]); try done;
    match goal with
    | H : _ ∨ _ |- _ => destruct H
    | H : SockEnd _ = SockEnd _ |- _ => by injection H as ->
    | |- _ => by right; left
    end; done.
Qed.




(** C7, as the code has it.  Take an id that does not name a property of
    [Object.prototype].  In server-optimized.js, [startSession] on an id
    that has no record, while the registry holds at least [MAX_SESSIONS]
    records, only logs the max-sessions warning and returns normally, as a
    start that goes through does: no record is created, the registry and
    its size are unchanged, no socket is made, and nothing tells the caller
    that the start was refused.  On an id that has a record the warning is
    never logged, whatever the size of the registry: a connected record
    without [force] makes the call a no-op; otherwise, when
    [useRedisAuthState] and [makeWASocket] succeed, a fresh record is
    registered under the id. *)
Theorem C7_capacity_gates_only_new_ids env MAX now sessionId phone force st :
  inherited_key sessionId = false →
  let r := ServerOptimized.startSession env MAX now sessionId phone force st in
  (sessions st !! sessionId = None →
   ∀ m, MAX = Some m → m ≤ Z.of_nat (size (sessions st)) →
        r = (Returned tt, log (ConsoleWarn "Max sessions reached") st)
        ∧ sessions r.2 = sessions st
        ∧ size (sessions r.2) = size (sessions st)
        ∧ next_handle r.2 = next_handle st
        ∧ new_effects st r.2 = [ConsoleWarn "Max sessions reached"])
  ∧ (∀ ex, sessions st !! sessionId = Some ex →
       (ConsoleWarn "Max sessions reached" ∉ new_effects st r.2)
       ∧ (if alreadyConnected (Some ex) force then (r = (Returned tt, st))
          else (start_succeeds env st = true →
                r.1 = Returned tt
                ∧ sessions r.2 !! sessionId
                  = Some (fresh_record now phone (next_handle st)
                            (S (next_handle st)))))).
Proof.
  intros _. cbv zeta. split.
  - intros Hs m -> Hm.
    rewrite ServerOptimized_startSession_rejected; [|done|].
    + split_and!; try done. by apply new_effects_app.
    + unfold ServerOptimized.at_least_max. by apply Z.leb_le.
  - intros ex Hs.
    assert (Hc : ∀ h, ConsoleWarn "Max sessions reached"
                      ∉ cleanup_effects env h).
    { intros h. unfold cleanup_effects.
      destruct (_ || _); [|destruct (end_throws env h)]; not_in_list. }
    assert (Htd : ∃ es,
               effects (torn_down env sessionId force st) = effects st ++ es
               ∧ ConsoleWarn "Max sessions reached" ∉ es).
    { unfold torn_down. rewrite Hs. destruct force.
      - eexists. split; [reflexivity|apply Hc].
      - exists []. split; [by rewrite app_nil_r|apply not_elem_of_nil]. }
    destruct Htd as (es & Htd & Hes).
    destruct (alreadyConnected (Some ex) force) eqn:Ha.
    + rewrite <- Hs in Ha.
      rewrite (proj2 (startSession_early_return env MAX now sessionId phone
                        force st Ha)).
      split; [|done]. rewrite new_effects_same by done. apply not_elem_of_nil.
    + rewrite <- Hs in Ha. split.
      * destruct (start_succeeds env st) eqn:Hok.
        -- rewrite ServerOptimized_startSession_spec; [|done|by rewrite Hs|done].
           erewrite new_effects_app
             by (unfold started; cbn [snd effects]; rewrite Htd, <- app_assoc;
                 reflexivity).
           rewrite elem_of_app. intros [?|He]; [done|].
           by apply list_elem_of_singleton in He.
        -- rewrite ServerOptimized_startSession_thrown;
             [|done|by rewrite Hs|done].
           erewrite new_effects_app
             by (cbn [snd]; rewrite start_failed_effects, Htd; reflexivity).
           done.
      * intros Hok.
        rewrite ServerOptimized_startSession_spec; [|done|by rewrite Hs|done].
        split; [done|].
        unfold started. cbv zeta. cbn [snd sessions].
        rewrite torn_down_next_handle. apply lookup_insert_eq.
Qed.

Lemma C7_witness_third_start_at_capacity_two :
  let st :=
    ServerOptimized.run quiet_env (Some 2) initial
      [(0, GetStart "bot1" None); (1, GetStart "bot2" None)] in
  let r :=
    ServerOptimized.startSession quiet_env (Some 2) 2 "bot3" None false st in
  let r' :=
    ServerOptimized.startSession quiet_env (Some 2) 2 "bot1" None true st in
  sessions st !! "bot3" = None
  ∧ inherited_key "bot3" = false
  ∧ inherited_key "bot1" = false
  ∧ size (sessions st) = 2%nat
  ∧ r = (Returned tt, log (ConsoleWarn "Max sessions reached") st)
  ∧ size (sessions r.2) = 2%nat
  ∧ sessions r'.2 !! "bot1" = Some (fresh_record 2 None 4 5).
Proof.
  cbv zeta.
  set (st := ServerOptimized.run quiet_env (Some 2) initial
               [(0, GetStart "bot1" None); (1, GetStart "bot2" None)]).
  destruct (C7_capacity_gates_only_new_ids quiet_env (Some 2) 2 "bot3" None
              false st eq_refl) as [H3 _].
  destruct (C7_capacity_gates_only_new_ids quiet_env (Some 2) 2 "bot1" None
              true st eq_refl) as [_ H1].
  assert (Hn : sessions st !! "bot3" = None) by (vm_compute; reflexivity).
  assert (Hk : inherited_key "bot3" = false) by (vm_compute; reflexivity).
  assert (Hz : size (sessions st) = 2%nat) by (vm_compute; reflexivity).
  destruct (H3 Hn 2 eq_refl) as (Hr & _ & Hsz & _); [rewrite Hz; lia|].
  assert (Hb : sessions st !! "bot1" = Some (fresh_record 0 None 0 1))
    by (vm_compute; reflexivity).
  destruct (H1 _ Hb) as [_ Hf]. cbn [alreadyConnected negb andb] in Hf.
  destruct Hf as [_ Hf]; [by vm_compute|].
  split_and!; [exact Hn|exact Hk|reflexivity|exact Hz|exact Hr| |].
  - rewrite Hsz. exact Hz.
  - rewrite Hf. by vm_compute.
Defined.

(** C7 as stated fails: a start refused at capacity is not rejected with an
    error.  With two sessions registered and [MAX_SESSIONS = 2], the start
    of a third id returns exactly as it does when it is admitted
    ([MAX_SESSIONS = 3]), and so does [GET /start/:id]; only the registry
    shows the difference. *)
Lemma C7_counterexample_refusal_is_silent :
  let st :=
    ServerOptimized.run quiet_env (Some 2) initial
      [(0, GetStart "bot1" None); (1, GetStart "bot2" None)] in
  let refused :=
    ServerOptimized.startSession quiet_env (Some 2) 2 "bot3" None false st in
  let admitted :=
    ServerOptimized.startSession quiet_env (Some 3) 2 "bot3" None false st in
  size (sessions st) = 2%nat
  ∧ sessions st !! "bot3" = None
  ∧ refused.1 = Returned tt
  ∧ admitted.1 = Returned tt
  ∧ (ServerOptimized.get_start quiet_env (Some 2) 2 "bot3" None st).1
    = Returned tt
  ∧ sessions refused.2 !! "bot3" = None
  ∧ is_Some (sessions admitted.2 !! "bot3").
Proof. vm_compute. split_and!; by eauto. Qed.


(** ** The expiry sweep *)

(** One pass of the loop of server.js only ends sockets; it never brings a
    record back, and when it runs to its end every expired entry is gone. *)
Lemma Server_expireEntries_spec env now entries st :
  ∃ es,
    effects (Server.expireEntries env now entries st).2 = effects st ++ es
    ∧ Forall ends_socket es
    ∧ (∀ id, sessions st !! id = None →
             sessions (Server.expireEntries env now entries st).2 !! id = None)
    ∧ (∀ id s, (id, s) ∈ entries → expired now s = true →
               completed (Server.expireEntries env now entries st) = true →
               sessions (Server.expireEntries env now entries st).2 !! id
               = None).
Proof.
  revert st. induction entries as [|[id0 s0] rest IH]; intros st.
  { exists []. cbn. rewrite app_nil_r. split_and!; try done.
    intros id s Hin. by apply elem_of_nil in Hin. }
  cbn [Server.expireEntries].
  change (String.prefix "pending" (status s0)
          && (now - createdAt s0 >? PENDING_EXPIRE_MS))
    with (expired now s0).
  destruct (expired now s0) eqn:He.
  - munfold. cbn beta iota. destruct (end_throws env (sock s0)).
    + exists [SockEnd (sock s0)]. cbn. split_and!; try done.
      repeat constructor. by exists (sock s0).
    + cbn beta iota.
      destruct (IH (set_sessions (delete id0) (log (SockEnd (sock s0)) st)))
        as (es & Hes & Hall & Hnone & Hexp).
      destruct (Server.expireEntries env now rest
                  (set_sessions (delete id0) (log (SockEnd (sock s0)) st)))
        as [[b|] st'] eqn:Hr; cbn beta iota; cbn [snd fst] in *.
      all: exists (SockEnd (sock s0) :: es).
      all: split_and!.
      all: try (rewrite Hes; proj_red; by rewrite <- app_assoc).
      all: try (constructor; [by exists (sock s0)|done]).
      all: try (intros id Hn; apply Hnone; proj_red;
                destruct (decide (id = id0)) as [->|];
                [apply lookup_delete_eq|by rewrite lookup_delete_ne]).
      all: try (intros id s Hin Hx Hc; try done).
      apply elem_of_cons in Hin as [Heq|Hin].
      * injection Heq as -> ->. apply Hnone. proj_red. apply lookup_delete_eq.
      * by apply (Hexp id s).
  - destruct (IH st) as (es & Hes & Hall & Hnone & Hexp).
    exists es. split_and!; try done.
    intros id s Hin Hx Hc. apply elem_of_cons in Hin as [Heq|Hin].
    + injection Heq as -> ->. by rewrite He in Hx.
    + by apply (Hexp id s).
Qed.

Lemma sweep_effects_quiet id es :
  Forall sweep_effect es →
  purges id es = 0%nat
  ∧ ∀ reason, EmitToSession id "session:killed" reason ∉ es.
Proof.
  induction 1 as [|e es He _ [IH1 IH2]]; [split; [done|]|].
  { intros reason Hin. by apply elem_of_nil in Hin. }
  split.
  - rewrite purges_cons_other; [done|]. by destruct He as [[h ->]| ->].
  - intros reason Hin. apply elem_of_cons in Hin as [Heq|Hin].
    + by destruct He as [[h ->]| ->].
    + by apply (IH2 reason).
Qed.

(** C3 fails in server.js (and in server-2.js, whose interval callback is
    the same text).  A pending record older than two minutes is removed by
    the sweep, but not by the path of an explicit kill: all the sweep does
    to the outside is end sockets and broadcast, so no [session:killed]
    notification is emitted for the record and its credential material is
    not purged. *)
Theorem C3_server_js_sweep_skips_the_kill_path env now st id s :
  sessions st !! id = Some s →
  expired now s = true →
  let r := Server.expirePending env now st in
  (completed r = true → sessions r.2 !! id = None)
  ∧ Forall sweep_effect (new_effects st r.2)
  ∧ purges id (new_effects st r.2) = 0%nat
  ∧ (∀ reason, EmitToSession id "session:killed" reason
               ∉ new_effects st r.2).
Proof.
  intros Hs He. cbv zeta.
  assert (Hin : (id, s) ∈ map_to_list (sessions st))
    by by apply elem_of_map_to_list.
  destruct (Server_expireEntries_spec env now (map_to_list (sessions st)) st)
    as (es & Hes & Hall & _ & Hexp).
  specialize (Hexp id s Hin He).
  assert (Hends : Forall sweep_effect es).
  { eapply Forall_impl; [exact Hall|]. intros e H. by left. }
  unfold Server.expirePending. munfold. cbn beta iota.
  destruct (Server.expireEntries env now (map_to_list (sessions st)) st)
    as [[[]|] st'] eqn:Hr; cbn beta iota; cbn [snd fst] in *.
  - assert (Hn : new_effects st (log BroadcastSessionStatus st')
                 = es ++ [BroadcastSessionStatus]).
    { apply new_effects_app. proj_red. rewrite Hes. by rewrite <- app_assoc. }
    rewrite Hn.
    assert (Hall' : Forall sweep_effect (es ++ [BroadcastSessionStatus])).
    { apply Forall_app. split; [done|]. apply Forall_singleton. by right. }
    split_and!; [intros _; proj_red; by apply Hexp|done|..];
      by apply sweep_effects_quiet.
  - rewrite (new_effects_app _ _ _ Hes).
    split_and!; [intros _; by apply Hexp|done|..];
      by apply sweep_effects_quiet.
  - rewrite (new_effects_app _ _ _ Hes).
    split_and!; [done|done|..]; by apply sweep_effects_quiet.
Qed.

(** A [pending_qr] record created at 0 and swept at 120001.  On the same
    state the sweep of server-optimized.js goes through [killSession] with
    reason [pending_expired] (the purge comes after the broadcast of the
    sweep, which does not wait for the kill). *)
Lemma C3_witness_expired_qr_record :
  let st := Server.run quiet_env initial [(0, GetStart "bot1" None)] in
  let r := Server.expirePending quiet_env 120001 st in
  let ro := ServerOptimized.expirePending quiet_env 120001 st in
  sessions st !! "bot1" = Some (fresh_record 0 None 0 1)
  ∧ expired 120001 (fresh_record 0 None 0 1) = true
  ∧ r.1 = Returned tt
  ∧ sessions r.2 !! "bot1" = None
  ∧ new_effects st r.2 = [SockEnd 1; BroadcastSessionStatus]
  ∧ purges "bot1" (new_effects st r.2) = 0%nat
  ∧ new_effects st ro.2
    = [EmitToSession "bot1" "session:killed" "pending_expired";
       SockRemoveAllListeners 1; SockEnd 1; BroadcastSessionStatus;
       DeleteKeysWithPattern 0 "bot1:*"; BroadcastSessionStatus].
Proof.
  cbv zeta.
  assert (H : sessions (Server.run quiet_env initial
                          [(0, GetStart "bot1" None)]) !! "bot1"
              = Some (fresh_record 0 None 0 1)) by (vm_compute; reflexivity).
  destruct (C3_server_js_sweep_skips_the_kill_path quiet_env 120001 _ "bot1"
              _ H eq_refl) as (Hgone & _ & Hp & _).
  split_and!; [exact H|reflexivity|vm_compute; reflexivity
              |apply Hgone; vm_compute; reflexivity
              |vm_compute; reflexivity|exact Hp|vm_compute; reflexivity].
Defined.

(** *** What the sweep leaves alone *)

Lemma keeps_deleteSession id s id0 :
  id0 ≠ id → preserves (keeps_record id s) (deleteSession id0).
Proof.
  intros Hne st H. unfold keeps_record in *. cbn.
  by rewrite lookup_delete_ne.
Qed.

#[local] Hint Resolve keeps_deleteSession : preserves.

Lemma keeps_ServerOptimized_killSession env id s id0 reason :
  id0 ≠ id →
  preserves (keeps_record id s) (ServerOptimized.killSession env id0 reason).
Proof.
  intros Hne.
  unfold ServerOptimized.killSession, ServerOptimized.cleanupSessionSocket,
    ServerOptimized.cleanupSessionRedis, ServerOptimized.clearSessionTimers.
  preserves_tac.
Qed.

#[local] Hint Resolve keeps_ServerOptimized_killSession : preserves.

Lemma expired_not_connected now s : status s = "connected" → expired now s = false.
Proof. intros H. unfold expired. by rewrite H. Qed.

Lemma Server_expireEntries_keeps env now entries id s :
  (∀ s', (id, s') ∈ entries → expired now s' = false) →
  preserves (keeps_record id s) (Server.expireEntries env now entries).
Proof.
  induction entries as [|[id0 s0] rest IH]; intros Hne;
    cbn [Server.expireEntries]; [preserves_tac|].
  assert (Hrest : preserves (keeps_record id s)
                    (Server.expireEntries env now rest)).
  { apply IH. intros s' Hin. apply Hne. by right. }
  change (String.prefix "pending" (status s0)
          && (now - createdAt s0 >? PENDING_EXPIRE_MS))
    with (expired now s0).
  destruct (expired now s0) eqn:He; [|done].
  assert (id0 ≠ id).
  { intros ->. rewrite (Hne s0) in He; [done|by left]. }
  preserves_tac.
Qed.

(** The two halves of [killSession] of server-optimized.js. *)
Lemma ServerOptimized_killSession_begin_spec env id reason s st :
  ServerOptimized.killSession_begin env id reason s st
  = (Returned true,
     mkState (sessions st) (sessionTimers st)
       (cleanup_listeners env (sock s) (listeners st)) (timers st)
       (next_handle st) (next_timer st)
       (effects st
        ++ EmitToSession id "session:killed" reason
           :: cleanup_effects env (sock s))).
Proof.
  unfold ServerOptimized.killSession_begin, emitToSession, perform, modify.
  unfold try_catch, mbind at 1, M_bind at 1. cbn beta iota.
  unfold mbind, M_bind.
  rewrite ServerOptimized_cleanupSessionSocket_spec.
  unfold mret, M_ret. state_eq; reflexivity.
Qed.

Lemma ServerOptimized_killSession_finish_spec env id s st :
  ServerOptimized.killSession_finish env id s true st
  = (Returned true,
     mkState (delete id (sessions st)) (delete id (sessionTimers st))
       (listeners st) (cleared_timers st id) (next_handle st) (next_timer st)
       (effects st ++ purge_effects env id s)).
Proof.
  unfold ServerOptimized.killSession_finish,
    ServerOptimized.cleanupSessionRedis, ServerOptimized.clearSessionTimers,
    purge_effects, cleared_timers.
  munfold. cbn beta iota.
  destruct (deleteKeys_throws env (id +:+ ":*")); cbn beta iota; proj_red;
    destruct (sessionTimers st !! id) as [ts|] eqn:Ht; cbn beta iota;
    state_eq; rewrite ?(delete_id _ _ Ht); reflexivity.
Qed.

Lemma ServerOptimized_expireEntries_spec env now entries :
  ∀ st,
    (∀ id s, (id, s) ∈ entries → sessions st !! id = Some s) →
    ∃ l,
      ServerOptimized.expireEntries env now entries st
      = (Returned (bool_decide (expired_entries now entries ≠ []),
                   sweep_started now entries),
         mkState (sessions st) (sessionTimers st) l (timers st)
           (next_handle st) (next_timer st)
           (effects st ++ sweep_effects env now entries)).
Proof.
  induction entries as [|[id0 s0] rest IH]; intros st Hin.
  { exists (listeners st). cbn. rewrite app_nil_r. by destruct st. }
  cbn [ServerOptimized.expireEntries].
  change (String.prefix "pending" (status s0)
          && (now - createdAt s0 >? PENDING_EXPIRE_MS))
    with (expired now s0).
  unfold sweep_started, sweep_effects, expired_entries in *.
  destruct (expired now s0) eqn:He.
  - rewrite filter_cons_True by done. cbn [fmap list_fmap fst snd].
    assert (Hs0 : sessions st !! id0 = Some s0) by (apply Hin; by left).
    unfold ServerOptimized.killSession_start, getSession.
    unfold mbind at 1, M_bind at 1. rewrite bind_gets, Hs0.
    unfold mbind at 1, M_bind at 1.
    rewrite ServerOptimized_killSession_begin_spec. unfold mret at 1, M_ret at 1.
    unfold mbind, M_bind.
    match goal with
    | |- context [ServerOptimized.expireEntries _ _ _ ?X] => set (st1 := X)
    end.
    destruct (IH st1) as (l & ->).
    { intros id s Hm. subst st1. cbn [sessions]. apply Hin. by right. }
    exists l. unfold mret, M_ret. cbn [fst snd option_list app mbind list_bind].
    rewrite bool_decide_eq_true_2 by done.
    state_eq; subst st1; proj_red; rewrite <- ?app_assoc; reflexivity.
  - rewrite filter_cons_False by (cbn [snd]; by rewrite He).
    apply IH. intros id s Hm. apply Hin. by right.
Qed.

(** When the sweep returns, the registry, the timers and the timer table
    are as they were: the kills it started have only notified and cleaned
    up their sockets. *)
Lemma ServerOptimized_expireSweep_spec env now st :
  ∃ l,
    ServerOptimized.expireSweep env now st
    = (Returned (sweep_started now (map_to_list (sessions st))),
       mkState (sessions st) (sessionTimers st) l (timers st)
         (next_handle st) (next_timer st)
         (effects st
          ++ sweep_effects env now (map_to_list (sessions st))
          ++ (if bool_decide
                   (expired_entries now (map_to_list (sessions st)) ≠ [])
              then [BroadcastSessionStatus] else []))).
Proof.
  unfold ServerOptimized.expireSweep. rewrite bind_gets.
  destruct (ServerOptimized_expireEntries_spec env now
              (map_to_list (sessions st)) st) as (l & Hrun).
  { intros id' s' Hm. by apply elem_of_map_to_list in Hm. }
  exists l. unfold mbind at 1, M_bind at 1. rewrite Hrun. cbn [fst snd].
  unfold broadcastSessionStatus, perform, modify, when.
  destruct (bool_decide _); unfold mbind, M_bind, mret, M_ret;
    state_eq; rewrite ?app_nil_r; reflexivity.
Qed.

Lemma ServerOptimized_finishKills_keeps env started id s :
  (∀ k, k ∈ started → k.1.1 ≠ id) →
  preserves (keeps_record id s) (ServerOptimized.finishKills env started).
Proof.
  induction started as [|[[id0 s0] alive] rest IH]; intros Hne;
    cbn [ServerOptimized.finishKills]; [apply preserves_ret|].
  assert (id0 ≠ id) by (apply (Hne (id0, s0, alive)); by left).
  apply preserves_bind; [|intros ?; apply IH; intros k Hk; apply Hne; by right].
  unfold ServerOptimized.killSession_finish,
    ServerOptimized.cleanupSessionRedis, ServerOptimized.clearSessionTimers.
  preserves_tac.
Qed.

Lemma ServerOptimized_expirePending_keeps env now st id s :
  sessions st !! id = Some s → expired now s = false →
  sessions (ServerOptimized.expirePending env now st).2 !! id = Some s.
Proof.
  intros Hs He.
  unfold ServerOptimized.expirePending.
  destruct (ServerOptimized_expireSweep_spec env now st) as (l & Hrun).
  unfold mbind, M_bind. rewrite Hrun.
  apply (ServerOptimized_finishKills_keeps env _ id s); [|done].
  intros k Hk. unfold sweep_started, expired_entries in Hk.
  apply list_elem_of_fmap in Hk as ([id' s'] & -> & Hk).
  apply list_elem_of_filter in Hk as [Hex Hk]. cbn [fst snd] in *.
  intros ->. apply elem_of_map_to_list in Hk. rewrite Hs in Hk.
  injection Hk as <-. by rewrite He in Hex.
Qed.

(** In all three files the sweep keeps every record that is not both
    pending and older than two minutes; in particular a connected record of
    any age (the interval callback of server-2.js is that of server.js). *)
Lemma sweep_keeps_unexpired env now st id s :
  sessions st !! id = Some s →
  expired now s = false →
  sessions (Server.expirePending env now st).2 !! id = Some s
  ∧ sessions (Server2.handle env now SweepTick st).2 !! id = Some s
  ∧ sessions (ServerOptimized.expirePending env now st).2 !! id = Some s.
Proof.
  intros Hs He.
  assert (Hl : ∀ s', (id, s') ∈ map_to_list (sessions st)
                     → expired now s' = false).
  { intros s' Hin. apply elem_of_map_to_list in Hin.
    rewrite Hs in Hin. by injection Hin as <-. }
  pose proof (Server_expireEntries_keeps env now _ id s Hl st Hs) as H1.
  pose proof (ServerOptimized_expirePending_keeps env now st id s Hs He) as H2.
  cbn [Server2.handle Server.handle].
  unfold Server.expirePending.
  munfold. cbn beta iota.
  destruct (Server.expireEntries env now (map_to_list (sessions st)) st)
    as [[[]|] st1];
    cbn beta iota; cbn [snd sessions log] in *; done.
Qed.

Lemma sweep_never_destroys_connected env now st id s :
  sessions st !! id = Some s →
  status s = "connected" →
  sessions (Server.expirePending env now st).2 !! id = Some s
  ∧ sessions (Server2.handle env now SweepTick st).2 !! id = Some s
  ∧ sessions (ServerOptimized.expirePending env now st).2 !! id = Some s.
Proof.
  intros Hs Hc. apply sweep_keeps_unexpired; [done|].
  by apply expired_not_connected.
Qed.

(** *** Helpers on timers and on sequencing *)

Lemma cleared_timers_sub st id t : t ∈ cleared_timers st id → t ∈ timers st.
Proof.
  unfold cleared_timers. destruct (sessionTimers st !! id); [|done].
  intros H. by apply list_elem_of_filter in H as [_ H].
Qed.

Lemma torn_down_timers_sub env id force st t :
  t ∈ timers (torn_down env id force st) → t ∈ timers st.
Proof.
  unfold torn_down. destruct (sessions st !! id); [|done].
  destruct force; [|done]. apply cleared_timers_sub.
Qed.

Lemma bind_state {A B} (I : State → Prop) (m : M A) (f : A → M B) st :
  I (m st).2 → (∀ a, preserves I (f a)) → I ((m ≫= f) st).2.
Proof.
  intros Hm Hf. unfold mbind, M_bind.
  destruct (m st) as [[a|] st']; cbn in *; [by apply Hf|done].
Qed.

(** *** What the sweep of server-optimized.js destroys *)

Lemma ServerOptimized_killSession_present env sessionId reason st s :
  sessions st !! sessionId = Some s →
  ServerOptimized.killSession env sessionId reason st =
    (Returned true,
     mkState (delete sessionId (sessions st))
       (delete sessionId (sessionTimers st))
       (cleanup_listeners env (sock s) (listeners st))
       (cleared_timers st sessionId)
       (next_handle st) (next_timer st)
       (effects st ++ opt_kill_effects env sessionId reason s)).
Proof.
  intros H.
  unfold ServerOptimized.killSession,
    ServerOptimized.cleanupSessionRedis, ServerOptimized.clearSessionTimers,
    opt_kill_effects, cleared_timers.
  munfold. cbn beta iota. rewrite H. cbn beta iota.
  rewrite ServerOptimized_cleanupSessionSocket_spec. cbn beta iota.
  destruct (deleteKeys_throws env (sessionId +:+ ":*")); cbn beta iota;
    proj_red;
    destruct (sessionTimers st !! sessionId) as [ts|] eqn:Ht; cbn beta iota;
    state_eq; rewrite ?(delete_id _ _ Ht); reflexivity.
Qed.

Lemma sweep_started_ids now entries :
  (sweep_started now entries).*1.*1 = (expired_entries now entries).*1.
Proof.
  unfold sweep_started. induction (expired_entries now entries) as [|e l IH];
    [done|]. cbn [fmap list_fmap fst]. by rewrite <- IH.
Qed.

(** The kills a sweep started, run to their end: each removes its record
    and its timer table entry, cancels the timers that entry listed and
    purges the credentials of its id. *)
Lemma ServerOptimized_finishKills_spec env started :
  ∀ st,
    NoDup started.*1.*1 → Forall (λ k, k.2 = true) started →
    ∃ st' es,
      ServerOptimized.finishKills env started st = (Returned tt, st')
      ∧ effects st' = effects st ++ es
      ∧ (∀ h, SockEnd h ∉ es)
      ∧ (∀ id, id ∉ started.*1.*1 →
           sessions st' !! id = sessions st !! id
           ∧ sessionTimers st' !! id = sessionTimers st !! id)
      ∧ (∀ t, t ∈ timers st' → t ∈ timers st)
      ∧ (∀ id s a, (id, s, a) ∈ started →
           sessions st' !! id = None
           ∧ sessionTimers st' !! id = None
           ∧ (∀ ts t, sessionTimers st !! id = Some ts → t ∈ timers st' →
                      timerId t ∉ ts)
           ∧ (∀ e, e ∈ purge_effects env id s → e ∈ es)).
Proof.
  induction started as [|[[id0 s0] a0] rest IH]; intros st Hnd Hall.
  { exists st, []. cbn [ServerOptimized.finishKills].
    split_and!; try done.
    - by rewrite app_nil_r.
    - intros h Hh. by apply elem_of_nil in Hh.
    - intros id s a H. by apply elem_of_nil in H. }
  cbn [fmap list_fmap fst] in Hnd. apply NoDup_cons in Hnd as [Hid0 Hnd].
  apply Forall_cons in Hall as [Ha0 Hall]. cbn [snd] in Ha0. subst a0.
  cbn [ServerOptimized.finishKills]. unfold mbind, M_bind.
  rewrite ServerOptimized_killSession_finish_spec.
  match goal with
  | |- context [ServerOptimized.finishKills _ _ ?X] => set (st1 := X)
  end.
  destruct (IH st1 Hnd Hall) as (st' & es & Hrun & Heff & Hno & Hframe & Hmono & Hk).
  rewrite Hrun.
  exists st', (purge_effects env id0 s0 ++ es).
  split_and!.
  - done.
  - rewrite Heff. subst st1. cbn [effects]. by rewrite <- app_assoc.
  - intros h Hh. apply elem_of_app in Hh as [Hh|Hh]; [|by apply (Hno h)].
    unfold purge_effects in Hh.
    destruct (deleteKeys_throws env (id0 +:+ ":*"));
      repeat (apply elem_of_cons in Hh as [Hh|Hh]; [done|]);
      by apply elem_of_nil in Hh.
  - intros id Hni. cbn [fmap list_fmap fst] in Hni.
    apply not_elem_of_cons in Hni as [Hne Hni].
    destruct (Hframe id Hni) as [-> ->]. subst st1.
    cbn [sessions sessionTimers]. by rewrite !lookup_delete_ne.
  - intros t Ht. apply Hmono in Ht. subst st1. cbn [timers] in Ht.
    by apply cleared_timers_sub in Ht.
  - intros id s a Hm. apply elem_of_cons in Hm as [Heq|Hm].
    + injection Heq as -> -> ->.
      destruct (Hframe id0 Hid0) as [-> ->]. subst st1.
      cbn [sessions sessionTimers]. rewrite !lookup_delete_eq.
      split_and!; try done.
      * intros ts t Hts Ht. apply Hmono in Ht. cbn [timers] in Ht.
        unfold cleared_timers in Ht. rewrite Hts in Ht.
        by apply list_elem_of_filter in Ht as [Ht _].
      * intros e Hine. apply elem_of_app. by left.
    + destruct (Hk id s a Hm) as (Ha & Hb & Hc & Hd).
      assert (id ≠ id0).
      { intros ->. apply Hid0. apply list_elem_of_fmap. exists (id0, s).
        split; [done|]. apply list_elem_of_fmap. by exists (id0, s, a). }
      split_and!; try done.
      * intros ts t Hts Ht. apply (Hc ts t); [|done]. subst st1.
        cbn [sessionTimers]. by rewrite lookup_delete_ne.
      * intros e Hine. apply elem_of_app. right. by apply Hd.
Qed.

Lemma purges_sweep_effects env now entries id :
  purges id (sweep_effects env now entries) = 0%nat.
Proof.
  unfold sweep_effects.
  induction (expired_entries now entries) as [|e l IH]; [done|].
  cbn [mbind list_bind]. rewrite purges_app, IH.
  rewrite purges_cons_other by done. unfold cleanup_effects.
  rewrite purges_cons_other by done.
  destruct (_ || _); [done|]. rewrite purges_cons_other by done.
  by destruct (end_throws env (sock e.2)).
Qed.

(** In server-optimized.js the sweep starts [killSession] with reason
    [pending_expired] for every pending record older than two minutes and
    does not wait for it.  When the sweep returns, the notification has
    been sent and the broadcast made, but the record is still registered,
    its timers are still pending and nothing has been purged.  Once the
    kills have run to their end, nothing else being handled in between,
    the record and its timer table entry are gone, none of the timers that
    entry listed is still pending, and the credentials of the id have been
    purged; [sock.end] has been called exactly when neither
    [removeAllListeners] call threw. *)
Theorem ServerOptimized_sweep_kills_expired env now st id s :
  sessions st !! id = Some s →
  expired now s = true →
  inherited_key id = false →
  let sw := ServerOptimized.expireSweep env now st in
  let r := ServerOptimized.expirePending env now st in
  (∃ started, sw.1 = Returned started ∧ (id, s, true) ∈ started)
  ∧ sessions sw.2 = sessions st
  ∧ timers sw.2 = timers st
  ∧ EmitToSession id "session:killed" "pending_expired" ∈ new_effects st sw.2
  ∧ last (new_effects st sw.2) = Some BroadcastSessionStatus
  ∧ purges id (new_effects st sw.2) = 0%nat
  ∧ r.1 = Returned tt
  ∧ sessions r.2 !! id = None
  ∧ sessionTimers r.2 !! id = None
  ∧ (∀ ts t, sessionTimers st !! id = Some ts → t ∈ timers r.2 →
             timerId t ∉ ts)
  ∧ (∀ e, e ∈ opt_kill_effects env id "pending_expired" s →
          e ∈ new_effects st r.2)
  ∧ (SockEnd (sock s) ∈ new_effects st r.2
     ↔ ev_removeAllListeners_throws env (sock s) = false
       ∧ removeAllListeners_throws env (sock s) = false).
Proof.
  intros Hs He _. cbv zeta. unfold ServerOptimized.expirePending.
  destruct (ServerOptimized_expireSweep_spec env now st) as (l & Hrun).
  unfold mbind, M_bind. rewrite Hrun. cbn [fst snd].
  set (entries := map_to_list (sessions st)) in *.
  assert (Hex : (id, s) ∈ expired_entries now entries).
  { apply list_elem_of_filter. split; [done|]. by apply elem_of_map_to_list. }
  assert (Hne : expired_entries now entries ≠ []).
  { intros E. rewrite E in Hex. by apply elem_of_nil in Hex. }
  rewrite bool_decide_eq_true_2 in * by done.
  set (st1 := mkState _ _ _ _ _ _ _).
  destruct (ServerOptimized_finishKills_spec env (sweep_started now entries) st1)
    as (st' & es & Hfin & Heff & Hno & _ & Hmono & Hk).
  { rewrite sweep_started_ids. apply NoDup_fmap_filter.
    apply NoDup_fst_map_to_list. }
  { unfold sweep_started. apply Forall_fmap, Forall_forall. by intros. }
  rewrite Hfin. cbn [fst snd].
  assert (Hst : (id, s, true) ∈ sweep_started now entries).
  { unfold sweep_started. apply list_elem_of_fmap. by exists (id, s). }
  destruct (Hk id s true Hst) as (Ha & Hb & Hc & Hd).
  assert (Hin : ∀ e, e ∈ EmitToSession id "session:killed" "pending_expired"
                            :: cleanup_effects env (sock s)
                     → e ∈ sweep_effects env now entries).
  { intros e Hm. unfold sweep_effects. apply list_elem_of_bind.
    by exists (id, s). }
  rewrite (new_effects_app st st1
             (sweep_effects env now entries ++ [BroadcastSessionStatus]))
    by done.
  rewrite (new_effects_app st st'
             ((sweep_effects env now entries ++ [BroadcastSessionStatus])
              ++ es))
    by (rewrite Heff; subst st1; cbn [effects]; by rewrite <- !app_assoc).
  split_and!; try done.
  - by eexists.
  - apply elem_of_app. left. apply Hin. by left.
  - apply last_snoc.
  - by rewrite purges_app, purges_sweep_effects.
  - intros e Hm. unfold opt_kill_effects in Hm.
    apply elem_of_cons in Hm as [->|Hm].
    { apply elem_of_app. left. apply elem_of_app. left. apply Hin. by left. }
    apply elem_of_app in Hm as [Hm|Hm].
    + apply elem_of_app. left. apply elem_of_app. left. apply Hin. by right.
    + apply elem_of_app. right. by apply Hd.
  - split.
    + intros Hm. apply elem_of_app in Hm as [Hm|Hm]; [|by destruct (Hno _ Hm)].
      apply elem_of_app in Hm as [Hm|Hm];
        [|by apply list_elem_of_singleton in Hm].
      unfold sweep_effects in Hm.
      apply list_elem_of_bind in Hm as ([id' s'] & Hm & _).
      apply elem_of_cons in Hm as [Hm|Hm]; [done|].
      apply SockEnd_in_cleanup_effects in Hm as (Heq & ? & ?).
      cbn [snd] in *. by rewrite Heq.
    + intros [? ?]. apply elem_of_app. left. apply elem_of_app. left.
      apply Hin. right. by apply SockEnd_in_cleanup_effects.
Qed.

(** ** Pairing code and QR payload *)

(** C9 fails in server.js.  The callback of a pairing timer stores the code
    on whatever record is registered under the id when it fires, without
    looking at what that record holds or whether its socket is the one the
    timer was set for: on a record that holds a QR payload it leaves both
    artifacts non-null. *)
Theorem C9_server_js_stale_pairing_timer_sets_code_beside_qr
    env now st id sockh phone s q code :
  sessions st !! id = Some s →
  qr s = Some q →
  pairing_code_of env sockh (digitsOnly phone) = Some code →
  let r := Server.fire env now (PairingCb id sockh phone) st in
  r.1 = Returned tt
  ∧ sessions r.2 !! id = Some (set_pairingCode (Some code) s)
  ∧ qr (set_pairingCode (Some code) s) = Some q
  ∧ pairingCode (set_pairingCode (Some code) s) = Some code.
Proof.
  intros Hs Hq Hc. cbv zeta. cbn [Server.fire]. munfold. cbn beta iota.
  rewrite Hc. cbn beta iota. proj_red. rewrite Hs. cbn beta iota. proj_red.
  split_and!; [done| |by destruct s|by destruct s].
  by rewrite lookup_alter_eq, Hs.
Qed.

(** Such a state is reached from boot: the pairing timer of a destroyed
    record is never cancelled.  After the first four events of
    [restart_within_grace_delay], with a first socket that could not be
    ended, the timer of the first start is still pending while the record of
    the second start holds a QR payload; when it fires, that record holds
    both.  In server-optimized.js [killSession] cancels the timer and the
    same events leave the pairing code null. *)
Lemma C9_witness_restart_within_grace_delay :
  let before :=
    Server.run stuck_socket_env initial (take 4 restart_within_grace_delay) in
  let st := Server.run stuck_socket_env initial restart_within_grace_delay in
  let sto :=
    ServerOptimized.run stuck_socket_env (Some 50) initial
      restart_within_grace_delay in
  let s := set_qr (Some "2@qr") (fresh_record 200 None 2 3) in
  timers before = [mkTimer 0 1200 (PairingCb "bot2" 1 "+1 555-0100")]
  ∧ sessions before !! "bot2" = Some s
  ∧ qr s = Some "2@qr"
  ∧ pairing_code_of stuck_socket_env 1 (digitsOnly "+1 555-0100")
    = Some "ABCD-1234"
  ∧ sessions
      (Server.fire stuck_socket_env 1200 (PairingCb "bot2" 1 "+1 555-0100")
         before).2 !! "bot2"
    = Some (set_pairingCode (Some "ABCD-1234") s)
  ∧ sessions st !! "bot2" = Some (set_pairingCode (Some "ABCD-1234") s)
  ∧ sessions sto !! "bot2" = Some s.
Proof.
  cbv zeta.
  assert (H : sessions
                (Server.run stuck_socket_env initial
                   (take 4 restart_within_grace_delay)) !! "bot2"
              = Some (set_qr (Some "2@qr") (fresh_record 200 None 2 3)))
    by (vm_compute; reflexivity).
  destruct (C9_server_js_stale_pairing_timer_sets_code_beside_qr
              stuck_socket_env 1200 _ "bot2" 1%nat "+1 555-0100" _ "2@qr"
              "ABCD-1234" H eq_refl eq_refl) as (_ & Hboth & _).
  split_and!; [vm_compute; reflexivity|exact H|reflexivity|reflexivity
              |exact Hboth|vm_compute; reflexivity|vm_compute; reflexivity].
Defined.

(** ** Instances on states reached from boot *)

Lemma sweep_witness_connected_for_days :
  let st := Server.run quiet_env initial boot_connected in
  sessions st !! "bot1" = Some connected_record
  ∧ status connected_record = "connected"
  ∧ sessions (Server.expirePending quiet_env 864000000 st).2 !! "bot1"
    = Some connected_record
  ∧ sessions (Server2.handle quiet_env 864000000 SweepTick st).2 !! "bot1"
    = Some connected_record
  ∧ sessions (ServerOptimized.expirePending quiet_env 864000000 st).2 !! "bot1"
    = Some connected_record.
Proof.
  cbv zeta.
  assert (H : sessions (Server.run quiet_env initial boot_connected) !! "bot1"
              = Some connected_record) by (vm_compute; reflexivity).
  split; [exact H|]. split; [reflexivity|].
  exact (sweep_never_destroys_connected quiet_env 864000000 _ "bot1"
           connected_record H eq_refl).
Defined.

Lemma sweep_witness_optimized_expired_qr :
  let st :=
    ServerOptimized.run quiet_env (Some 50) initial
      [(0, GetStart "bot1" None)] in
  let sw := ServerOptimized.expireSweep quiet_env 120001 st in
  let r := ServerOptimized.expirePending quiet_env 120001 st in
  sessions st !! "bot1" = Some (fresh_record 0 None 0 1)
  ∧ expired 120001 (fresh_record 0 None 0 1) = true
  ∧ inherited_key "bot1" = false
  ∧ sessions sw.2 !! "bot1" = Some (fresh_record 0 None 0 1)
  ∧ EmitToSession "bot1" "session:killed" "pending_expired"
      ∈ new_effects st sw.2
  ∧ purges "bot1" (new_effects st sw.2) = 0%nat
  ∧ sessions r.2 !! "bot1" = None
  ∧ DeleteKeysWithPattern 0 "bot1:*" ∈ new_effects st r.2
  ∧ SockEnd 1 ∈ new_effects st r.2.
Proof.
  cbv zeta.
  assert (H : sessions
                (ServerOptimized.run quiet_env (Some 50) initial
                   [(0, GetStart "bot1" None)]) !! "bot1"
              = Some (fresh_record 0 None 0 1)) by (vm_compute; reflexivity).
  destruct (ServerOptimized_sweep_kills_expired quiet_env 120001 _ "bot1" _ H
              eq_refl eq_refl)
    as (_ & Hsw & _ & Hemit & _ & Hp & _ & Ha & _ & _ & Hb & Hend).
  split_and!; [exact H|reflexivity|reflexivity| |exact Hemit|exact Hp
              |exact Ha| |].
  - by rewrite Hsw.
  - apply Hb. unfold opt_kill_effects. cbn.
    do 3 apply list_elem_of_further. apply list_elem_of_here.
  - apply Hend. by split.
Defined.

Lemma guard_witness_close_while_reconnecting :
  let st := Server2.run quiet_env initial connection_lost in
  sessions st !! "bot1" = Some reconnecting_record
  ∧ isReconnecting reconnecting_record = true
  ∧ Server2.onConnectionUpdate quiet_env 30 "bot1" None
      (closeEvent (Some 515)) st
    = (Returned tt, st).
Proof.
  cbv zeta.
  assert (H : sessions (Server2.run quiet_env initial connection_lost) !! "bot1"
              = Some reconnecting_record) by (vm_compute; reflexivity).
  split; [exact H|]. split; [reflexivity|].
  exact (Server2_close_while_reconnecting_is_ignored quiet_env 30 "bot1" None
           (Some 515) _ _ H eq_refl).
Defined.

(** * The helpers, the read-only endpoints, boot and shutdown *)

(** ** Properties of single records that every handler keeps *)

Lemma every_record_framed P : framed (every_record P).
Proof. intros st st' Hs _ H id s. rewrite Hs. apply H. Qed.

Lemma er_deleteSession P id : preserves (every_record P) (deleteSession id).
Proof.
  intros st H j s. cbn. intros Hl.
  apply lookup_delete_Some in Hl as [_ Hl]. exact (H j s Hl).
Qed.

Lemma er_updateSession P id f :
  (∀ s, P s → P (f s)) → preserves (every_record P) (updateSession id f).
Proof.
  intros Hf st H j s. cbn. intros Hl.
  destruct (decide (id = j)) as [->|Hne].
  - rewrite lookup_alter_eq in Hl.
    destruct (sessions st !! j) as [s0|] eqn:E; [|done].
    cbn in Hl. injection Hl as <-. apply Hf. exact (H j s0 E).
  - rewrite lookup_alter_ne in Hl by done. exact (H j s Hl).
Qed.

Lemma er_putSession P id s : P s → preserves (every_record P) (putSession id s).
Proof.
  intros Hs st H j s'. cbn. intros Hl.
  destruct (decide (id = j)) as [->|Hne].
  - rewrite lookup_insert_eq in Hl. by injection Hl as <-.
  - rewrite lookup_insert_ne in Hl by done. exact (H j s' Hl).
Qed.

Lemma er_update_at P id f st s :
  every_record P st → sessions st !! id = Some s → P (f s) →
  every_record P (set_sessions (alter f id) st).
Proof.
  intros H Hs Hf j s'. cbn. intros Hl.
  destruct (decide (id = j)) as [->|Hne].
  - rewrite lookup_alter_eq, Hs in Hl. cbn in Hl. by injection Hl as <-.
  - rewrite lookup_alter_ne in Hl by done. exact (H j s' Hl).
Qed.

#[local] Hint Resolve every_record_framed er_deleteSession : preserves.

Section RecordInvariant.
Context (P : Session → Prop).
Hypothesis Hfresh : ∀ sockh phone now redis,
  P (mkSession sockh (if truthy phone then "pending_pair" else "pending_qr")
       None None now None phone redis 0 false).
Hypothesis Hattempts : ∀ s n, P s → P (set_reconnectAttempts n s).
Hypothesis Hflag : ∀ s b, P s → P (set_isReconnecting b s).
Hypothesis Hcode : ∀ s c, P s → P (set_pairingCode (Some c) s).
Hypothesis Hqr : ∀ s q, P s → status s = "pending_qr" → P (set_qr (Some q) s).
Hypothesis Hopen : ∀ s now,
  P s →
  P (set_reconnectAttempts 0 (set_pairingCode None (set_qr None
       (set_createdAt now (set_connectedAt (Some now)
          (set_status "connected" s)))))).

Ltac er_step :=
  lazymatch goal with
  | |- preserves _ (mbind _ _) => apply preserves_bind; [|intros ?]
  | |- preserves _ (try_catch _ _) => apply preserves_try_catch
  | |- preserves _ (when _ _) => apply preserves_when
  | |- preserves _ (mret _) => apply preserves_ret
  | |- preserves _ throw => apply preserves_throw
  | |- preserves _ (gets _) => apply preserves_gets
  | |- preserves _ (updateSession _ _) =>
      apply er_updateSession; intros ? ?;
      first [ by apply Hattempts | by apply Hflag | by apply Hcode
            | by apply Hopen | by apply Hflag, Hopen ]
  | |- preserves _ (putSession _ _) => apply er_putSession, Hfresh
  | |- preserves _ (match ?x with _ => _ end) => destruct x
  | |- preserves _ (let _ := _ in _) => cbv zeta
  | |- preserves _ _ => solve [auto with preserves nocore]
  end.

Ltac er_tac := preserves_unfold; repeat er_step.

(** The QR part of the three listeners: the payload is stored on the record
    that was looked up, and only if that record is [pending_qr]. *)
Lemma er_store_qr id s st (k : string → M unit) (u : Update) :
  every_record P st → sessions st !! id = Some s →
  (∀ q, preserves (every_record P) (k q)) →
  every_record P
    (match u_qr u with
     | Some q =>
         when (truthy (u_qr u) && String.eqb (status s) "pending_qr")
           (updateSession id (set_qr (Some q));; k q)
     | None => mret tt
     end st).2.
Proof.
  intros H Hs Hk. destruct (u_qr u) as [q|]; [|done]. unfold when.
  destruct (truthy (Some q) && String.eqb (status s) "pending_qr") eqn:Hc;
    [|done].
  apply andb_true_iff in Hc as [_ Hc]. apply String.eqb_eq in Hc.
  apply (bind_state (every_record P)); [|intros _; apply Hk].
  apply (er_update_at P id _ st s); [done..|]. apply Hqr; [|done].
  exact (H id s Hs).
Qed.

Lemma er_Server_killSession env id reason :
  preserves (every_record P) (Server.killSession env id reason).
Proof. unfold Server.killSession. er_tac. Qed.

Lemma er_Server_startSession env now id phone force :
  preserves (every_record P) (Server.startSession env now id phone force).
Proof. unfold Server.startSession. er_tac. Qed.

#[local] Hint Resolve er_Server_killSession er_Server_startSession : preserves.

Lemma er_Server_onClose env id phone s code :
  preserves (every_record P) (Server.onClose env id phone s code).
Proof. unfold Server.onClose. er_tac. Qed.

#[local] Hint Resolve er_Server_onClose : preserves.

Lemma er_Server_onConnectionUpdate env now id phone u :
  preserves (every_record P) (Server.onConnectionUpdate env now id phone u).
Proof.
  intros st H. unfold Server.onConnectionUpdate, getSession.
  change ((gets (λ st0, sessions st0 !! id) ≫= ?k) st)
    with (k (sessions st !! id) st). cbn beta.
  destruct (sessions st !! id) as [s|] eqn:Hs; [|done].
  apply (bind_state (every_record P)).
  - apply (er_store_qr id s st
             (λ q, url ← QRCode_toDataURL env q;
                   emitToSession id "qr:update" url;;
                   broadcastSessionStatus) u); [done..|].
    intros q. er_tac.
  - intros _. er_tac.
Qed.

Lemma er_Server_fire env now cb :
  preserves (every_record P) (Server.fire env now cb).
Proof. unfold Server.fire. er_tac. Qed.

Lemma er_Server_expireEntries env now entries :
  preserves (every_record P) (Server.expireEntries env now entries).
Proof.
  induction entries as [|[id s] rest IH]; cbn [Server.expireEntries]; er_tac.
Qed.

#[local] Hint Resolve er_Server_onConnectionUpdate er_Server_fire
  er_Server_expireEntries : preserves.

Lemma er_Server_handle env now e :
  preserves (every_record P) (Server.handle env now e).
Proof.
  unfold Server.handle, Server.get_start, Server.post_refresh,
    Server.delete_session, Server.get_logout, Server.timer_fires,
    Server.expirePending.
  er_tac.
Qed.

Lemma er_Server2_onClose env id phone s code :
  preserves (every_record P) (Server2.onClose env id phone s code).
Proof. unfold Server2.onClose, Server2.killSession. er_tac. Qed.

#[local] Hint Resolve er_Server2_onClose : preserves.

Lemma er_Server2_onConnectionUpdate env now id phone u :
  preserves (every_record P) (Server2.onConnectionUpdate env now id phone u).
Proof.
  intros st H. unfold Server2.onConnectionUpdate, getSession.
  change ((gets (λ st0, sessions st0 !! id) ≫= ?k) st)
    with (k (sessions st !! id) st). cbn beta.
  destruct (sessions st !! id) as [s|] eqn:Hs; [|done].
  apply (bind_state (every_record P)).
  - apply (er_store_qr id s st
             (λ q, url ← QRCode_toDataURL env q;
                   emitToSession id "qr:update" url;;
                   broadcastSessionStatus) u); [done..|].
    intros q. er_tac.
  - intros _. er_tac.
Qed.

#[local] Hint Resolve er_Server2_onConnectionUpdate : preserves.

Lemma er_Server2_handle env now e :
  preserves (every_record P) (Server2.handle env now e).
Proof.
  unfold Server2.handle, Server2.timer_fires, Server2.fire,
    Server2.startSession.
  destruct e; try apply er_Server_handle; er_tac.
Qed.

Lemma er_ServerOptimized_killSession env id reason :
  preserves (every_record P) (ServerOptimized.killSession env id reason).
Proof.
  unfold ServerOptimized.killSession, ServerOptimized.cleanupSessionSocket,
    ServerOptimized.cleanupSessionRedis, ServerOptimized.clearSessionTimers.
  er_tac.
Qed.

Lemma er_ServerOptimized_startSession env MAX now id phone force :
  preserves (every_record P)
    (ServerOptimized.startSession env MAX now id phone force).
Proof.
  unfold ServerOptimized.startSession, ServerOptimized.cleanupSessionSocket,
    ServerOptimized.clearSessionTimers, ServerOptimized.addSessionTimer.
  er_tac.
Qed.

#[local] Hint Resolve er_ServerOptimized_killSession
  er_ServerOptimized_startSession : preserves.

Lemma er_ServerOptimized_onClose env id phone s code :
  preserves (every_record P) (ServerOptimized.onClose env id phone s code).
Proof.
  unfold ServerOptimized.onClose, ServerOptimized.addSessionTimer. er_tac.
Qed.

#[local] Hint Resolve er_ServerOptimized_onClose : preserves.

Lemma er_ServerOptimized_connectionListener env now id phone u :
  preserves (every_record P)
    (ServerOptimized.connectionListener env now id phone u).
Proof.
  intros st H. unfold ServerOptimized.connectionListener, getSession.
  change ((gets (λ st0, sessions st0 !! id) ≫= ?k) st)
    with (k (sessions st !! id) st). cbn beta.
  destruct (sessions st !! id) as [s|] eqn:Hs; [|done].
  apply (bind_state (every_record P)).
  - apply (er_store_qr id s st
             (λ q, try_catch
                     (qrDataUrl ← QRCode_toDataURL env q;
                      emitToSession id "qr:update" qrDataUrl;;
                      broadcastSessionStatus)
                     (consoleWarn "QR generation error")) u); [done..|].
    intros q. er_tac.
  - intros _. er_tac.
Qed.

Lemma er_ServerOptimized_fire env MAX now cb :
  preserves (every_record P) (ServerOptimized.fire env MAX now cb).
Proof. unfold ServerOptimized.fire. er_tac. Qed.

Lemma er_ServerOptimized_expirePending env now :
  preserves (every_record P) (ServerOptimized.expirePending env now).
Proof.
  apply sweep_expirePending; intros;
    unfold ServerOptimized.killSession_begin,
      ServerOptimized.killSession_finish,
      ServerOptimized.cleanupSessionSocket,
      ServerOptimized.cleanupSessionRedis, ServerOptimized.clearSessionTimers;
    er_tac.
Qed.

#[local] Hint Resolve er_ServerOptimized_connectionListener er_ServerOptimized_fire
  er_ServerOptimized_expirePending : preserves.

Lemma er_ServerOptimized_handle env MAX now e :
  preserves (every_record P) (ServerOptimized.handle env MAX now e).
Proof.
  unfold ServerOptimized.handle, ServerOptimized.get_start,
    ServerOptimized.post_refresh, ServerOptimized.delete_session,
    ServerOptimized.get_logout, ServerOptimized.timer_fires,
    ServerOptimized.cleanupSessionRedis,
    ServerOptimized.clearSessionTimers.
  er_tac.
Qed.

Lemma every_record_initial : every_record P initial.
Proof. intros id s H. cbn [initial sessions] in H. by rewrite lookup_empty in H. Qed.

Lemma er_Server_run env evs : every_record P (Server.run env initial evs).
Proof.
  unfold Server.run. induction evs as [|ev evs IH] using rev_ind.
  - apply every_record_initial.
  - rewrite foldl_app. cbn [foldl]. unfold Server.step at 1.
    by apply er_Server_handle.
Qed.

Lemma er_Server2_run env evs : every_record P (Server2.run env initial evs).
Proof.
  unfold Server2.run. induction evs as [|ev evs IH] using rev_ind.
  - apply every_record_initial.
  - rewrite foldl_app. cbn [foldl]. unfold Server2.step at 1.
    by apply er_Server2_handle.
Qed.

Lemma er_ServerOptimized_run env MAX evs :
  every_record P (ServerOptimized.run env MAX initial evs).
Proof.
  unfold ServerOptimized.run. induction evs as [|ev evs IH] using rev_ind.
  - apply every_record_initial.
  - rewrite foldl_app. cbn [foldl]. unfold ServerOptimized.step at 1.
    by apply er_ServerOptimized_handle.
Qed.

End RecordInvariant.

(** ** Well-formed records *)

Lemma record_wf_fresh sockh phone now redis :
  record_wf
    (mkSession sockh (if truthy phone then "pending_pair" else "pending_qr")
       None None now None phone redis 0 false).
Proof.
  unfold record_wf. cbn. destruct (truthy phone); split_and!; try done; auto.
Qed.

Lemma record_wf_keep f :
  (∀ s, status (f s) = status s ∧ qr (f s) = qr s
        ∧ connectedAt (f s) = connectedAt s) →
  ∀ s, record_wf s → record_wf (f s).
Proof.
  intros Hf s. destruct (Hf s) as (H1 & H2 & H3). unfold record_wf.
  by rewrite H1, H2, H3.
Qed.

Lemma record_wf_qr s q :
  record_wf s → status s = "pending_qr" → record_wf (set_qr (Some q) s).
Proof. intros (H1 & H2 & H3) Hs. unfold record_wf. cbn. done. Qed.

Lemma record_wf_open s now :
  record_wf s →
  record_wf
    (set_reconnectAttempts 0 (set_pairingCode None (set_qr None
       (set_createdAt now (set_connectedAt (Some now)
          (set_status "connected" s)))))).
Proof. intros _. unfold record_wf. cbn. split_and!; auto; done. Qed.

Lemma Server_run_record_wf env evs :
  every_record record_wf (Server.run env initial evs).
Proof.
  apply er_Server_run;
    auto using record_wf_fresh, record_wf_qr, record_wf_open;
    intros; by apply record_wf_keep.
Qed.

Lemma Server2_run_record_wf env evs :
  every_record record_wf (Server2.run env initial evs).
Proof.
  apply er_Server2_run;
    auto using record_wf_fresh, record_wf_qr, record_wf_open;
    intros; by apply record_wf_keep.
Qed.

Lemma ServerOptimized_run_record_wf env MAX evs :
  every_record record_wf (ServerOptimized.run env MAX initial evs).
Proof.
  apply er_ServerOptimized_run;
    auto using record_wf_fresh, record_wf_qr, record_wf_open;
    intros; by apply record_wf_keep.
Qed.

(** In every state the three files reach from boot, every record has one of
    the three statuses the code writes, holds a QR payload only while
    [pending_qr], and has a connection time exactly when it is connected. *)
Theorem reachable_records_are_well_formed env MAX evs id s :
  sessions (Server.run env initial evs) !! id = Some s
  ∨ sessions (Server2.run env initial evs) !! id = Some s
  ∨ sessions (ServerOptimized.run env MAX initial evs) !! id = Some s →
  record_wf s.
Proof.
  intros [H|[H|H]].
  - exact (Server_run_record_wf env evs id s H).
  - exact (Server2_run_record_wf env evs id s H).
  - exact (ServerOptimized_run_record_wf env MAX evs id s H).
Qed.

Lemma reachable_records_witness_pending_then_connected :
  sessions (Server.run quiet_env initial boot_connected) !! "bot1"
  = Some connected_record
  ∧ record_wf connected_record.
Proof.
  assert (H : sessions (Server.run quiet_env initial boot_connected) !! "bot1"
              = Some connected_record) by (vm_compute; reflexivity).
  split; [exact H|].
  apply (reachable_records_are_well_formed quiet_env None boot_connected
           "bot1" connected_record). by left.
Defined.

(** ** [GET /status] and [GET /health] *)

Lemma status_counts_of_entries tr now (entries : list (string * Session)) :
  Forall (λ e, record_wf e.2) entries →
  let data := statusRow tr now <$> entries in
  length data = length entries.*1
  ∧ length (filter (λ r, row_connected r = true) data)
    = length (filter (λ s, String.eqb (status s) "connected" = true) entries.*2)
  ∧ (length (filter (λ r, String.prefix "pending" (row_status r) = true) data)
     + length (filter (λ r, row_connected r = true) data))%nat
    = length data.
Proof.
  cbv zeta. induction 1 as [|[id s] entries Hwf _ IH].
  { done. }
  destruct IH as (IH1 & IH2 & IH3). cbn [fmap list_fmap fst snd] in *.
  destruct Hwf as ([Hs|[Hs|Hs]] & _); cbn [snd] in Hs.
  all: rewrite !filter_cons; cbn [statusRow row_connected row_status];
    rewrite Hs.
  all: repeat case_decide; try done.
  all: cbn [length]; split_and!; lia.
Qed.

(** In every state reached from boot the two summary endpoints agree: the
    [pending] count of [GET /health], computed as total minus connected, is
    the number of records [GET /status] counts as pending, and both totals
    are the size of the registry. *)
Theorem status_and_health_agree env MAX evs tr now :
  summaries_agree tr now (Server.run env initial evs)
  ∧ summaries_agree tr now (Server2.run env initial evs)
  ∧ summaries_agree tr now (ServerOptimized.run env MAX initial evs).
Proof.
  assert (Hagree : ∀ st, every_record record_wf st → summaries_agree tr now st).
  { intros st Hwf.
    assert (Hall : Forall (λ e, record_wf e.2) (map_to_list (sessions st))).
    { apply Forall_forall. intros [id s] Hin.
      apply elem_of_map_to_list in Hin. exact (Hwf id s Hin). }
    destruct (status_counts_of_entries tr now _ Hall) as (H1 & H2 & H3).
    unfold summaries_agree, get_status, get_health. cbv zeta.
    cbn [status_total status_connected status_pending health_total
         health_connected health_pending].
    split_and!; try lia.
    by rewrite length_fmap, length_map_to_list. }
  split_and!; apply Hagree;
    auto using Server_run_record_wf, Server2_run_record_wf,
      ServerOptimized_run_record_wf.
Qed.

(** ** The attempt counter of server-2.js and server-optimized.js *)

Lemma bi_frame st st' :
  sessions st' = sessions st → timers st' = timers st →
  backoff_inv st → backoff_inv st'.
Proof.
  intros Hs Ht [Ha Hb]. split.
  - intros id s. rewrite Hs. apply Ha.
  - by rewrite Ht.
Qed.

Lemma bi_perform e : preserves backoff_inv (perform e).
Proof. intros st. by apply bi_frame. Qed.

Lemma bi_set_listeners f : preserves backoff_inv (modify (set_listeners f)).
Proof. intros st. by apply bi_frame. Qed.

Lemma bi_set_sessionTimers f :
  preserves backoff_inv (modify (set_sessionTimers f)).
Proof. intros st. by apply bi_frame. Qed.

Lemma bi_fresh_handle : preserves backoff_inv fresh_handle.
Proof. intros st. by apply bi_frame. Qed.

Lemma bi_filter_timers P `{∀ x, Decision (P x)} :
  preserves backoff_inv (modify (set_timers (filter P))).
Proof.
  intros st [Ha Hb]. split; [done|]. cbn.
  apply Forall_forall. intros t Ht.
  apply list_elem_of_filter in Ht as [_ Ht].
  by apply (proj1 (Forall_forall _ _) Hb).
Qed.

Lemma bi_setTimeout cb ms :
  restart_delay_ok (mkTimer 0 ms cb) → preserves backoff_inv (setTimeout cb ms).
Proof.
  intros Hcb st [Ha Hb]. split; [done|]. cbn.
  apply Forall_app. split; [done|]. by apply Forall_singleton.
Qed.

Lemma bi_deleteSession id : preserves backoff_inv (deleteSession id).
Proof. intros st [Ha Hb]. split; [by apply er_deleteSession|done]. Qed.

Lemma bi_updateSession id f :
  (∀ s, backoff_fresh s → backoff_fresh (f s)) →
  preserves backoff_inv (updateSession id f).
Proof. intros Hf st [Ha Hb]. split; [by apply er_updateSession|done]. Qed.

Lemma bi_putSession id s :
  backoff_fresh s → preserves backoff_inv (putSession id s).
Proof. intros Hs st [Ha Hb]. split; [by apply er_putSession|done]. Qed.

(** The first transient close of a record: the counter goes to one and the
    flag is set, in two writes. *)
Lemma bi_bump id (k : M unit) :
  preserves backoff_inv k →
  preserves backoff_inv
    (updateSession id (set_reconnectAttempts 1);;
     updateSession id (set_isReconnecting true);; k).
Proof.
  intros Hk st H. munfold. cbn beta iota.
  apply Hk. destruct H as [Ha Hb]. split; [|done].
  intros j s. cbn. rewrite alter_alter_eq. intros Hl.
  destruct (decide (id = j)) as [->|Hne].
  - rewrite lookup_alter_eq in Hl.
    destruct (sessions st !! j) as [s0|] eqn:E; [|done].
    cbn in Hl. injection Hl as <-. split; cbn; [done|by right].
  - rewrite lookup_alter_ne in Hl by done. exact (Ha j s Hl).
Qed.

Lemma backoff_fresh_keep f :
  (∀ s, isReconnecting (f s) = isReconnecting s
        ∧ reconnectAttempts (f s) = reconnectAttempts s) →
  ∀ s, backoff_fresh s → backoff_fresh (f s).
Proof.
  intros Hf s. destruct (Hf s) as [H1 H2]. unfold backoff_fresh.
  by rewrite H1, H2.
Qed.

Lemma backoff_fresh_flag s :
  backoff_fresh s → backoff_fresh (set_isReconnecting true s).
Proof. intros [H1 H2]. split; cbn; done. Qed.

Create HintDb backoff.
#[local] Hint Resolve preserves_ret preserves_throw preserves_gets bi_perform
  bi_set_listeners bi_set_sessionTimers bi_fresh_handle bi_deleteSession
  bi_filter_timers : backoff.

Ltac bi_step :=
  lazymatch goal with
  | |- preserves _ (updateSession _ (set_reconnectAttempts 1) ≫= _) =>
      apply bi_bump
  | |- preserves _ (mbind _ _) => apply preserves_bind; [|intros ?]
  | |- preserves _ (try_catch _ _) => apply preserves_try_catch
  | |- preserves _ (when _ _) => apply preserves_when
  | |- preserves _ (mret _) => apply preserves_ret
  | |- preserves _ throw => apply preserves_throw
  | |- preserves _ (gets _) => apply preserves_gets
  | |- preserves _ (updateSession _ _) =>
      apply bi_updateSession;
      first [ apply backoff_fresh_keep; intros ?; split; reflexivity
            | apply backoff_fresh_flag
            | intros ? _; split; cbn; [done|by left] ]
  | |- preserves _ (putSession _ _) =>
      apply bi_putSession; split; cbn; [done|by left]
  | |- preserves _ (setTimeout _ _) =>
      apply bi_setTimeout; unfold restart_delay_ok; cbn [callback delay];
      try done;
      repeat match goal with
             | |- context [if ?b then _ else _] => destruct b
             end; lia
  | |- preserves _ (match ?x with _ => _ end) => destruct x
  | |- preserves _ (let _ := _ in _) => cbv zeta
  | |- preserves _ _ => solve [auto with backoff nocore]
  end.

Ltac bi_tac := preserves_unfold; unfold clearTimeout; repeat bi_step.

Lemma bi_Server_killSession env id reason :
  preserves backoff_inv (Server.killSession env id reason).
Proof. unfold Server.killSession. bi_tac. Qed.

Lemma bi_Server_startSession env now id phone force :
  preserves backoff_inv (Server.startSession env now id phone force).
Proof. unfold Server.startSession. bi_tac. Qed.

#[local] Hint Resolve bi_Server_killSession bi_Server_startSession : backoff.

Lemma bi_Server_fire_pairing env now id sockh p :
  preserves backoff_inv (Server.fire env now (PairingCb id sockh p)).
Proof. cbn [Server.fire]. bi_tac. Qed.

Lemma bi_Server_expireEntries env now entries :
  preserves backoff_inv (Server.expireEntries env now entries).
Proof.
  induction entries as [|[id s] rest IH]; cbn [Server.expireEntries]; bi_tac.
Qed.

#[local] Hint Resolve bi_Server_expireEntries : backoff.

(** The handlers server-2.js shares with server.js. *)
Lemma bi_Server_handle_http env now e :
  (∀ sockh u, e ≠ ConnectionUpdate sockh u) → (∀ t, e ≠ TimerFires t) →
  preserves backoff_inv (Server.handle env now e).
Proof.
  intros H1 H2.
  destruct e; try (by destruct (H1 sockh u)); try (by destruct (H2 timer));
    cbn [Server.handle];
    unfold Server.get_start, Server.post_refresh, Server.delete_session,
      Server.get_logout, Server.expirePending;
    bi_tac.
Qed.

Lemma bi_Server2_onClose env id phone s code :
  backoff_fresh s →
  preserves backoff_inv (Server2.onClose env id phone s code).
Proof.
  intros [H0 _]. unfold Server2.onClose, Server2.killSession.
  destruct (isReconnecting s); [bi_tac|].
  rewrite H0 by done. cbv zeta.
  change (0 + 1 <=? 5) with true. change (0 + 1) with 1. cbn iota.
  bi_tac.
Qed.

(** The QR part of a listener leaves the counter and the flag of the record
    alone. *)
Lemma bi_store_qr id s (k : string → M unit) (u : Update) :
  (∀ q, preserves backoff_inv (k q)) →
  preserves backoff_inv
    (match u_qr u with
     | Some q =>
         when (truthy (u_qr u) && String.eqb (status s) "pending_qr")
           (updateSession id (set_qr (Some q));; k q)
     | None => mret tt
     end).
Proof. intros Hk. bi_tac. Qed.

Lemma bi_Server2_onConnectionUpdate env now id phone u :
  preserves backoff_inv (Server2.onConnectionUpdate env now id phone u).
Proof.
  intros st H. unfold Server2.onConnectionUpdate, getSession.
  change ((gets (λ st0, sessions st0 !! id) ≫= ?k) st)
    with (k (sessions st !! id) st). cbn beta.
  destruct (sessions st !! id) as [s|] eqn:Hs; [|done].
  pose proof (proj1 H id s Hs) as Hbf.
  apply (bind_state backoff_inv).
  - apply (bi_store_qr id s
             (λ q, url ← QRCode_toDataURL env q;
                   emitToSession id "qr:update" url;;
                   broadcastSessionStatus) u); [|done].
    intros q. bi_tac.
  - intros _. destruct (connection u) as [[| |]|]; try bi_tac.
    by apply bi_Server2_onClose.
Qed.

(** A forced restart replaces the record, whatever was written to it just
    before. *)
Lemma bi_Server_restart env now id phone f st :
  backoff_inv st →
  backoff_inv
    (Server.startSession env now id phone true
       (set_sessions (alter f id) st)).2.
Proof.
  intros [Ha Hb].
  assert (Hac : alreadyConnected
                  (sessions (set_sessions (alter f id) st) !! id) true = false).
  { unfold alreadyConnected.
    by destruct (sessions (set_sessions (alter f id) st) !! id). }
  destruct (start_succeeds env (set_sessions (alter f id) st)) eqn:Hok.
  - rewrite Server_startSession_spec by done.
    cbn [snd]. split.
    + intros j s. cbn [sessions set_sessions]. intros Hl.
      destruct (decide (id = j)) as [->|Hne].
      * rewrite lookup_insert_eq in Hl. injection Hl as <-.
        split; cbn; [done|by left].
      * rewrite lookup_insert_ne, lookup_alter_ne in Hl by done.
        exact (Ha j s Hl).
    + cbn [timers set_sessions]. apply Forall_app. split; [done|].
      unfold pairing_timer. destruct phone as [p|]; [|by apply Forall_nil].
      destruct (truthy (Some p) && negb (creds_registered env id));
        [|by apply Forall_nil].
      by apply Forall_singleton.
  - rewrite Server_startSession_thrown by done.
    cbn [snd]. split.
    + intros j s.
      rewrite start_failed_sessions,
        (Server_torn_down_sessions env id true).
      cbn [sessions set_sessions]. intros Hl.
      apply lookup_delete_Some in Hl as [Hne Hl].
      rewrite lookup_alter_ne in Hl by done. exact (Ha j s Hl).
    + by rewrite start_failed_timers, Server_torn_down_timers.
Qed.

Lemma bi_Server2_fire env now cb :
  preserves backoff_inv (Server2.fire env now cb).
Proof.
  destruct cb; cbn [Server2.fire]; try solve [bi_tac].
  - apply bi_Server_fire_pairing.
  - intros st H. munfold. cbn beta iota.
    destruct (sessions st !! sessionId) as [cur|] eqn:Hs; [|exact H].
    cbn beta iota. unfold Server2.startSession.
    destruct (sock cur =? s_sock)%nat; cbn beta iota.
    + by apply bi_Server_restart.
    + by apply bi_Server_startSession.
Qed.

Lemma bi_Server2_handle env now e :
  preserves backoff_inv (Server2.handle env now e).
Proof.
  destruct e; cbn [Server2.handle];
    try (apply bi_Server_handle_http; intros; discriminate).
  - pose proof (bi_Server2_onConnectionUpdate env now). bi_tac.
  - unfold Server2.timer_fires. pose proof (bi_Server2_fire env now). bi_tac.
Qed.

Lemma backoff_inv_initial : backoff_inv initial.
Proof.
  split; [|by apply Forall_nil].
  intros id s H. cbn [initial sessions] in H. by rewrite lookup_empty in H.
Qed.

Lemma Server2_run_backoff_inv env evs :
  backoff_inv (Server2.run env initial evs).
Proof.
  unfold Server2.run. induction evs as [|ev evs IH] using rev_ind.
  - apply backoff_inv_initial.
  - rewrite foldl_app. cbn [foldl]. unfold Server2.step at 1.
    by apply bi_Server2_handle.
Qed.

Lemma bi_ServerOptimized_killSession env id reason :
  preserves backoff_inv (ServerOptimized.killSession env id reason).
Proof.
  unfold ServerOptimized.killSession, ServerOptimized.cleanupSessionSocket,
    ServerOptimized.cleanupSessionRedis, ServerOptimized.clearSessionTimers.
  bi_tac.
Qed.

Lemma bi_ServerOptimized_startSession env MAX now id phone force :
  preserves backoff_inv
    (ServerOptimized.startSession env MAX now id phone force).
Proof.
  unfold ServerOptimized.startSession, ServerOptimized.cleanupSessionSocket,
    ServerOptimized.clearSessionTimers, ServerOptimized.addSessionTimer.
  bi_tac.
Qed.

#[local] Hint Resolve bi_ServerOptimized_killSession
  bi_ServerOptimized_startSession : backoff.

Lemma bi_ServerOptimized_onClose env id phone s code :
  backoff_fresh s →
  preserves backoff_inv (ServerOptimized.onClose env id phone s code).
Proof.
  intros [H0 _].
  unfold ServerOptimized.onClose, ServerOptimized.MAX_RECONNECT_ATTEMPTS,
    ServerOptimized.addSessionTimer.
  cbv zeta. destruct (isReconnecting s); [bi_tac|].
  rewrite H0 by done.
  change (0 + 1 <=? 5) with true. change (0 + 1) with 1. cbn iota.
  bi_tac.
Qed.

Lemma bi_ServerOptimized_connectionListener env now id phone u :
  preserves backoff_inv (ServerOptimized.connectionListener env now id phone u).
Proof.
  intros st H. unfold ServerOptimized.connectionListener, getSession.
  change ((gets (λ st0, sessions st0 !! id) ≫= ?k) st)
    with (k (sessions st !! id) st). cbn beta.
  destruct (sessions st !! id) as [s|] eqn:Hs; [|done].
  pose proof (proj1 H id s Hs) as Hbf.
  apply (bind_state backoff_inv).
  - apply (bi_store_qr id s
             (λ q, try_catch
                     (qrDataUrl ← QRCode_toDataURL env q;
                      emitToSession id "qr:update" qrDataUrl;;
                      broadcastSessionStatus)
                     (consoleWarn "QR generation error")) u); [|done].
    intros q. bi_tac.
  - intros _. destruct (connection u) as [[| |]|]; try solve [bi_tac].
    by apply bi_ServerOptimized_onClose.
Qed.

Lemma bi_ServerOptimized_restart env MAX now id phone f st cur :
  backoff_inv st → sessions st !! id = Some cur →
  backoff_inv
    (ServerOptimized.startSession env MAX now id phone true
       (set_sessions (alter f id) st)).2.
Proof.
  intros [Ha Hb] Hs.
  assert (Hl : sessions (set_sessions (alter f id) st) !! id = Some (f cur)).
  { cbn [sessions set_sessions]. by rewrite lookup_alter_eq, Hs. }
  destruct (start_succeeds env (set_sessions (alter f id) st)) eqn:Hok.
  - rewrite ServerOptimized_startSession_spec;
      [|by rewrite Hl|by rewrite Hl|done].
    cbn [snd]. unfold started, torn_down. rewrite Hl. cbv zeta. split.
    + intros j s. cbn [sessions set_sessions]. intros Hj.
      destruct (decide (id = j)) as [->|Hne].
      * rewrite lookup_insert_eq in Hj. injection Hj as <-.
        split; cbn; [done|by left].
      * rewrite lookup_insert_ne, lookup_delete_ne, lookup_alter_ne in Hj
          by done.
        exact (Ha j s Hj).
    + cbn [timers]. apply Forall_app. split.
      * apply Forall_forall. intros t Ht.
        apply cleared_timers_sub in Ht. cbn [timers set_sessions] in Ht.
        by apply (proj1 (Forall_forall _ _) Hb).
      * unfold pairing_timer. destruct phone as [p|]; [|by apply Forall_nil].
        destruct (truthy (Some p) && negb (creds_registered env id));
          [|by apply Forall_nil].
        by apply Forall_singleton.
  - rewrite ServerOptimized_startSession_thrown;
      [|by rewrite Hl|by rewrite Hl|done].
    cbn [snd]. split.
    + intros j s.
      rewrite start_failed_sessions, (torn_down_sessions env id true).
      cbn [sessions set_sessions]. intros Hj.
      apply lookup_delete_Some in Hj as [Hne Hj].
      rewrite lookup_alter_ne in Hj by done. exact (Ha j s Hj).
    + rewrite start_failed_timers. apply Forall_forall. intros t Ht.
      apply torn_down_timers_sub in Ht. cbn [timers set_sessions] in Ht.
      by apply (proj1 (Forall_forall _ _) Hb).
Qed.

Lemma bi_ServerOptimized_fire env MAX now cb :
  preserves backoff_inv (ServerOptimized.fire env MAX now cb).
Proof.
  destruct cb; cbn [ServerOptimized.fire]; try solve [bi_tac].
  - intros st H. munfold. cbn beta iota.
    destruct (sessions st !! sessionId) as [cur|] eqn:Hs; [|exact H].
    cbn beta iota.
    destruct (sock cur =? s_sock)%nat; cbn beta iota.
    + by apply (bi_ServerOptimized_restart env MAX now sessionId phone _ st cur).
    + by apply bi_ServerOptimized_startSession.
  - intros st H. munfold. cbn beta iota.
    destruct (sessions st !! sessionId) as [cur|] eqn:Hs; [|exact H].
    cbn beta iota. destruct (isReconnecting cur); [exact H|].
    cbn beta iota.
    destruct (sock cur =? s_sock)%nat; cbn beta iota.
    + by apply (bi_ServerOptimized_restart env MAX now sessionId phone _ st cur).
    + by apply bi_ServerOptimized_startSession.
Qed.

Lemma bi_ServerOptimized_expirePending env now :
  preserves backoff_inv (ServerOptimized.expirePending env now).
Proof.
  apply sweep_expirePending; intros;
    unfold ServerOptimized.killSession_begin,
      ServerOptimized.killSession_finish,
      ServerOptimized.cleanupSessionSocket,
      ServerOptimized.cleanupSessionRedis, ServerOptimized.clearSessionTimers;
    bi_tac.
Qed.

#[local] Hint Resolve bi_ServerOptimized_expirePending : backoff.

Lemma bi_ServerOptimized_handle env MAX now e :
  preserves backoff_inv (ServerOptimized.handle env MAX now e).
Proof.
  pose proof (bi_ServerOptimized_connectionListener env now).
  pose proof (bi_ServerOptimized_fire env MAX now).
  unfold ServerOptimized.handle, ServerOptimized.get_start,
    ServerOptimized.post_refresh, ServerOptimized.delete_session,
    ServerOptimized.get_logout, ServerOptimized.timer_fires,
    ServerOptimized.cleanupSessionRedis,
    ServerOptimized.clearSessionTimers.
  bi_tac.
Qed.

Lemma ServerOptimized_run_backoff_inv env MAX evs :
  backoff_inv (ServerOptimized.run env MAX initial evs).
Proof.
  unfold ServerOptimized.run. induction evs as [|ev evs IH] using rev_ind.
  - apply backoff_inv_initial.
  - rewrite foldl_app. cbn [foldl]. unfold ServerOptimized.step at 1.
    by apply bi_ServerOptimized_handle.
Qed.

(** In server-2.js and server-optimized.js the attempt counter of a record
    never passes one in a state reached from boot: the close handler only
    counts while the record is not reconnecting, and what clears that flag
    (an open event, or the restart it scheduled) also puts the counter back
    to zero.  So every restart these files schedule is due after one base
    interval, and the branch that gives up after five attempts is never
    taken. *)
Theorem reconnect_attempts_never_pass_one env MAX evs :
  backoff_inv (Server2.run env initial evs)
  ∧ backoff_inv (ServerOptimized.run env MAX initial evs).
Proof.
  split; [apply Server2_run_backoff_inv|apply ServerOptimized_run_backoff_inv].
Qed.

(** ** The restart server-optimized.js schedules after a transient close *)

Lemma ServerOptimized_onClose_transient env sessionId phone code st s :
  isReconnecting s = false → classify code = transient →
  reconnectAttempts s + 1 ≤ 5 →
  ServerOptimized.onClose env sessionId phone s code st =
    (Returned tt,
     mkState
       (alter (set_isReconnecting true) sessionId
          (alter (set_reconnectAttempts (reconnectAttempts s + 1)) sessionId
             (sessions st)))
       (<[sessionId :=
            default [] (sessionTimers st !! sessionId) ++ [next_timer st]]>
          (sessionTimers st))
       (listeners st)
       (timers st
        ++ [mkTimer (next_timer st)
              (Z.min ((reconnectAttempts s + 1) * baseBackoff code) 30000)
              (RestartIfNotReconnecting sessionId (sock s) phone)])
       (next_handle st) (S (next_timer st)) (effects st)).
Proof.
  intros Hg Hc Hle.
  unfold ServerOptimized.onClose, ServerOptimized.MAX_RECONNECT_ATTEMPTS,
    ServerOptimized.addSessionTimer, baseBackoff.
  rewrite Hg.
  destruct (classify_transient code Hc) as [->|[->| ->]];
    cbv zeta; eval_codes;
    destruct (Z.leb_spec (reconnectAttempts s + 1) 5); try lia;
    munfold; mred; reflexivity.
Qed.

(** In server-optimized.js the restart scheduled after a transient close
    never happens.  The handler sets [isReconnecting] before it schedules
    the callback, and the callback restarts only if the flag is not set: when
    it runs on the state the handler left, nothing changes.  Every later
    close event for the record is ignored as well, so the record stays as
    it is until an open event or an explicit request replaces it. *)
Theorem ServerOptimized_backoff_callback_does_nothing
    env MAX now now' now'' id phone code code' st s :
  sessions st !! id = Some s →
  isReconnecting s = false →
  classify code = transient →
  reconnectAttempts s + 1 ≤ 5 →
  let st1 :=
    (ServerOptimized.connectionListener env now id phone (closeEvent code) st).2 in
  let cb := RestartIfNotReconnecting id (sock s) phone in
  mkTimer (next_timer st)
    (Z.min ((reconnectAttempts s + 1) * baseBackoff code) 30000) cb
  ∈ timers st1
  ∧ sessions st1 !! id
    = Some (set_isReconnecting true
              (set_reconnectAttempts (reconnectAttempts s + 1) s))
  ∧ ServerOptimized.fire env MAX now' cb st1 = (Returned tt, st1)
  ∧ ServerOptimized.connectionListener env now'' id phone (closeEvent code') st1
    = (Returned tt, st1).
Proof.
  intros Hs Hg Hc Hle. cbv zeta.
  rewrite (ServerOptimized_close_event _ _ _ _ _ _ _ Hs).
  rewrite ServerOptimized_onClose_transient by done. cbn [snd].
  match goal with
  | |- context [ServerOptimized.fire _ _ _ _ ?X] => set (st1 := X)
  end.
  assert (Hl : sessions st1 !! id
               = Some (set_isReconnecting true
                         (set_reconnectAttempts (reconnectAttempts s + 1) s))).
  { subst st1. cbn [sessions]. by rewrite !lookup_alter_eq, Hs. }
  split_and!.
  - subst st1. cbn [timers]. apply elem_of_app. right.
    by apply list_elem_of_singleton.
  - exact Hl.
  - cbn [ServerOptimized.fire]. munfold. cbn beta iota. by rewrite Hl.
  - rewrite (ServerOptimized_close_event _ _ _ _ _ _ _ Hl).
    by apply ServerOptimized_onClose_guard.
Qed.

Lemma backoff_callback_witness_connection_lost :
  let st := ServerOptimized.run quiet_env (Some 50) initial boot_connected in
  let st1 :=
    (ServerOptimized.connectionListener quiet_env 20 "bot1" None
       (closeEvent (Some 408)) st).2 in
  sessions st !! "bot1" = Some connected_record
  ∧ isReconnecting connected_record = false
  ∧ classify (Some 408) = transient
  ∧ reconnectAttempts connected_record + 1 ≤ 5
  ∧ sessions st1 !! "bot1" = Some reconnecting_record
  ∧ ServerOptimized.fire quiet_env (Some 50) 2020
      (RestartIfNotReconnecting "bot1" 1 None) st1
    = (Returned tt, st1).
Proof.
  cbv zeta.
  assert (H : sessions (ServerOptimized.run quiet_env (Some 50) initial
                          boot_connected) !! "bot1"
              = Some connected_record) by (vm_compute; reflexivity).
  assert (Hle : reconnectAttempts connected_record + 1 ≤ 5)
    by (vm_compute; discriminate).
  destruct (ServerOptimized_backoff_callback_does_nothing quiet_env (Some 50)
              20 2020 3000 "bot1" None (Some 408) (Some 408) _ _ H eq_refl
              eq_refl Hle) as (_ & H2 & H3 & _).
  split_and!; [exact H|reflexivity|reflexivity|exact Hle|exact H2|exact H3].
Defined.

(** ** Logout and delete *)

Lemma Server_get_logout_spec env id st s :
  sessions st !! id = Some s →
  Server.get_logout env id st =
    if logout_throws env (sock s) then
      (Thrown, log (SockLogout (sock s)) st)
    else if deleteKeys_throws env (id +:+ ":*") then
      (Thrown,
       log (DeleteKeysWithPattern (authRedis s) (id +:+ ":*"))
         (log (SockLogout (sock s)) st))
    else
      (Returned tt,
       mkState (delete id (sessions st)) (sessionTimers st) (listeners st)
         (timers st) (next_handle st) (next_timer st)
         (effects st
          ++ [SockLogout (sock s);
              DeleteKeysWithPattern (authRedis s) (id +:+ ":*");
              BroadcastSessionStatus])).
Proof.
  intros Hs. unfold Server.get_logout. munfold. cbn beta iota.
  rewrite Hs. cbn beta iota.
  destruct (logout_throws env (sock s)); cbn beta iota; [done|].
  destruct (deleteKeys_throws env (id +:+ ":*")); cbn beta iota; [done|].
  state_eq; reflexivity.
Qed.

Lemma ServerOptimized_get_logout_spec env id st s :
  sessions st !! id = Some s →
  ServerOptimized.get_logout env id st =
    if logout_throws env (sock s) then
      (Thrown, log (SockLogout (sock s)) st)
    else
      (Returned tt,
       mkState (delete id (sessions st)) (delete id (sessionTimers st))
         (listeners st) (cleared_timers st id) (next_handle st)
         (next_timer st)
         (effects st
          ++ SockLogout (sock s)
             :: DeleteKeysWithPattern (authRedis s) (id +:+ ":*")
             :: (if deleteKeys_throws env (id +:+ ":*")
                 then [ConsoleWarn "Redis cleanup error"] else [])
             ++ [BroadcastSessionStatus])).
Proof.
  intros Hs.
  unfold ServerOptimized.get_logout, ServerOptimized.cleanupSessionRedis,
    ServerOptimized.clearSessionTimers, cleared_timers.
  munfold. cbn beta iota. rewrite Hs. cbn beta iota.
  destruct (logout_throws env (sock s)); cbn beta iota; [done|].
  destruct (deleteKeys_throws env (id +:+ ":*")); cbn beta iota; proj_red;
    destruct (sessionTimers st !! id) as [ts|] eqn:Ht; cbn beta iota;
    state_eq; rewrite ?(delete_id _ _ Ht); reflexivity.
Qed.

(** [GET /logout/:id] removes the record exactly when neither
    [sock.logout()] nor the purge throws (in server-optimized.js: when
    [sock.logout()] does not throw, a failing purge being swallowed); when
    it throws the registry is as before.  Unlike [DELETE /session/:id] it
    never ends the socket and never notifies [session:killed]. *)
Theorem logout_removes_unless_it_throws env id st s :
  sessions st !! id = Some s →
  let r := Server.get_logout env id st in
  let ro := ServerOptimized.get_logout env id st in
  (completed r = true
   ↔ logout_throws env (sock s) = false
     ∧ deleteKeys_throws env (id +:+ ":*") = false)
  ∧ (completed r = true →
     sessions r.2 = delete id (sessions st)
     ∧ purges id (new_effects st r.2) = 1%nat)
  ∧ (completed r = false → sessions r.2 = sessions st)
  ∧ (completed ro = true ↔ logout_throws env (sock s) = false)
  ∧ (completed ro = true →
     sessions ro.2 = delete id (sessions st)
     ∧ sessionTimers ro.2 !! id = None
     ∧ purges id (new_effects st ro.2) = 1%nat)
  ∧ (completed ro = false → sessions ro.2 = sessions st)
  ∧ (∀ e, e ∈ new_effects st r.2 ∨ e ∈ new_effects st ro.2 →
          e ≠ SockEnd (sock s)
          ∧ ∀ reason, e ≠ EmitToSession id "session:killed" reason).
Proof.
  intros Hs. cbv zeta.
  rewrite (Server_get_logout_spec env id st s Hs),
    (ServerOptimized_get_logout_spec env id st s Hs).
  unfold completed.
  destruct (logout_throws env (sock s)) eqn:Hl.
  { cbn [fst snd]. rewrite !(new_effects_app _ _ [SockLogout (sock s)]) by done.
    split_and!; try done.
    - split; [done|by intros [? ?]].
    - intros e [He|He]; apply list_elem_of_singleton in He as ->; done. }
  destruct (deleteKeys_throws env (id +:+ ":*")) eqn:Hd; cbn [fst snd].
  - rewrite (new_effects_app st _
               [SockLogout (sock s);
                DeleteKeysWithPattern (authRedis s) (id +:+ ":*")])
      by (proj_red; by rewrite <- app_assoc).
    rewrite (new_effects_app st _
               [SockLogout (sock s);
                DeleteKeysWithPattern (authRedis s) (id +:+ ":*");
                ConsoleWarn "Redis cleanup error"; BroadcastSessionStatus])
      by done.
    split_and!; try done.
    + split; [done|by intros [? ?]].
    + intros _. cbn [sessions sessionTimers]. split_and!; [done|..].
      * apply lookup_delete_eq.
      * rewrite purges_cons_other by done. rewrite purges_cons_purge.
        by rewrite !purges_cons_other.
    + intros e [He|He];
        repeat (apply elem_of_cons in He as [->|He]; [done|]);
        by apply elem_of_nil in He.
  - rewrite !(new_effects_app st _
                [SockLogout (sock s);
                 DeleteKeysWithPattern (authRedis s) (id +:+ ":*");
                 BroadcastSessionStatus]) by done.
    assert (Hp : purges id
                   [SockLogout (sock s);
                    DeleteKeysWithPattern (authRedis s) (id +:+ ":*");
                    BroadcastSessionStatus] = 1%nat).
    { rewrite purges_cons_other by done. rewrite purges_cons_purge.
      by rewrite !purges_cons_other. }
    split_and!; try done.
    + intros _. cbn [sessions sessionTimers]. split_and!; [done| |done].
      apply lookup_delete_eq.
    + intros e [He|He];
        repeat (apply elem_of_cons in He as [->|He]; [done|]);
        by apply elem_of_nil in He.
Qed.

Lemma logout_witness_connected_session :
  let st := Server.run quiet_env initial boot_connected in
  sessions st !! "bot1" = Some connected_record
  ∧ completed (Server.get_logout quiet_env "bot1" st) = true
  ∧ sessions (Server.get_logout quiet_env "bot1" st).2 !! "bot1" = None
  ∧ completed (Server.get_logout dead_transport_env "bot1" st) = false
  ∧ sessions (Server.get_logout dead_transport_env "bot1" st).2 !! "bot1"
    = Some connected_record.
Proof.
  cbv zeta.
  assert (H : sessions (Server.run quiet_env initial boot_connected) !! "bot1"
              = Some connected_record) by (vm_compute; reflexivity).
  destruct (logout_removes_unless_it_throws quiet_env "bot1" _ _ H)
    as (Hq1 & Hq2 & _).
  destruct (logout_removes_unless_it_throws dead_transport_env "bot1" _ _ H)
    as (Hd1 & _ & Hd3 & _).
  assert (Hc : completed
                 (Server.get_logout quiet_env "bot1"
                    (Server.run quiet_env initial boot_connected)) = true)
    by (apply Hq1; split; reflexivity).
  assert (Hn : completed
                 (Server.get_logout dead_transport_env "bot1"
                    (Server.run quiet_env initial boot_connected)) = false)
    by (vm_compute; reflexivity).
  split_and!; [exact H|exact Hc| |exact Hn|].
  - rewrite (proj1 (Hq2 Hc)). apply lookup_delete_eq.
  - by rewrite (Hd3 Hn).
Defined.

Lemma ServerOptimized_killSession_absent env sessionId reason st :
  sessions st !! sessionId = None →
  ServerOptimized.killSession env sessionId reason st = (Returned false, st).
Proof.
  intros H. unfold ServerOptimized.killSession. munfold. cbn beta iota.
  by rewrite H.
Qed.



(** ** Boot: [restoreSessions] *)

Lemma prefix_creds_app id :
  id ≠ "" →
  String.prefix ":creds" (id +:+ ":creds") = true →
  String.prefix ":creds" id = true.
Proof.
  intros Hne.
  destruct id as [|c1 [|c2 [|c3 [|c4 [|c5 [|c6 r]]]]]]; [done|..];
    cbv [String.append String.prefix];
    repeat (destruct (ascii_dec _ _) as [<-|?]; [|done]);
    try first [done | vm_compute; done].
  intros _. by destruct r.
Qed.

(** The id [restoreSessions] derives from the key that holds the
    credentials of a session is the id of that session, provided the id
    does not itself contain [:creds]. *)
Theorem session_id_recovered_from_creds_key id :
  occurs ":creds" id = false →
  remove_first ":creds" (creds_key id) = id.
Proof.
  unfold creds_key. induction id as [|c r IH]; [done|].
  intros Ho. cbn [occurs] in Ho. apply orb_false_iff in Ho as [Hp Ho].
  change (String c r +:+ ":creds") with (String c (r +:+ ":creds")).
  cbn [remove_first].
  destruct (String.prefix ":creds" (String c (r +:+ ":creds"))) eqn:E.
  - change (String c (r +:+ ":creds")) with (String c r +:+ ":creds") in E.
    apply prefix_creds_app in E; [|done]. by rewrite E in Hp.
  - by rewrite IH.
Qed.

Lemma creds_key_witness_bot1 :
  occurs ":creds" "bot1" = false
  ∧ remove_first ":creds" (creds_key "bot1") = "bot1"
  ∧ occurs ":creds" "x:credsy" = true
  ∧ remove_first ":creds" (creds_key "x:credsy") = "xy:creds".
Proof.
  split_and!; [reflexivity| |reflexivity|reflexivity].
  apply (session_id_recovered_from_creds_key "bot1"). reflexivity.
Defined.

Lemma Server_restoreKeys_spec env keys :
  starts_succeed env → undisturbed keys →
  ∀ st,
    (ServerBoot.restoreKeys env keys st).1 = Returned tt
    ∧ timers (ServerBoot.restoreKeys env keys st).2 = timers st
    ∧ (∀ id s, sessions st !! id = Some s →
               sessions (ServerBoot.restoreKeys env keys st).2 !! id = Some s)
    ∧ (∀ id, id ∈ restored_ids keys →
             is_Some (sessions (ServerBoot.restoreKeys env keys st).2 !! id))
    ∧ (∀ id s, sessions (ServerBoot.restoreKeys env keys st).2 !! id = Some s →
               sessions st !! id = Some s ∨ restored_record keys id s).
Proof.
  intros Hok Hq.
  induction keys as [|k rest IH]; intros st.
  { cbn. split_and!; try done; [|by left].
    intros id Hin. by apply elem_of_nil in Hin. }
  apply Forall_cons in Hq as [[Hd _] Hq]. specialize (IH Hq).
  cbn [ServerBoot.restoreKeys]. cbv zeta. unfold getSession.
  rewrite bind_gets.
  set (id0 := remove_first ":creds" (key_name k)).
  assert (Hweak : ∀ id s, restored_record rest id s →
                          restored_record (k :: rest) id s).
  { intros id s (?&?&?&?&?& k' & Hk & ?). split_and!; try done.
    exists k'. split; [by right|done]. }
  destruct (sessions st !! id0) as [s0|] eqn:Hs0.
  - unfold mbind, M_bind, mret, M_ret. cbn beta iota.
    destruct (IH st) as (H1 & H2 & H3 & H4 & H5).
    split_and!; try done.
    + intros id Hin. cbn [restored_ids fmap list_fmap] in Hin.
      apply elem_of_cons in Hin as [->|Hin]; [|by apply H4].
      fold id0. rewrite (H3 id0 s0 Hs0). by eexists.
    + intros id s Hl. destruct (H5 id s Hl) as [?|?]; [by left|right; auto].
  - unfold mbind, M_bind.
    rewrite Server_startSession_spec
      by (by rewrite ?Hs0; try apply starts_succeed_in).
    cbn beta iota. unfold modify. rewrite Hd. cbn [Server.run foldl].
    match goal with
    | |- context [ServerBoot.restoreKeys env rest ?X] => set (st1 := X)
    end.
    destruct (IH st1) as (H1 & H2 & H3 & H4 & H5).
    assert (Hl1 : sessions st1 !! id0
                  = Some (fresh_record (key_now k) None (next_handle st)
                            (S (next_handle st)))).
    { subst st1. cbn [sessions]. apply lookup_insert_eq. }
    split_and!; try done.
    + rewrite H2. subst st1. cbn [timers pairing_timer]. by rewrite app_nil_r.
    + intros id s Hl. apply H3. subst st1. cbn [sessions].
      rewrite lookup_insert_ne; [done|]. intros <-. by rewrite Hs0 in Hl.
    + intros id Hin. cbn [restored_ids fmap list_fmap] in Hin.
      apply elem_of_cons in Hin as [->|Hin]; [|by apply H4].
      fold id0. rewrite (H3 id0 _ Hl1). by eexists.
    + intros id s Hl. destruct (H5 id s Hl) as [Hl'|?]; [|right; auto].
      subst st1. cbn [sessions] in Hl'.
      destruct (decide (id0 = id)) as [<-|Hne].
      * rewrite lookup_insert_eq in Hl'. injection Hl' as <-. right.
        split_and!; try done. exists k. split; [by left|done].
      * rewrite lookup_insert_ne in Hl' by done. by left.
Qed.

(** At boot, when [useRedisAuthState] and [makeWASocket] never throw,
    nothing else is handled meanwhile and no key derives an id that names a
    property of [Object.prototype], server.js registers one record for
    every id derived from the keys the store answers, and nothing else:
    each is waiting for a scan, with no phone number and no pairing timer.
    If the store fails to list the keys, [restoreSessions] fails with the
    registry empty. *)
Theorem Server_restore_registers_every_stored_id env keys :
  starts_succeed env → undisturbed keys →
  let r := ServerBoot.restoreSessions env (Some keys) initial in
  r.1 = Returned tt
  ∧ timers r.2 = []
  ∧ (∀ id, is_Some (sessions r.2 !! id) ↔ id ∈ restored_ids keys)
  ∧ (∀ id s, sessions r.2 !! id = Some s → restored_record keys id s)
  ∧ ServerBoot.restoreSessions env None initial = (Thrown, initial).
Proof.
  intros Hok Hq.
  cbv zeta. unfold ServerBoot.restoreSessions. unfold mbind, M_bind.
  destruct (Server_restoreKeys_spec env keys Hok Hq initial)
    as (H1 & H2 & H3 & H4 & H5).
  destruct (ServerBoot.restoreKeys env keys initial) as [[[]|] st'] eqn:E;
    [|done].
  cbn [fst snd] in *. unfold broadcastSessionStatus, perform, modify.
  cbn [fst snd sessions timers log].
  assert (Hold : ∀ id s, sessions st' !! id = Some s → restored_record keys id s).
  { intros id s Hl. destruct (H5 id s Hl) as [Hi|?]; [|done].
    cbn [initial sessions] in Hi. by rewrite lookup_empty in Hi. }
  split_and!; try done.
  intros id. split; [|by apply H4].
  intros [s Hl]. destruct (Hold id s Hl) as (_&_&_&_&_& k & Hk & _ & <-).
  unfold restored_ids. apply list_elem_of_fmap.
  by exists k.
Qed.

Lemma undisturbed_three_stored_keys : undisturbed three_stored_keys.
Proof. repeat constructor. Qed.

Lemma restore_witness_three_keys :
  starts_succeed quiet_env ∧ undisturbed three_stored_keys
  ∧ ∀ id,
      is_Some (sessions
                 (ServerBoot.restoreSessions quiet_env (Some three_stored_keys)
                    initial).2 !! id)
      ↔ id ∈ ["bot1"; "bot2"; "bot3"].
Proof.
  assert (H1 : starts_succeed quiet_env) by done.
  split_and!; [exact H1|exact undisturbed_three_stored_keys|].
  exact (proj1 (proj2 (proj2
    (Server_restore_registers_every_stored_id quiet_env three_stored_keys H1
       undisturbed_three_stored_keys)))).
Defined.

(** A start that throws ends the restoration: the keys after it are never
    looked at (no key up to it deriving an id that names a property of
    [Object.prototype]).  In server.js [restoreSessions] itself throws (and [main]
    never reaches [listen]); in server-optimized.js the [catch] around the
    loop swallows the error and [restoreSessions] returns as if it were
    done. *)
Theorem restore_stops_at_the_first_failing_start
    env MAX before k after st st1 :
  let id := remove_first ":creds" (key_name k) in
  sessions st1 !! id = None →
  inherited_key id = false →
  Forall (λ k0, inherited_key (remove_first ":creds" (key_name k0)) = false)
    before →
  start_succeeds env st1 = false →
  (ServerBoot.restoreKeys env before st = (Returned tt, st1) →
   ServerBoot.restoreSessions env (Some (before ++ k :: after)) st
   = (Thrown, start_failed env st1))
  ∧ (ServerOptimizedBoot.restoreKeys env MAX before st = (Returned tt, st1) →
     ServerOptimizedBoot.below_max MAX (Z.of_nat (size (sessions st1))) = true →
     ServerOptimized.at_least_max MAX (Z.of_nat (size (sessions st1))) = false →
     ServerOptimizedBoot.restoreSessions env MAX (Some (before ++ k :: after)) st
     = (Returned tt, log BroadcastSessionStatus (start_failed env st1))).
Proof.
  cbv zeta. intros Hs _ _ Hok. split.
  - intros Hb.
    assert (H : ServerBoot.restoreKeys env (before ++ k :: after) st
                = (Thrown, start_failed env st1)).
    { revert st Hb. induction before as [|k0 rest IH]; intros st Hb.
      - cbn in Hb. injection Hb as ->.
        cbn [app ServerBoot.restoreKeys]. cbv zeta. unfold getSession.
        rewrite bind_gets, Hs. unfold mbind, M_bind.
        rewrite Server_startSession_thrown by (by rewrite ?Hs).
        unfold Server_torn_down. by rewrite Hs.
      - cbn [app ServerBoot.restoreKeys] in *. cbv zeta in *.
        unfold getSession in *. rewrite bind_gets in *.
        apply bind_inv in Hb as (a & st0 & Hm & Hb).
        erewrite bind_returned by exact Hm. by apply IH. }
    unfold ServerBoot.restoreSessions, mbind, M_bind. by rewrite H.
  - intros Hb Hbelow Hmax.
    assert (H : ServerOptimizedBoot.restoreKeys env MAX (before ++ k :: after) st
                = (Thrown, start_failed env st1)).
    { revert st Hb. induction before as [|k0 rest IH]; intros st Hb.
      - cbn in Hb. injection Hb as ->.
        cbn [app ServerOptimizedBoot.restoreKeys]. cbv zeta. unfold getSession.
        rewrite bind_gets, Hs, bind_gets, Hbelow.
        rewrite bool_decide_eq_false_2 by (by intros [? ?]).
        cbn [negb andb when]. unfold mbind, M_bind.
        rewrite ServerOptimized_startSession_thrown by (by rewrite ?Hs).
        unfold torn_down. by rewrite Hs.
      - cbn [app ServerOptimizedBoot.restoreKeys] in *. cbv zeta in *.
        unfold getSession in *. rewrite !bind_gets in *.
        apply bind_inv in Hb as (a & st0 & Hm & Hb).
        erewrite bind_returned by exact Hm. by apply IH. }
    unfold ServerOptimizedBoot.restoreSessions, try_catch, mbind, M_bind.
    by rewrite H.
Qed.

Lemma restore_witness_store_goes_down :
  let st1 :=
    (ServerBoot.restoreKeys store_down_env [mkStoredKey "bot1:creds" 0 []]
       initial).2 in
  sessions st1 !! "bot2" = None
  ∧ inherited_key "bot2" = false
  ∧ start_succeeds store_down_env st1 = false
  ∧ (ServerBoot.restoreSessions store_down_env (Some three_stored_keys)
       initial).1 = Thrown
  ∧ sessions
      (ServerBoot.restoreSessions store_down_env (Some three_stored_keys)
         initial).2 !! "bot3" = None.
Proof.
  cbv zeta.
  set (st1 := (ServerBoot.restoreKeys store_down_env
                 [mkStoredKey "bot1:creds" 0 []] initial).2).
  assert (H1 : sessions st1 !! "bot2" = None) by (vm_compute; reflexivity).
  assert (H2 : inherited_key "bot2" = false) by (vm_compute; reflexivity).
  assert (H3 : start_succeeds store_down_env st1 = false)
    by (vm_compute; reflexivity).
  assert (H4 : Forall
                 (λ k0, inherited_key (remove_first ":creds" (key_name k0))
                        = false)
                 [mkStoredKey "bot1:creds" 0 []])
    by (by apply Forall_singleton).
  destruct (restore_stops_at_the_first_failing_start store_down_env None
              [mkStoredKey "bot1:creds" 0 []] (mkStoredKey "bot2:creds" 1500 [])
              [mkStoredKey "bot3:creds" 3000 []] initial st1 H1 H2 H4 H3)
    as [Hs _].
  change ([mkStoredKey "bot1:creds" 0 []]
          ++ mkStoredKey "bot2:creds" 1500 []
             :: [mkStoredKey "bot3:creds" 3000 []])
    with three_stored_keys in Hs.
  rewrite Hs by (vm_compute; reflexivity).
  split_and!; [exact H1|exact H2|exact H3|reflexivity|].
  cbn [snd]. rewrite start_failed_sessions. by vm_compute.
Defined.

(** With [MAX_SESSIONS] unparsable ([NaN]) the two capacity tests of
    server-optimized.js disagree: [restoreSessions] starts no session at
    all, since no count is below [NaN], while [GET /start] admits every new
    id, since no count is at least [NaN] (and registers it when
    [useRedisAuthState] and [makeWASocket] succeed). *)
Theorem unparsable_MAX_SESSIONS_blocks_restore_only env keys st now id phone :
  ServerOptimizedBoot.restoreSessions env None keys st
  = (Returned tt, log BroadcastSessionStatus st)
  ∧ (sessions st !! id = None → inherited_key id = false →
     start_succeeds env st = true →
     sessions (ServerOptimized.get_start env None now id phone st).2 !! id
     = Some (fresh_record now phone (next_handle st) (S (next_handle st)))).
Proof.
  split.
  - assert (H : ∀ ks, ServerOptimizedBoot.restoreKeys env None ks st
                      = (Returned tt, st)).
    { induction ks as [|k rest IH]; [done|].
      cbn [ServerOptimizedBoot.restoreKeys]. cbv zeta.
      unfold getSession. rewrite !bind_gets.
      cbn [ServerOptimizedBoot.below_max].
      rewrite andb_false_r. cbn [when]. exact IH. }
    unfold ServerOptimizedBoot.restoreSessions. munfold. cbn beta iota.
    destruct keys as [ks|]; [by rewrite H|done].
  - intros Hn _ Hok. unfold ServerOptimized.get_start, getSession.
    rewrite bind_gets, Hn.
    rewrite ServerOptimized_startSession_spec; [|by rewrite Hn|done|done].
    unfold started, torn_down. rewrite Hn. cbv zeta. cbn [snd sessions].
    apply lookup_insert_eq.
Qed.

(** ** Shutdown *)

Lemma shutdown_effects_quiet id es :
  Forall shutdown_effect es →
  purges id es = 0%nat.
Proof.
  induction 1 as [|e es He _ IH]; [done|].
  rewrite purges_cons_other; [done|].
  by destruct He as [[h ->]|[[h ->]|[m ->]]].
Qed.

Lemma Server_endAll_spec env entries :
  ∀ st, ∃ es,
    ServerBoot.endAll env entries st
    = (Returned tt,
       mkState (sessions st) (sessionTimers st) (listeners st) (timers st)
         (next_handle st) (next_timer st) (effects st ++ es))
    ∧ Forall shutdown_effect es
    ∧ (∀ id s, (id, s) ∈ entries → SockEnd (sock s) ∈ es).
Proof.
  induction entries as [|[id0 s0] rest IH]; intros st.
  { exists []. cbn. rewrite app_nil_r. split_and!; [by destruct st|done|].
    intros id s Hin. by apply elem_of_nil in Hin. }
  cbn [ServerBoot.endAll]. munfold. cbn beta iota.
  destruct (end_throws env (sock s0)); cbn beta iota.
  - destruct (IH (log (ConsoleWarn "Error closing session")
                    (log (SockEnd (sock s0)) st))) as (es & -> & Hall & Hin).
    exists (SockEnd (sock s0) :: ConsoleWarn "Error closing session" :: es).
    split_and!.
    + state_eq; reflexivity.
    + constructor; [left; eauto|]. constructor; [right; right; eauto|done].
    + intros id s Hm. apply elem_of_cons in Hm as [Heq|Hm].
      * injection Heq as -> ->. by left.
      * do 2 right. by apply (Hin id s).
  - destruct (IH (log (SockEnd (sock s0)) st)) as (es & -> & Hall & Hin).
    exists (SockEnd (sock s0) :: es).
    split_and!.
    + state_eq; reflexivity.
    + constructor; [left; eauto|done].
    + intros id s Hm. apply elem_of_cons in Hm as [Heq|Hm].
      * injection Heq as -> ->. by left.
      * right. by apply (Hin id s).
Qed.

Lemma ServerOptimized_shutdown_one env id0 s0 st :
  ∃ st1,
    try_catch
      (ServerOptimized.clearSessionTimers id0;;
       ServerOptimized.cleanupSessionSocket env (sock s0))
      (consoleWarn "Error closing session") st
    = (Returned tt, st1)
    ∧ sessions st1 = sessions st
    ∧ sessionTimers st1 = delete id0 (sessionTimers st)
    ∧ effects st1 = effects st ++ cleanup_effects env (sock s0).
Proof.
  unfold ServerOptimized.clearSessionTimers.
  unfold try_catch, mbind at 1, M_bind at 1.
  munfold. cbn beta iota.
  destruct (sessionTimers st !! id0) as [ts|] eqn:Ht; cbn beta iota;
    rewrite ServerOptimized_cleanupSessionSocket_spec;
    eexists; (split; [reflexivity|]); proj_red;
    rewrite ?(delete_id _ _ Ht); done.
Qed.

Lemma cleanup_effects_shutdown env h : Forall shutdown_effect (cleanup_effects env h).
Proof.
  unfold cleanup_effects. constructor; [right; left; eauto|].
  destruct (_ || _).
  - apply Forall_singleton. right. right. eauto.
  - constructor; [left; eauto|]. destruct (end_throws env h); [|done].
    apply Forall_singleton. right. right. eauto.
Qed.

Lemma ServerOptimized_endAll_spec env entries :
  ∀ st, ∃ st',
    ServerOptimizedBoot.endAll env entries st = (Returned tt, st')
    ∧ sessions st' = sessions st
    ∧ effects st'
      = effects st ++ entries ≫= (λ e, cleanup_effects env (sock e.2))
    ∧ (∀ id, sessionTimers st !! id = None → sessionTimers st' !! id = None)
    ∧ (∀ id s, (id, s) ∈ entries → sessionTimers st' !! id = None).
Proof.
  induction entries as [|[id0 s0] rest IH]; intros st.
  { exists st. cbn. rewrite app_nil_r. split_and!; try done.
    intros id s Hin. by apply elem_of_nil in Hin. }
  cbn [ServerOptimizedBoot.endAll].
  destruct (ServerOptimized_shutdown_one env id0 s0 st)
    as (st1 & Hone & Hs1 & Ht1 & He1).
  set (body := try_catch _ _) in *.
  unfold mbind, M_bind. rewrite Hone.
  destruct (IH st1) as (st' & -> & Hs & He & Hkeep & Hin).
  exists st'. split_and!; [reflexivity|congruence| | |].
  - rewrite He, He1, <- app_assoc. reflexivity.
  - intros id Hn. apply Hkeep. rewrite Ht1.
    destruct (decide (id0 = id)) as [->|?];
      [apply lookup_delete_eq|by rewrite lookup_delete_ne].
  - intros id s Hm. apply elem_of_cons in Hm as [Heq|Hm].
    + injection Heq as -> ->. apply Hkeep. rewrite Ht1. apply lookup_delete_eq.
    + by apply (Hin id s).
Qed.

(** The [SIGINT] handlers always run to their end, whatever the sockets
    answer; they leave the registry as it is and never purge credential
    material, so every session is found again by [restoreSessions] at the
    next boot.  The handler of server.js calls [end] on the socket of every
    registered record.  The handler of server-optimized.js drops the timer
    table of every registered id and removes the listeners of its socket,
    and calls [end] on it exactly when neither [removeAllListeners] call
    throws. *)
Theorem shutdown_always_completes_and_keeps_credentials env st :
  let r := ServerBoot.on_SIGINT env st in
  let ro := ServerOptimizedBoot.on_SIGINT env st in
  r.1 = Returned tt
  ∧ sessions r.2 = sessions st
  ∧ ro.1 = Returned tt
  ∧ sessions ro.2 = sessions st
  ∧ (∀ id s, sessions st !! id = Some s →
             SockEnd (sock s) ∈ new_effects st r.2
             ∧ (inherited_key id = false →
                sessionTimers ro.2 !! id = None
                ∧ SockRemoveAllListeners (sock s) ∈ new_effects st ro.2
                ∧ (SockEnd (sock s) ∈ new_effects st ro.2
                   ↔ ev_removeAllListeners_throws env (sock s) = false
                     ∧ removeAllListeners_throws env (sock s) = false)))
  ∧ (∀ id, purges id (new_effects st r.2) = 0%nat
           ∧ purges id (new_effects st ro.2) = 0%nat).
Proof.
  cbv zeta. unfold ServerBoot.on_SIGINT, ServerOptimizedBoot.on_SIGINT.
  munfold. cbn beta iota.
  destruct (Server_endAll_spec env (map_to_list (sessions st)) st)
    as (es & -> & Hall & Hin).
  destruct (ServerOptimized_endAll_spec env (map_to_list (sessions st)) st)
    as (st' & -> & Hs & He & _ & Hino).
  cbn [fst snd sessions].
  rewrite (new_effects_app st _ es) by done.
  rewrite (new_effects_app st st' _ He).
  split_and!; try done.
  - intros id s Hl. apply elem_of_map_to_list in Hl.
    split; [by apply (Hin id s)|]. intros _.
    split_and!; [by apply (Hino id s)| |].
    + apply list_elem_of_bind. exists (id, s).
      split; [|done]. unfold cleanup_effects. by left.
    + split.
      * intros Hm. apply list_elem_of_bind in Hm as ([id' s'] & Hm & _).
        apply SockEnd_in_cleanup_effects in Hm as (Heq & ? & ?).
        cbn [snd] in *. by rewrite Heq.
      * intros [? ?]. apply list_elem_of_bind. exists (id, s).
        split; [|done]. by apply SockEnd_in_cleanup_effects.
  - intros id. split; apply shutdown_effects_quiet; [done|].
    apply Forall_forall. intros e Hm.
    apply list_elem_of_bind in Hm as ([id' s'] & Hm & _).
    by apply (proj1 (Forall_forall _ _) (cleanup_effects_shutdown env (sock s'))).
Qed.

(** ** Expiry information *)

(** [getExpireInfo] and the [expiresInMs] of a [GET /status] row report the
    same remaining time.  For a pending record it is never negative, at most
    two minutes after creation, and zero from the moment the record is two
    minutes old; the sweep only takes a record strictly older than that, so
    a record still reported with time left is never swept at that instant.
    A record that is not pending, and an absent one, report [null]. *)
Theorem expiry_information_is_consistent tr now id s :
  let info := getExpireInfo now (Some s) in
  row_expiresInMs (statusRow tr now (id, s)) = expiresInMs info
  ∧ getExpireInfo now None = mkExpireInfo None None
  ∧ (String.prefix "pending" (status s) = false →
     info = mkExpireInfo None None ∧ expired now s = false)
  ∧ (String.prefix "pending" (status s) = true →
     expiresAt info = Some (createdAt s + 120000)
     ∧ ∃ ms, expiresInMs info = Some ms
             ∧ 0 ≤ ms
             ∧ (createdAt s ≤ now → ms ≤ 120000)
             ∧ (ms = 0 ↔ createdAt s + 120000 ≤ now)
             ∧ (expired now s = true ↔ createdAt s + 120000 < now)
             ∧ (0 < ms → expired now s = false)).
Proof.
  cbv zeta. unfold getExpireInfo, expired, PENDING_EXPIRE_MS.
  cbn [statusRow row_expiresInMs].
  destruct (String.prefix "pending" (status s)); cbn [expiresInMs expiresAt];
    split_and!; try done.
  - do 2 f_equal. unfold PENDING_EXPIRE_MS. lia.
  - intros _. split; [f_equal; lia|].
    eexists. split; [reflexivity|]. cbn [andb].
    split_and!; lia.
Qed.

(** ** [POST /send-message] *)

(** The pause before a message is sent lasts between one and a half and
    four seconds, grows with the length of the message, and is at either
    bound for messages of at most 25 and of at least 67 characters. *)
Theorem typing_delay_is_bounded m m' :
  1500 ≤ typingDelay m ≤ 4000
  ∧ ((String.length m ≤ 25)%nat → typingDelay m = 1500)
  ∧ ((67 ≤ String.length m)%nat → typingDelay m = 4000)
  ∧ ((25 ≤ String.length m ≤ 66)%nat →
     typingDelay m = 60 * Z.of_nat (String.length m))
  ∧ ((String.length m ≤ String.length m')%nat →
     typingDelay m ≤ typingDelay m').
Proof. unfold typingDelay. split_and!; lia. Qed.

Ltac req_unfold :=
  unfold post_send_message, sendPresenceUpdate, sendMessage, Req_try,
    Req_bind, Req_ret, Req_throw, act, body_target, jid_of in *.

(** On a body all of whose fields are strings and an id that does not
    name a property of [Object.prototype], the route is
    [post_send_message]. *)
Lemma send_message_route_strings tr st body number :
  body_number body = Some number →
  (∀ id, body_target body = Some id → inherited_key id = false) →
  send_message_route tr st (body_sessionId body) (body_session_id body)
    (FString number) (body_message body)
  = post_send_message tr st body.
Proof.
  intros Hn Hk. unfold send_message_route, post_send_message. rewrite Hn.
  cbv zeta. fold (body_target body). cbn [field_truthy].
  destruct (truthy (body_target body)) eqn:Ht; [|done].
  destruct (body_target body) as [id|] eqn:E; [|done].
  cbn [default from_option Datatypes.id]. unfold looked_up.
  rewrite (Hk id eq_refl). by destruct (sessions st !! id).
Qed.

(** [POST /send-message], for a body whose session id and message are
    strings or absent, always answers, with 200, 400, 404 or 500.  It
    touches the transport only for a registered record that is connected
    and has a user; a 400 or 404 answer means nothing was done, and 404
    that the registry has nothing under the id, not even an inherited
    value.  When [number] is a string, the first action is the typing
    indicator for the digits of the number, a 200 answer means the whole
    sequence ran (typing indicator, pause, message, end of typing,
    notification), and a 500 answer ends with the error notification.
    When [number] is another truthy value, the answer is 500 and the error
    notification is all that was done. *)
Theorem send_message_outcomes tr st sessionId session_id number message :
  ∃ reply actions,
    send_message_route tr st sessionId session_id number message []
    = (Returned reply, actions)
    ∧ (reply_status reply = 200 ∨ reply_status reply = 400
       ∨ reply_status reply = 404 ∨ reply_status reply = 500)
    ∧ (reply_status reply = 400 ∨ reply_status reply = 404 → actions = [])
    ∧ (reply_status reply = 404 →
       ∃ id, or_else sessionId session_id = Some id
             ∧ sessions st !! id = None ∧ inherited_key id = false)
    ∧ (actions ≠ [] →
       ∃ id session text,
         or_else sessionId session_id = Some id
         ∧ message = Some text
         ∧ sessions st !! id = Some session
         ∧ status session = "connected"
         ∧ is_Some (user_id tr (sock session))
         ∧ match number with
           | FString n =>
               head actions
               = Some (SendPresenceUpdate (sock session) "composing"
                         (jid_of n))
               ∧ (reply_status reply = 200 →
                  ∃ mid,
                    reply_messageId reply = Some mid
                    ∧ actions
                      = [SendPresenceUpdate (sock session) "composing"
                           (jid_of n);
                         Delay (typingDelay text);
                         SendMessage (sock session) (jid_of n) text;
                         SendPresenceUpdate (sock session) "paused" (jid_of n);
                         Emit id "message:sent" mid])
               ∧ (reply_status reply = 500 →
                  last actions = Some (Emit id "message:error" "")
                  ∧ reply_messageId reply = None)
           | _ =>
               reply = mkSendReply 500 "" None
               ∧ actions = [Emit id "message:error" ""]
           end).
Proof.
  unfold send_message_route, jid_of. cbv zeta.
  set (target := or_else sessionId session_id).
  destruct (truthy target) eqn:Ht; cbn [negb orb];
    [|eexists _, _; split; [reflexivity|]; cbn; split_and!; auto; done].
  destruct (field_truthy number) eqn:Hn; cbn [negb orb];
    [|eexists _, _; split; [reflexivity|]; cbn; split_and!; auto; done].
  destruct (truthy message) eqn:Hm; cbn [negb orb];
    [|eexists _, _; split; [reflexivity|]; cbn; split_and!; auto; done].
  destruct target as [id|] eqn:Etarget; [|done].
  destruct message as [text|] eqn:Emessage; [|done].
  cbn [default from_option Datatypes.id]. unfold looked_up.
  destruct (sessions st !! id) as [session|] eqn:Hs.
  2:{ destruct (inherited_key id) eqn:Hk;
        eexists _, _; (split; [reflexivity|]); cbn; split_and!; auto;
        try done.
      intros _. by exists id. }
  destruct (String.eqb_spec (status session) "connected") as [Hc|Hc];
    cbn [negb orb];
    [|eexists _, _; split; [reflexivity|]; cbn; split_and!; auto; done].
  destruct (user_id tr (sock session)) as [u|] eqn:Hu; cbn [negb orb].
  2:{ rewrite bool_decide_eq_false_2 by (by intros [? ?]). cbn [negb].
      eexists _, _; split; [reflexivity|]; cbn; split_and!; auto; done. }
  rewrite bool_decide_eq_true_2 by eauto. cbn [negb app].
  assert (Hfin : ∀ reply (actions : list SendAction)
                   (P : string → Session → string → Prop),
            (reply_status reply = 200 ∨ reply_status reply = 500) →
            P id session text →
            (reply_status reply = 200 ∨ reply_status reply = 400
             ∨ reply_status reply = 404 ∨ reply_status reply = 500)
            ∧ (reply_status reply = 400 ∨ reply_status reply = 404 →
               actions = [])
            ∧ (reply_status reply = 404 →
               ∃ id0, Some id = Some id0 ∧ sessions st !! id0 = None
                      ∧ inherited_key id0 = false)
            ∧ (actions ≠ [] →
               ∃ id0 session0 text0,
                 Some id = Some id0 ∧ Some text = Some text0
                 ∧ sessions st !! id0 = Some session0
                 ∧ status session0 = "connected"
                 ∧ is_Some (user_id tr (sock session0))
                 ∧ P id0 session0 text0)).
  { intros reply actions P Hst HP. split_and!.
    - destruct Hst; auto.
    - intros [E|E]; destruct Hst as [E'|E']; rewrite E in E'; done.
    - intros E. destruct Hst as [E'|E']; rewrite E in E'; done.
    - intros _. exists id, session, text. rewrite Hu. split_and!; eauto. }
  destruct number as [n| |]; [| |done].
  2:{ unfold Req_try, Req_throw, Req_bind, act, Req_ret. cbn [app].
      eexists _, _. split; [reflexivity|].
      apply (Hfin _ _ (λ id0 _ _,
                         mkSendReply 500 "" None = mkSendReply 500 "" None
                         ∧ [Emit id "message:error" ""]
                           = [Emit id0 "message:error" ""]));
        cbn; auto. }
  unfold sendPresenceUpdate, sendMessage, Req_try, Req_bind, Req_ret,
    Req_throw, act. cbn [app].
  destruct (presence_throws tr (sock session) "composing" _) eqn:Hp1.
  { eexists _, _. split; [reflexivity|].
    apply (Hfin _ _ (λ id0 session0 text0, _ ∧ _ ∧ _)); cbn; auto.
    split_and!; [done|done|by intros _]. }
  cbn [app].
  destruct (message_id_of tr (sock session) _ text) as [mid|] eqn:Hmid.
  2:{ eexists _, _. split; [reflexivity|].
      apply (Hfin _ _ (λ id0 session0 text0, _ ∧ _ ∧ _)); cbn; auto.
      split_and!; [done|done|by intros _]. }
  cbn [app].
  destruct (presence_throws tr (sock session) "paused" _) eqn:Hp2.
  { eexists _, _. split; [reflexivity|].
    apply (Hfin _ _ (λ id0 session0 text0, _ ∧ _ ∧ _)); cbn; auto.
    split_and!; [done|done|by intros _]. }
  eexists _, _. split; [reflexivity|].
  apply (Hfin _ _ (λ id0 session0 text0, _ ∧ _ ∧ _)); cbn; auto.
  split_and!; [done| |done]. intros _. by exists mid.
Qed.

(** A body whose [number] is the JSON number 15550100, for a connected
    session: nothing reaches the transport, the error notification is sent
    and the answer is 500. *)
Lemma send_message_witness_numeric_number :
  let st := Server.run quiet_env initial boot_connected in
  sessions st !! "bot1" = Some connected_record
  ∧ send_message_route flaky_presence st (Some "bot1") None FTruthy
      (Some "hi") []
    = (Returned (mkSendReply 500 "" None), [Emit "bot1" "message:error" ""]).
Proof.
  cbv zeta.
  assert (H : sessions (Server.run quiet_env initial boot_connected) !! "bot1"
              = Some connected_record) by (vm_compute; reflexivity).
  split; [exact H|].
  destruct (send_message_outcomes flaky_presence
              (Server.run quiet_env initial boot_connected)
              (Some "bot1") None FTruthy (Some "hi"))
    as (reply & actions & Hrun & _ & _ & _ & Hact).
  rewrite Hrun.
  assert (Hne : actions ≠ []).
  { intros ->. revert Hrun. vm_compute. discriminate. }
  destruct (Hact Hne) as (id & session & text & Hid & _ & _ & _ & _ & -> & ->).
  by injection Hid as <-.
Defined.


(** A 500 answer does not mean the message was not sent.  When the message
    goes out and the presence update that ends the typing indicator throws,
    the handler answers 500 and notifies [message:error]; [message:sent] is
    never notified although the recipient has the message. *)
Theorem send_message_can_fail_after_delivery
    tr st body id session number message mid :
  body_target body = Some id → truthy (Some id) = true →
  body_number body = Some number → truthy (Some number) = true →
  body_message body = Some message → truthy (Some message) = true →
  sessions st !! id = Some session →
  status session = "connected" →
  is_Some (user_id tr (sock session)) →
  presence_throws tr (sock session) "composing" (jid_of number) = false →
  message_id_of tr (sock session) (jid_of number) message = Some mid →
  presence_throws tr (sock session) "paused" (jid_of number) = true →
  post_send_message tr st body []
  = (Returned (mkSendReply 500 "" None),
     [SendPresenceUpdate (sock session) "composing" (jid_of number);
      Delay (typingDelay message);
      SendMessage (sock session) (jid_of number) message;
      SendPresenceUpdate (sock session) "paused" (jid_of number);
      Emit id "message:error" ""]).
Proof.
  intros Ht Ht' Hn Hn' Hm Hm' Hs Hc Hu Hp1 Hmid Hp2.
  req_unfold. cbv zeta. fold (or_else (body_sessionId body) (body_session_id body)).
  rewrite Ht, Hn, Hm, Ht', Hn', Hm'. cbn [negb orb default from_option Datatypes.id].
  rewrite Hs, Hc. rewrite bool_decide_eq_true_2 by done.
  change ("connected" =? "connected")%string with true. cbn [negb orb app].
  rewrite Hp1. cbn [app]. rewrite Hmid. cbn [app]. rewrite Hp2. reflexivity.
Qed.

Lemma send_message_witness_paused_fails :
  let st := Server.run quiet_env initial boot_connected in
  let body := mkSendBody None (Some "bot1") (Some "+1 (555) 0100") (Some "hi") in
  body_target body = Some "bot1"
  ∧ sessions st !! "bot1" = Some connected_record
  ∧ jid_of "+1 (555) 0100" = "15550100@s.whatsapp.net"
  ∧ post_send_message flaky_presence st body []
    = (Returned (mkSendReply 500 "" None),
       [SendPresenceUpdate 1 "composing" "15550100@s.whatsapp.net";
        Delay 1500;
        SendMessage 1 "15550100@s.whatsapp.net" "hi";
        SendPresenceUpdate 1 "paused" "15550100@s.whatsapp.net";
        Emit "bot1" "message:error" ""]).
Proof.
  cbv zeta.
  assert (H : sessions (Server.run quiet_env initial boot_connected) !! "bot1"
              = Some connected_record) by (vm_compute; reflexivity).
  split_and!; [reflexivity|exact H|reflexivity|].
  exact (send_message_can_fail_after_delivery flaky_presence _
           (mkSendBody None (Some "bot1") (Some "+1 (555) 0100") (Some "hi"))
           "bot1" connected_record "+1 (555) 0100" "hi" "MSG1"
           eq_refl eq_refl eq_refl eq_refl eq_refl eq_refl H eq_refl
           (ex_intro _ _ eq_refl) eq_refl eq_refl eq_refl).
Defined.

(** ** Numbers *)

Lemma digitsOnly_only s : onlyDigits (digitsOnly s) = true.
Proof.
  induction s as [|c r IH]; [done|]. cbn [digitsOnly].
  destruct (isDigit c) eqn:E; [|done]. cbn [onlyDigits]. by rewrite E.
Qed.

Lemma digitsOnly_id s : onlyDigits s = true → digitsOnly s = s.
Proof.
  induction s as [|c r IH]; [done|]. cbn [onlyDigits digitsOnly].
  intros [-> H]%andb_true_iff. by rewrite IH.
Qed.

(** What the code hands to [sock.requestPairingCode] and puts before
    [@s.whatsapp.net] holds only decimal digits, those of the input in their
    order: stripping is the identity on a string of digits, does nothing
    the second time, and distributes over concatenation. *)
Theorem digitsOnly_keeps_exactly_the_digits s t :
  onlyDigits (digitsOnly s) = true
  ∧ (onlyDigits s = true ↔ digitsOnly s = s)
  ∧ digitsOnly (digitsOnly s) = digitsOnly s
  ∧ digitsOnly (s +:+ t) = digitsOnly s +:+ digitsOnly t
  ∧ (String.length (digitsOnly s) ≤ String.length s)%nat.
Proof.
  split_and!.
  - apply digitsOnly_only.
  - split; [apply digitsOnly_id|]. intros <-. apply digitsOnly_only.
  - apply digitsOnly_id, digitsOnly_only.
  - induction s as [|c r IH]; [done|].
    change (String c r +:+ t) with (String c (r +:+ t)). cbn [digitsOnly].
    rewrite IH. by destruct (isDigit c).
  - induction s as [|c r IH]; [done|]. cbn [digitsOnly].
    destruct (isDigit c); cbn [String.length]; lia.
Qed.

(** ** Names of the disconnect reasons *)

Lemma prefix_app s t : String.prefix s (s +:+ t) = true.
Proof.
  induction s as [|c r IH]; [by destruct t|].
  change (String c r +:+ t) with (String c (r +:+ t)). cbn [String.prefix].
  by destruct (ascii_dec c c).
Qed.

Ltac crack_code p :=
  destruct p as [p|p|]; try reflexivity; try (exfalso; congruence).

Lemma getDisconnectReasonName_unlisted z :
  z ≠ 428 → z ≠ 408 → z ≠ 440 → z ≠ 500 → z ≠ 401 → z ≠ 515 → z ≠ 411 →
  z ≠ 403 → z ≠ 503 →
  ServerOptimized.getDisconnectReasonName (Some z)
  = "unknown(" +:+ pretty z +:+ ")".
Proof.
  intros. unfold ServerOptimized.getDisconnectReasonName.
  destruct z as [|p|p]; try reflexivity.
  do 10 (try crack_code p).
Qed.

(** The table of [getDisconnectReasonName] and the conditions of the close
    handler of server-optimized.js cover the same codes: a code has a name
    in the table exactly when the handler classifies it, so the reason of a
    kill after a terminal close is [terminal_] followed by one of five
    names, and [unknown(...)] names exactly the codes the handler only
    logs. *)
Theorem disconnect_reason_names_match_the_classification code :
  let name := ServerOptimized.getDisconnectReasonName code in
  (classify code = unknown ↔ String.prefix "unknown(" name = true)
  ∧ (classify code = terminal ↔
     name ∈ ["loggedOut"; "badSession"; "forbidden"; "multideviceMismatch";
             "connectionReplaced"])
  ∧ (classify code = transient ↔
     name ∈ ["connectionLost"; "connectionClosed"; "unavailableService"])
  ∧ (classify code = restart_required ↔ name = "restartRequired").
Proof.
  cbv zeta.
  assert (Hnot : ∀ (x : string) l,
            String.prefix "unknown(" x = true →
            Forall (λ y, String.prefix "unknown(" y = false) l → x ∉ l).
  { intros x l Hx Hl Hin.
    rewrite (proj1 (Forall_forall _ _) Hl x Hin) in Hx. done. }
  assert (Hunk : ∀ name,
            classify code = unknown →
            String.prefix "unknown(" name = true →
            (classify code = unknown ↔ String.prefix "unknown(" name = true)
            ∧ (classify code = terminal ↔
               name ∈ ["loggedOut"; "badSession"; "forbidden";
                       "multideviceMismatch"; "connectionReplaced"])
            ∧ (classify code = transient ↔
               name ∈ ["connectionLost"; "connectionClosed";
                       "unavailableService"])
            ∧ (classify code = restart_required ↔ name = "restartRequired")).
  { intros name -> Hp. split_and!; split; try done.
    - intros H. exfalso. revert H. apply Hnot; [done|]. repeat constructor.
    - intros H. exfalso. revert H. apply Hnot; [done|]. repeat constructor.
    - intros ->. done. }
  destruct code as [z|]; [|by apply Hunk].
  destruct (decide (z ∈ [428; 408; 440; 500; 401; 515; 411; 403; 503]))
    as [Hin|Hout].
  - repeat (apply elem_of_cons in Hin as [->|Hin];
            [apply (bool_decide_unpack _); vm_compute; exact I|]).
    by apply elem_of_nil in Hin.
  - assert (Hne : ∀ k, k ∈ [428; 408; 440; 500; 401; 515; 411; 403; 503] →
                       z ≠ k) by (by intros k Hk ->).
    rewrite getDisconnectReasonName_unlisted
      by (apply Hne; repeat first [by left | right]).
    apply Hunk; [|apply prefix_app].
    unfold classify, code_is. unfold_reasons.
    rewrite !(proj2 (Z.eqb_neq z _))
      by (apply Hne; repeat first [by left | right]).
    reflexivity.
Qed.

(** ** The cross-origin policy of server-optimized.js *)

Lemma no_comma_app s t : no_comma (s ++ t) = no_comma s && no_comma t.
Proof. apply forallb_app. Qed.

Lemma no_comma_rev s : no_comma (rev s) = no_comma s.
Proof.
  induction s as [|c r IH]; [done|]. cbn [rev]. rewrite no_comma_app, IH.
  cbn. rewrite andb_true_r. apply andb_comm.
Qed.

Lemma no_comma_trimStart s : no_comma s = true → no_comma (trimStart s) = true.
Proof.
  induction s as [|c r IH]; [done|]. cbn [trimStart].
  destruct (isWhiteSpace c); [|done].
  intros [_ H]%andb_true_iff. by apply IH.
Qed.

Lemma no_comma_trim s : no_comma s = true → no_comma (trim s) = true.
Proof.
  intros H. unfold trim. rewrite no_comma_rev. apply no_comma_trimStart.
  rewrite no_comma_rev. by apply no_comma_trimStart.
Qed.

Lemma no_comma_split_go cur s :
  no_comma cur = true →
  Forall (λ p, no_comma p = true) (split_comma_go cur s).
Proof.
  revert cur. induction s as [|c r IH]; intros cur Hc; cbn [split_comma_go].
  { apply Forall_singleton. by rewrite no_comma_rev. }
  destruct (c =? comma)%N eqn:E.
  - constructor; [by rewrite no_comma_rev|]. by apply IH.
  - apply IH. unfold no_comma in *. cbn [forallb]. by rewrite E, Hc.
Qed.

Lemma starts_with_space_trimStart s : starts_with_space (trimStart s) = false.
Proof.
  induction s as [|c r IH]; [done|]. cbn [trimStart].
  destruct (isWhiteSpace c) eqn:E; [done|]. cbn. done.
Qed.

(** Trimming the front of a string that does not end with white space
    leaves a string that does not end with white space. *)
Lemma ends_with_space_trimStart s :
  ends_with_space s = false → ends_with_space (trimStart s) = false.
Proof.
  unfold ends_with_space.
  induction s as [|c r IH]; [done|]. cbn [trimStart].
  destruct (isWhiteSpace c) eqn:E; [|done].
  intros H. apply IH. revert H. cbn [rev].
  destruct (rev r) as [|x l]; [|done].
  cbn. by rewrite E.
Qed.

Lemma trim_is_trimmed s :
  starts_with_space (trim s) = false ∧ ends_with_space (trim s) = false.
Proof.
  unfold trim. split.
  - change (ends_with_space (trimStart (rev (trimStart s))) = false).
    apply ends_with_space_trimStart. unfold ends_with_space.
    rewrite rev_involutive. apply starts_with_space_trimStart.
  - unfold ends_with_space. rewrite rev_involutive.
    apply starts_with_space_trimStart.
Qed.

(** Outside production every origin is allowed.  In production a request
    without an [Origin] header is allowed, and one with a header only if
    the header is one of the comma-separated entries of [CORS_ORIGIN]
    stripped of surrounding white space: never an origin that contains a
    comma or has white space at either end, and no origin at all when
    [CORS_ORIGIN] is unset or empty. *)
Theorem cors_policy_fails_closed_in_production cfg origin :
  cors_origin false cfg origin = true
  ∧ (nonempty origin = false → cors_origin true cfg origin = true)
  ∧ (nonempty origin = true → nonempty cfg = false →
     cors_origin true cfg origin = false)
  ∧ (nonempty origin = true →
     (cors_origin true cfg origin = true
      ↔ default [] origin ∈ allowedOrigins cfg))
  ∧ (nonempty origin = true → cors_origin true cfg origin = true →
     no_comma (default [] origin) = true
     ∧ starts_with_space (default [] origin) = false
     ∧ ends_with_space (default [] origin) = false).
Proof.
  unfold cors_origin. cbn [negb].
  assert (Hiff : nonempty origin = true →
            ((if negb (nonempty origin) then true
              else if bool_decide (default [] origin ∈ allowedOrigins cfg)
                   then true else false) = true
             ↔ default [] origin ∈ allowedOrigins cfg)).
  { intros ->. cbn [negb]. case_bool_decide; split; done. }
  split_and!; [done|by intros ->| |done|].
  - intros Ho Hc. rewrite Ho. cbn [negb].
    unfold allowedOrigins. rewrite Hc.
    rewrite bool_decide_eq_false_2; [done|].
    cbn. intros H. apply list_elem_of_singleton in H.
    destruct origin as [[|c r]|]; done.
  - intros Ho Ha. apply (Hiff Ho) in Ha. unfold allowedOrigins in Ha.
    apply list_elem_of_fmap in Ha as (piece & -> & Hin).
    destruct (trim_is_trimmed piece) as [H1 H2].
    split_and!; [|done|done].
    apply no_comma_trim.
    exact (proj1 (Forall_forall _ _)
             (no_comma_split_go [] _ eq_refl) piece Hin).
Qed.

(** An entry of [CORS_ORIGIN] padded with no-break spaces (U+00A0) is
    stripped like one padded with spaces; of two origins that differ only
    in such padding, the bare one is allowed and the padded one is not. *)
Lemma cors_witness_no_break_space :
  let cfg := Some [160; 97; 46; 98; 160; 44; 32; 99; 46; 100]%N in
  allowedOrigins cfg = [[97; 46; 98]; [99; 46; 100]]%N
  ∧ cors_origin true cfg (Some [97; 46; 98]%N) = true
  ∧ cors_origin true cfg (Some [160; 97; 46; 98; 160]%N) = false
  ∧ isWhiteSpace 8202 = true ∧ isWhiteSpace 8203 = false
  ∧ isWhiteSpace 65279 = true
  ∧ no_comma [97; 46; 98]%N = true.
Proof.
  cbv zeta.
  pose proof (cors_policy_fails_closed_in_production
                (Some [160; 97; 46; 98; 160; 44; 32; 99; 46; 100]%N)
                (Some [97; 46; 98]%N)) as (_ & _ & _ & _ & H).
  split_and!; [vm_compute; reflexivity..|].
  apply H; vm_compute; reflexivity.
Defined.

(** ** Waiting for session data *)



(** ** More of the lifecycle *)

(** In server.js the last [if] of the close block is not chained to the
    ones before it: its [else], a restart after three seconds, runs for
    every code but 503, on top of what the branch of the code did.  A
    transient close that stays under the limit therefore schedules two
    restarts. *)
Theorem Server_close_also_schedules_a_late_restart env id phone s code st :
  code_is code DisconnectReason.unavailableService = false →
  let r := Server.onClose env id phone s code st in
  completed r = true →
  last (timers r.2)
  = Some (mkTimer (pred (next_timer r.2)) 3000 (RestartIfPresent id phone))
  ∧ (classify code = transient → reconnectAttempts s + 1 ≤ 5 →
     timers r.2
     = timers st
       ++ [mkTimer (next_timer st)
             (Z.min ((reconnectAttempts s + 1) * 2000) 10000)
             (RestartIfPresent id phone);
           mkTimer (S (next_timer st)) 3000 (RestartIfPresent id phone)]).
Proof.
  intros H503. cbv zeta. unfold Server.onClose. rewrite H503. cbv zeta.
  match goal with
  | |- context [mbind _ ?m] => set (branch := m)
  end.
  intros Hdone. split.
  - revert Hdone. unfold completed, mbind, M_bind.
    destruct (branch st) as [[[]|] st1]; [|done]. intros _.
    munfold. cbn beta iota. proj_red. by rewrite last_snoc.
  - intros Hc Hle. subst branch.
    destruct (classify_transient code Hc) as [->|[->| ->]]; try done;
      eval_codes; destruct (Z.leb_spec (reconnectAttempts s + 1) 5);
      try lia; munfold; mred; reflexivity.
Qed.

Lemma close_witness_two_restarts :
  let st := Server.run quiet_env initial boot_connected in
  let r := Server.onClose quiet_env "bot1" None connected_record (Some 408) st in
  code_is (Some 408) DisconnectReason.unavailableService = false
  ∧ completed r = true
  ∧ timers r.2
    = [mkTimer 0 2000 (RestartIfPresent "bot1" None);
       mkTimer 1 3000 (RestartIfPresent "bot1" None)].
Proof.
  cbv zeta.
  assert (Hc : completed
                 (Server.onClose quiet_env "bot1" None connected_record
                    (Some 408) (Server.run quiet_env initial boot_connected))
               = true) by (vm_compute; reflexivity).
  destruct (Server_close_also_schedules_a_late_restart quiet_env "bot1" None
              connected_record (Some 408)
              (Server.run quiet_env initial boot_connected) eq_refl Hc)
    as [_ H].
  split_and!; [reflexivity|exact Hc|].
  rewrite H; [reflexivity|reflexivity|]. vm_compute. discriminate.
Defined.

(** A forced restart puts the session back on the two-minute clock.
    [POST /session/:id/refresh] for an id that has a record and is not a
    property name of [Object.prototype], when the credentials store and
    the transport can be opened, replaces the record, connected or not, by
    a pending one created now, with the phone number of the old one; if
    nothing else is handled before it, the first sweep more than two
    minutes later starts the kill of that record, and once that kill has
    run to its end the record is gone and the credentials of the session
    have been purged. *)
Theorem ServerOptimized_refresh_restarts_the_expiry_clock
    env MAX now now' id s st :
  sessions st !! id = Some s →
  inherited_key id = false →
  start_succeeds env st = true →
  120000 < now' - now →
  let st1 := (ServerOptimized.post_refresh env MAX now id st).2 in
  let fresh :=
    fresh_record now (phoneNumber s) (next_handle st) (S (next_handle st)) in
  let sw := ServerOptimized.expireSweep env now' st1 in
  let r := ServerOptimized.expirePending env now' st1 in
  (ServerOptimized.post_refresh env MAX now id st).1 = Returned None
  ∧ sessions st1 !! id = Some fresh
  ∧ (∃ started, sw.1 = Returned started ∧ (id, fresh, true) ∈ started)
  ∧ sessions r.2 !! id = None
  ∧ EmitToSession id "session:killed" "pending_expired" ∈ new_effects st1 r.2
  ∧ DeleteKeysWithPattern (next_handle st) (id +:+ ":*") ∈ new_effects st1 r.2.
Proof.
  intros Hs Hid Hok Hlate. cbv zeta.
  assert (Hr : ServerOptimized.post_refresh env MAX now id st
               = (Returned None,
                  started env now id (phoneNumber s) (torn_down env id true st))).
  { unfold ServerOptimized.post_refresh, getSession.
    change ((gets (λ st0, sessions st0 !! id) ≫= ?k) st)
      with (k (sessions st !! id) st). cbn beta. rewrite Hs.
    unfold mbind, M_bind.
    rewrite ServerOptimized_startSession_spec; [done|by rewrite Hs| |done].
    by rewrite Hs. }
  rewrite Hr. cbn [fst snd].
  set (st1 := started env now id (phoneNumber s) (torn_down env id true st)).
  assert (Hl : sessions st1 !! id
               = Some (fresh_record now (phoneNumber s) (next_handle st)
                         (S (next_handle st)))).
  { subst st1. unfold started. cbn [sessions].
    rewrite torn_down_next_handle. apply lookup_insert_eq. }
  assert (He : expired now'
                 (fresh_record now (phoneNumber s) (next_handle st)
                    (S (next_handle st))) = true).
  { unfold expired, fresh_record, PENDING_EXPIRE_MS. cbn [status createdAt].
    apply andb_true_iff. split; [by destruct (truthy (phoneNumber s))|].
    apply Z.gtb_gt. lia. }
  destruct (ServerOptimized_sweep_kills_expired env now' st1 id _ Hl He Hid)
    as (Hsw & _ & _ & _ & _ & _ & _ & Hgone & _ & _ & Hin & _).
  split_and!; [done|done|exact Hsw|exact Hgone| |].
  - apply Hin. unfold opt_kill_effects. by left.
  - apply Hin. unfold opt_kill_effects. cbn [fresh_record sock authRedis].
    right. apply elem_of_app. right. unfold purge_effects.
    cbn [fresh_record authRedis].
    destruct (deleteKeys_throws env (id +:+ ":*")); by left.
Qed.

Lemma refresh_witness_connected_session_is_purged :
  let st := ServerOptimized.run quiet_env (Some 50) initial boot_connected in
  let st1 := (ServerOptimized.post_refresh quiet_env (Some 50) 1000 "bot1" st).2 in
  let r := ServerOptimized.expirePending quiet_env 130000 st1 in
  sessions st !! "bot1" = Some connected_record
  ∧ inherited_key "bot1" = false
  ∧ start_succeeds quiet_env st = true
  ∧ 120000 < 130000 - 1000
  ∧ sessions st1 !! "bot1" = Some (fresh_record 1000 None 2 3)
  ∧ sessions r.2 !! "bot1" = None
  ∧ DeleteKeysWithPattern 2 "bot1:*" ∈ new_effects st1 r.2.
Proof.
  cbv zeta.
  assert (H : sessions (ServerOptimized.run quiet_env (Some 50) initial
                          boot_connected) !! "bot1"
              = Some connected_record) by (vm_compute; reflexivity).
  assert (Hlate : 120000 < 130000 - 1000) by reflexivity.
  destruct (ServerOptimized_refresh_restarts_the_expiry_clock quiet_env
              (Some 50) 1000 130000 "bot1" _ _ H eq_refl eq_refl Hlate)
    as (_ & H2 & _ & H3 & _ & H5).
  split_and!; [exact H|reflexivity|reflexivity|exact Hlate|exact H2|exact H3
              |exact H5].
Defined.



(** ** Timers *)

Lemma kt_frame t st st' :
  timers st' = timers st → pending_timer t st → pending_timer t st'.
Proof. unfold pending_timer. by intros ->. Qed.

Lemma kt_perform t e : preserves (pending_timer t) (perform e).
Proof. intros st. by apply kt_frame. Qed.

Lemma kt_set_sessions t f : preserves (pending_timer t) (modify (set_sessions f)).
Proof. intros st. by apply kt_frame. Qed.

Lemma kt_set_listeners t f :
  preserves (pending_timer t) (modify (set_listeners f)).
Proof. intros st. by apply kt_frame. Qed.

Lemma kt_fresh_handle t : preserves (pending_timer t) fresh_handle.
Proof. intros st. by apply kt_frame. Qed.

Lemma kt_setTimeout t cb ms : preserves (pending_timer t) (setTimeout cb ms).
Proof.
  intros st H. unfold pending_timer in *. cbn. apply elem_of_app. by left.
Qed.

Create HintDb timers.
#[local] Hint Resolve preserves_ret preserves_throw preserves_gets kt_perform
  kt_set_sessions kt_set_listeners kt_fresh_handle kt_setTimeout : timers.

Ltac kt_step :=
  lazymatch goal with
  | |- preserves _ (mbind _ _) => apply preserves_bind; [|intros ?]
  | |- preserves _ (try_catch _ _) => apply preserves_try_catch
  | |- preserves _ (when _ _) => apply preserves_when
  | |- preserves _ (mret _) => apply preserves_ret
  | |- preserves _ throw => apply preserves_throw
  | |- preserves _ (gets _) => apply preserves_gets
  | |- preserves _ (match ?x with _ => _ end) => destruct x
  | |- preserves _ (let _ := _ in _) => cbv zeta
  | |- preserves _ _ => solve [auto with timers nocore]
  end.

Ltac kt_tac :=
  preserves_unfold; unfold putSession, updateSession, deleteSession;
  repeat kt_step.

Lemma kt_Server_killSession t env id reason :
  preserves (pending_timer t) (Server.killSession env id reason).
Proof. unfold Server.killSession. kt_tac. Qed.

Lemma kt_Server_startSession t env now id phone force :
  preserves (pending_timer t) (Server.startSession env now id phone force).
Proof. unfold Server.startSession. kt_tac. Qed.

#[local] Hint Resolve kt_Server_killSession kt_Server_startSession : timers.

Lemma kt_Server_onConnectionUpdate t env now id phone u :
  preserves (pending_timer t) (Server.onConnectionUpdate env now id phone u).
Proof. unfold Server.onConnectionUpdate, Server.onClose. kt_tac. Qed.

Lemma kt_Server2_onConnectionUpdate t env now id phone u :
  preserves (pending_timer t) (Server2.onConnectionUpdate env now id phone u).
Proof.
  unfold Server2.onConnectionUpdate, Server2.onClose, Server2.killSession.
  kt_tac.
Qed.

Lemma kt_Server_fire t env now cb :
  preserves (pending_timer t) (Server.fire env now cb).
Proof. unfold Server.fire. kt_tac. Qed.

Lemma kt_Server2_fire t env now cb :
  preserves (pending_timer t) (Server2.fire env now cb).
Proof.
  destruct cb; cbn [Server2.fire]; try apply kt_Server_fire;
    unfold Server2.startSession; kt_tac.
Qed.

Lemma kt_Server_expireEntries t env now entries :
  preserves (pending_timer t) (Server.expireEntries env now entries).
Proof.
  induction entries as [|[id s] rest IH]; cbn [Server.expireEntries]; kt_tac.
Qed.

#[local] Hint Resolve kt_Server_onConnectionUpdate kt_Server_fire
  kt_Server2_onConnectionUpdate kt_Server2_fire
  kt_Server_expireEntries : timers.

Lemma kt_drop_other t k :
  timerId t ≠ k →
  preserves (pending_timer t)
    (modify (set_timers (filter (λ x, timerId x ≠ k)))).
Proof.
  intros Hne st H. unfold pending_timer in *. cbn.
  by apply list_elem_of_filter.
Qed.

Lemma kt_Server_handle t env now e :
  e ≠ TimerFires (timerId t) →
  preserves (pending_timer t) (Server.handle env now e).
Proof.
  intros He.
  destruct e; cbn [Server.handle];
    unfold Server.get_start, Server.post_refresh, Server.delete_session,
      Server.get_logout, Server.expirePending, Server.timer_fires;
    try solve [kt_tac].
  assert (Hne : timerId t ≠ timer) by (by intros <-).
  pose proof (kt_drop_other t timer Hne). kt_tac.
Qed.

Lemma kt_Server2_handle t env now e :
  e ≠ TimerFires (timerId t) →
  preserves (pending_timer t) (Server2.handle env now e).
Proof.
  intros He.
  destruct e; cbn [Server2.handle];
    try (apply kt_Server_handle; congruence);
    unfold Server2.timer_fires; try solve [kt_tac].
  assert (Hne : timerId t ≠ timer) by (by intros <-).
  pose proof (kt_drop_other t timer Hne). kt_tac.
Qed.

(** server.js and server-2.js never cancel a timer: whatever happens to
    its session, a pending timer stays pending until it fires. *)
Theorem Server_never_cancels_a_timer env now e st t :
  t ∈ timers st →
  e ≠ TimerFires (timerId t) →
  t ∈ timers (Server.handle env now e st).2
  ∧ t ∈ timers (Server2.handle env now e st).2.
Proof.
  intros Ht He. split.
  - by apply (kt_Server_handle t env now e He st).
  - by apply (kt_Server2_handle t env now e He st).
Qed.

Lemma timer_witness_pairing_timer_survives_delete :
  let st :=
    Server.run quiet_env initial [(0, GetStart "bot2" (Some "+1 555-0100"))] in
  let t := mkTimer 0 1200 (PairingCb "bot2" 1 "+1 555-0100") in
  let st' := (Server.handle quiet_env 100 (DeleteSession "bot2") st).2 in
  t ∈ timers st
  ∧ sessions st' !! "bot2" = None
  ∧ t ∈ timers st'.
Proof.
  cbv zeta.
  assert (Ht : mkTimer 0 1200 (PairingCb "bot2" 1 "+1 555-0100")
               ∈ timers (Server.run quiet_env initial
                           [(0, GetStart "bot2" (Some "+1 555-0100"))])).
  { vm_compute. by left. }
  split_and!; [exact Ht|vm_compute; reflexivity|].
  exact (proj1 (Server_never_cancels_a_timer quiet_env 100
                  (DeleteSession "bot2") _ _ Ht ltac:(discriminate))).
Defined.

(** *** The timer table of server-optimized.js *)

Lemma tt_frame st st' :
  sessions st' = sessions st → sessionTimers st' = sessionTimers st →
  timers st' = timers st → timers_tracked st → timers_tracked st'.
Proof. intros Hs Ht Hm H t. rewrite Hs, Ht, Hm. apply H. Qed.

Lemma tt_perform e : preserves timers_tracked (perform e).
Proof. intros st. by apply tt_frame. Qed.

Lemma tt_set_listeners f : preserves timers_tracked (modify (set_listeners f)).
Proof. intros st. by apply tt_frame. Qed.

Lemma tt_fresh_handle : preserves timers_tracked fresh_handle.
Proof. intros st. by apply tt_frame. Qed.

Lemma tt_updateSession id f : preserves timers_tracked (updateSession id f).
Proof.
  intros st H t Ht. destruct (H t Ht) as [H1 [s Hs]]. split; [done|].
  cbn. destruct (decide (id = callback_session (callback t))) as [->|Hne].
  - rewrite lookup_alter_eq, Hs. by eexists.
  - rewrite lookup_alter_ne by done. by eexists.
Qed.

Lemma tt_filter_timers P `{∀ x, Decision (P x)} :
  preserves timers_tracked (modify (set_timers (filter P))).
Proof.
  intros st Htt t Ht. cbn in Ht. apply list_elem_of_filter in Ht as [_ Ht].
  exact (Htt t Ht).
Qed.

Lemma tt_remove id st l n1 n2 es :
  timers_tracked st →
  timers_tracked
    (mkState (delete id (sessions st)) (delete id (sessionTimers st)) l
       (cleared_timers st id) n1 n2 es).
Proof.
  intros H t. cbn [sessions sessionTimers timers]. intros Ht.
  destruct (H t (cleared_timers_sub _ _ _ Ht)) as [(ts & Hts & Hin) Hs].
  destruct (decide (callback_session (callback t) = id)) as [E|Hne].
  - rewrite E in Hts. unfold cleared_timers in Ht. rewrite Hts in Ht.
    apply list_elem_of_filter in Ht as [Ht _]. by destruct Ht.
  - rewrite !lookup_delete_ne by done. split; [by exists ts|done].
Qed.

Lemma tt_killSession env id reason :
  preserves timers_tracked (ServerOptimized.killSession env id reason).
Proof.
  intros st H. destruct (sessions st !! id) as [s|] eqn:Hs.
  - rewrite (ServerOptimized_killSession_present _ _ _ _ _ Hs). cbn [snd].
    by apply tt_remove.
  - by rewrite ServerOptimized_killSession_absent.
Qed.

Lemma tt_started env now id phone st :
  timers_tracked st → timers_tracked (started env now id phone st).
Proof.
  intros H t. unfold started. cbv zeta.
  cbn [sessions sessionTimers timers]. intros Ht.
  assert (Hkeep : ∀ j, is_Some (sessions st !! j) →
            is_Some (<[id := fresh_record now phone (next_handle st)
                               (S (next_handle st))]> (sessions st) !! j)).
  { intros j Hj. destruct (decide (id = j)) as [->|Hne].
    - rewrite lookup_insert_eq. by eexists.
    - by rewrite lookup_insert_ne. }
  apply elem_of_app in Ht as [Ht|Ht].
  - destruct (H t Ht) as [(ts & Hts & Hin) Hs]. split; [|by apply Hkeep].
    unfold pairing_timer. destruct phone as [p0|]; [|by exists ts].
    destruct (truthy (Some p0) && negb (creds_registered env id));
      cbn [foldr]; [|by exists ts].
    destruct (decide (id = callback_session (callback t))) as [->|Hne].
    + rewrite lookup_insert_eq, Hts. eexists. split; [done|].
      apply elem_of_app. by left.
    + exists ts. by rewrite lookup_insert_ne.
  - unfold pairing_timer in *.
    destruct phone as [p0|]; [|by apply elem_of_nil in Ht].
    destruct (truthy (Some p0) && negb (creds_registered env id));
      [|by apply elem_of_nil in Ht].
    apply list_elem_of_singleton in Ht as ->.
    cbn [callback callback_session foldr timerId].
    rewrite !lookup_insert_eq. split; [|by eexists].
    eexists. split; [done|]. apply elem_of_app. right.
    by apply list_elem_of_singleton.
Qed.

Lemma tt_torn_down env id force st :
  timers_tracked st → timers_tracked (torn_down env id force st).
Proof.
  intros H. unfold torn_down. destruct (sessions st !! id); [|done].
  destruct force; [by apply tt_remove|done].
Qed.

Lemma tt_start_failed env st :
  timers_tracked st → timers_tracked (start_failed env st).
Proof.
  apply tt_frame;
    [apply start_failed_sessions|apply start_failed_sessionTimers
    |apply start_failed_timers].
Qed.

Lemma tt_startSession env MAX now id phone force :
  preserves timers_tracked
    (ServerOptimized.startSession env MAX now id phone force).
Proof.
  intros st H.
  destruct (ServerOptimized_startSession_state env MAX now id phone force st)
    as [->|[->|[->| ->]]].
  - done.
  - by apply tt_perform.
  - by apply tt_started, tt_torn_down.
  - by apply tt_start_failed, tt_torn_down.
Qed.

(** A timer scheduled for a registered session and entered in its table. *)
Lemma tt_schedule cb ms st :
  timers_tracked st → is_Some (sessions st !! callback_session cb) →
  timers_tracked
    ((timer ← setTimeout cb ms;
      ServerOptimized.addSessionTimer (callback_session cb) timer) st).2.
Proof.
  intros H Hsome.
  unfold setTimeout, ServerOptimized.addSessionTimer, modify, mbind, M_bind.
  cbn beta iota. intros t Ht.
  cbn [snd timers push_timer set_sessionTimers] in Ht.
  cbn [snd sessions sessionTimers push_timer set_sessionTimers].
  apply elem_of_app in Ht as [Ht|Ht].
  - destruct (H t Ht) as [(ts & Hts & Hin) Hs]. split; [|done].
    destruct (decide (callback_session cb = callback_session (callback t)))
      as [E|Hne].
    + rewrite <- E in *. rewrite lookup_insert_eq, Hts. eexists.
      split; [done|]. apply elem_of_app. by left.
    + exists ts. by rewrite lookup_insert_ne.
  - apply list_elem_of_singleton in Ht as ->. cbn [callback timerId].
    rewrite lookup_insert_eq. split; [|done].
    eexists. split; [done|]. apply elem_of_app. right.
    by apply list_elem_of_singleton.
Qed.

Create HintDb tracked.
#[local] Hint Resolve preserves_ret preserves_throw preserves_gets tt_perform
  tt_set_listeners tt_fresh_handle tt_updateSession tt_filter_timers
  tt_killSession tt_startSession : tracked.

Ltac tt_step :=
  lazymatch goal with
  | |- preserves _ (mbind _ _) => apply preserves_bind; [|intros ?]
  | |- preserves _ (try_catch _ _) => apply preserves_try_catch
  | |- preserves _ (when _ _) => apply preserves_when
  | |- preserves _ (mret _) => apply preserves_ret
  | |- preserves _ throw => apply preserves_throw
  | |- preserves _ (gets _) => apply preserves_gets
  | |- preserves _ (match ?x with _ => _ end) => destruct x
  | |- preserves _ (let _ := _ in _) => cbv zeta
  | |- preserves _ _ => solve [auto with tracked nocore]
  end.

Ltac tt_tac := preserves_unfold; repeat tt_step.

Ltac by_preserves H :=
  lazymatch goal with
  | |- ?I (?m ?st).2 =>
      let Hp := fresh in
      enough (preserves I m) as Hp by exact (Hp st H)
  end.

Lemma tt_alter_kept f id st :
  timers_tracked st → is_Some (sessions st !! id) →
  timers_tracked (set_sessions (alter f id) st)
  ∧ is_Some (sessions (set_sessions (alter f id) st) !! id).
Proof.
  intros H [s Hs]. split; [by apply (tt_updateSession id f st)|].
  cbn. rewrite lookup_alter_eq, Hs. by eexists.
Qed.

Lemma tt_onClose env id phone s code st :
  timers_tracked st → is_Some (sessions st !! id) →
  timers_tracked (ServerOptimized.onClose env id phone s code st).2.
Proof.
  intros H Hsome. unfold ServerOptimized.onClose. cbv zeta.
  destruct (isReconnecting s); [done|].
  destruct (_ || _ || _ || _ || _).
  { by_preserves H. tt_tac. }
  destruct (_ || _ || _ || _).
  { unfold updateSession, modify. unfold mbind at 1, M_bind at 1.
    cbn beta iota.
    destruct (tt_alter_kept (set_reconnectAttempts (reconnectAttempts s + 1))
                id st H Hsome) as [H1 Hs1].
    destruct (_ <=? _).
    - unfold mbind at 1, M_bind at 1. cbn beta iota.
      destruct (tt_alter_kept (set_isReconnecting true) id _ H1 Hs1)
        as [H2 Hs2].
      by apply (tt_schedule (RestartIfNotReconnecting id (sock s) phone)).
    - by_preserves H1. tt_tac. }
  destruct (code_is code DisconnectReason.restartRequired); [|done].
  unfold updateSession, modify. unfold mbind at 1, M_bind at 1.
  cbn beta iota.
  destruct (tt_alter_kept (set_isReconnecting true) id st H Hsome) as [H1 Hs1].
  by apply (tt_schedule (RestartClearFlag id (sock s) phone)).
Qed.

Lemma tt_kept_perform id e :
  preserves (λ st, timers_tracked st ∧ is_Some (sessions st !! id)) (perform e).
Proof. intros st [H Hs]. split; [by apply tt_perform|done]. Qed.

Lemma tt_kept_updateSession id f :
  preserves (λ st, timers_tracked st ∧ is_Some (sessions st !! id))
    (updateSession id f).
Proof. intros st [H Hs]. by apply tt_alter_kept. Qed.

#[local] Hint Resolve tt_kept_perform tt_kept_updateSession : tracked.

Lemma tt_connectionListener env now id phone u :
  preserves timers_tracked
    (ServerOptimized.connectionListener env now id phone u).
Proof.
  intros st H. unfold ServerOptimized.connectionListener, getSession.
  change ((gets (λ st0, sessions st0 !! id) ≫= ?k) st)
    with (k (sessions st !! id) st). cbn beta.
  destruct (sessions st !! id) as [s|] eqn:Hs; [|done].
  set (qrPart := match u_qr u with Some _ => _ | None => _ end).
  assert (Hq : preserves
                 (λ st, timers_tracked st ∧ is_Some (sessions st !! id)) qrPart).
  { subst qrPart. tt_tac. }
  destruct (Hq st) as [H1 Hs1]; [by rewrite Hs|].
  unfold mbind at 1, M_bind at 1.
  destruct (qrPart st) as [[[]|] st1]; cbn [snd] in *; [|done].
  destruct (connection u) as [[| |]|]; try done.
  - by_preserves H1. tt_tac.
  - by apply tt_onClose.
Qed.

#[local] Hint Resolve tt_connectionListener : tracked.

Lemma tt_fire env MAX now cb :
  preserves timers_tracked (ServerOptimized.fire env MAX now cb).
Proof. unfold ServerOptimized.fire. tt_tac. Qed.

Lemma tt_timer_fires env MAX now t :
  preserves timers_tracked (ServerOptimized.timer_fires env MAX now t).
Proof.
  unfold ServerOptimized.timer_fires. pose proof (tt_fire env MAX now).
  tt_tac.
Qed.

Lemma tt_killSession_finish env id s alive :
  preserves timers_tracked (ServerOptimized.killSession_finish env id s alive).
Proof.
  intros st H. destruct alive.
  - rewrite ServerOptimized_killSession_finish_spec. cbn [snd].
    by apply tt_remove.
  - assert (E : (ServerOptimized.killSession_finish env id s false st).2
                = mkState (delete id (sessions st))
                    (delete id (sessionTimers st)) (listeners st)
                    (cleared_timers st id) (next_handle st) (next_timer st)
                    (effects st ++ [BroadcastSessionStatus])).
    { unfold ServerOptimized.killSession_finish,
        ServerOptimized.clearSessionTimers, cleared_timers.
      munfold. cbn beta iota. proj_red.
      destruct (sessionTimers st !! id) as [ts|] eqn:Ht; cbn beta iota;
        cbn [snd]; apply State_eq; cbn; rewrite ?(delete_id _ _ Ht);
        reflexivity. }
    rewrite E. by apply tt_remove.
Qed.

Lemma tt_expirePending env now :
  preserves timers_tracked (ServerOptimized.expirePending env now).
Proof.
  apply sweep_expirePending; intros.
  - unfold ServerOptimized.killSession_begin,
      ServerOptimized.cleanupSessionSocket. tt_tac.
  - apply tt_killSession_finish.
  - apply tt_perform.
Qed.

Lemma tt_get_logout env id :
  preserves timers_tracked (ServerOptimized.get_logout env id).
Proof.
  intros st H. destruct (sessions st !! id) as [s|] eqn:Hs.
  - rewrite (ServerOptimized_get_logout_spec env id st s Hs).
    destruct (logout_throws env (sock s)); cbn [snd].
    + by apply tt_perform.
    + by apply tt_remove.
  - unfold ServerOptimized.get_logout, getSession.
    change ((gets (λ st0, sessions st0 !! id) ≫= ?k) st)
      with (k (sessions st !! id) st). cbn beta. by rewrite Hs.
Qed.

#[local] Hint Resolve tt_fire tt_timer_fires tt_expirePending tt_get_logout
  : tracked.

Lemma tt_handle env MAX now e :
  preserves timers_tracked (ServerOptimized.handle env MAX now e).
Proof.
  unfold ServerOptimized.handle, ServerOptimized.get_start,
    ServerOptimized.post_refresh, ServerOptimized.delete_session.
  tt_tac.
Qed.

Lemma timers_tracked_initial : timers_tracked initial.
Proof. intros t Ht. by apply elem_of_nil in Ht. Qed.

Lemma tt_run env MAX evs st :
  timers_tracked st → timers_tracked (ServerOptimized.run env MAX st evs).
Proof.
  unfold ServerOptimized.run. revert st.
  induction evs as [|[now e] evs IH]; intros st H; [done|].
  cbn [foldl]. apply IH. by apply tt_handle.
Qed.

Lemma tt_during env MAX evs :
  preserves timers_tracked
    (modify (λ st, ServerOptimized.run env MAX st evs)).
Proof. intros st H. by apply tt_run. Qed.

#[local] Hint Resolve tt_during : tracked.

Lemma tt_restoreSessions env MAX keys :
  preserves timers_tracked (ServerOptimizedBoot.restoreSessions env MAX keys).
Proof.
  assert (Hk : ∀ ks, preserves timers_tracked
                       (ServerOptimizedBoot.restoreKeys env MAX ks)).
  { induction ks as [|k rest IH];
      cbn [ServerOptimizedBoot.restoreKeys]; tt_tac. }
  unfold ServerOptimizedBoot.restoreSessions. tt_tac.
Qed.

(** In server-optimized.js no pairing or restart timer is left behind:
    after the restore at boot and whatever requests, socket events, timers
    and sweeps follow, every such timer still pending was scheduled for a
    session that is registered now, and [sessionTimers] lists it under that
    session's id.  Every path that removes a record ([killSession], a forced
    restart, [GET /logout]) cancels the timers of the id first. *)
Theorem ServerOptimized_pending_timers_belong_to_registered_sessions
    env MAX keys evs :
  timers_tracked
    (ServerOptimized.run env MAX
       (ServerOptimizedBoot.restoreSessions env MAX keys initial).2 evs).
Proof.
  unfold ServerOptimized.run.
  generalize (tt_restoreSessions env MAX keys initial timers_tracked_initial).
  generalize (ServerOptimizedBoot.restoreSessions env MAX keys initial).2.
  induction evs as [|[now e] evs IH]; intros st H; [done|].
  cbn [foldl]. apply IH. by apply tt_handle.
Qed.
